(** * The YouTube statistics plugin of LEDMatrix (src/manager.py)

    A shallow embedding of [YouTubeStatsPlugin]: the cached fetch
    ([_get_channel_stats]), the raster composer ([_create_display]) and
    the two host entry points ([update], [display]), together with the
    Python value semantics these functions rely on, and the properties
    of the plugin's specification proved or refuted on that embedding.
    The constructor ([__init__], [_initialize_display]) and
    [validate_config] are embedded as well, with further properties of
    the code at the end of the file.

    The plugin object is a record ([plugin]); everything it talks to
    (cache manager, HTTP endpoint, usage counter, display manager,
    logger) is gathered in a second record ([host]) that also keeps the
    ordered list of calls made to those collaborators. *)

From Stdlib Require Import ZArith List Lia Ascii String Bool.
From Stdlib Require Import Floats.SpecFloat.
From Stdlib Require Import DecimalN DecimalPos.
From stdpp Require Import gmap list strings.

Local Open Scope Z_scope.
Set Warnings "-register-all".

(** ** Python strings and exceptions *)

(** A Python [str] is a sequence of code points: [len] and slicing
    count code points, not bytes. *)
Definition pystr : Type := list N.

(** A literal of the source text. *)
Definition py (s : string) : pystr :=
  map N_of_ascii (list_ascii_of_string s).

Arguments py : simpl never.

(** The exception classes that the modelled statements can raise. *)
Inductive exn : Type :=
| KeyError
| IndexError
| ValueError
| TypeError
| OverflowError
| ZeroDivisionError
| RuntimeError
| RecursionError
| RequestException.

Inductive result (A : Type) : Type :=
| Ok (a : A)
| Raise (e : exn).

Arguments Ok {A} a.
Arguments Raise {A} e.

#[global] Instance result_ret : MRet result := fun _ a => Ok a.
#[global] Instance result_bind : MBind result := fun _ _ f r =>
  match r with
  | Ok a => f a
  | Raise e => Raise e
  end.

(** ** Python values: what [response.json()] can return *)

Inductive pyval : Type :=
| VNone
| VBool (b : bool)
| VInt (z : Z)
| VFloat (f : spec_float)
| VStr (s : pystr)
| VList (l : list pyval)
| VDict (d : list (pystr * pyval)).

(** [d.get(k)] on the items of a dict. *)
Fixpoint dict_get {A : Type} (k : pystr) (d : list (pystr * A)) : option A :=
  match d with
  | [] => None
  | (k', v) :: d' => if bool_decide (k' = k) then Some v else dict_get k d'
  end.

(** *** Floats (IEEE 754 binary64, as CPython's [float]) *)

Definition fmul : spec_float -> spec_float -> spec_float := SFmul 53 1024.
Definition fdiv : spec_float -> spec_float -> spec_float := SFdiv 53 1024.

(** The literal [0.6]: the double nearest to 6/10. *)
Definition float_0_6 : spec_float := S754_finite false 5404319552844595 (-53).

(** [float(z)], the conversion applied to an [int] operand of a float
    operation: nearest double, ties to even, [OverflowError] beyond the
    range. *)
Definition float_of_int (z : Z) : result spec_float :=
  match binary_normalize 53 1024 z 0 false with
  | S754_infinity _ => Raise OverflowError
  | f => Ok f
  end.

(** [int(f)]: truncation toward zero. *)
Definition int_of_float (f : spec_float) : result Z :=
  match f with
  | S754_zero _ => Ok 0
  | S754_infinity _ => Raise OverflowError
  | S754_nan => Raise ValueError
  | S754_finite s m e =>
      let a := Z.shiftl (Z.pos m) e in
      Ok (if s then - a else a)
  end.

(** [a / b] on two [int]s: the exact quotient rounded once. *)
Definition int_as_float (z : Z) : spec_float :=
  match z with
  | Z0 => S754_zero false
  | Z.pos p => S754_finite false p 0
  | Z.neg p => S754_finite true p 0
  end.

Definition py_truediv (a b : Z) : result spec_float :=
  if b =? 0 then Raise ZeroDivisionError
  else match fdiv (int_as_float a) (int_as_float b) with
       | S754_infinity _ => Raise OverflowError
       | f => Ok f
       end.

(** [z * f] with [z] an [int] and [f] a [float]. *)
Definition py_mul_int_float (z : Z) (f : spec_float) : result spec_float :=
  x ← float_of_int z; Ok (fmul x f).

(** *** Truth value, equality *)

Definition truthy (v : pyval) : bool :=
  match v with
  | VNone => false
  | VBool b => b
  | VInt z => negb (z =? 0)
  | VFloat (S754_zero _) => false
  | VFloat _ => true
  | VStr s => negb (bool_decide (s = []))
  | VList l => match l with [] => false | _ => true end
  | VDict d => match d with [] => false | _ => true end
  end.

Definition float_eq_int (f : spec_float) (z : Z) : bool :=
  match f with
  | S754_zero _ => z =? 0
  | S754_finite s m e =>
      let mz := if s then Z.neg m else Z.pos m in
      if 0 <=? e then z =? mz * 2 ^ e else z * 2 ^ (- e) =? mz
  | _ => false
  end.

Definition float_eq (f g : spec_float) : bool :=
  match f, g with
  | S754_zero _, S754_zero _ => true
  | S754_infinity s, S754_infinity t => Bool.eqb s t
  | S754_finite s m e, S754_finite t n k =>
      Bool.eqb s t &&
      (Z.pos m * 2 ^ (e - Z.min e k) =? Z.pos n * 2 ^ (k - Z.min e k))
  | _, _ => false
  end.

(** The numeric tower: [bool] and [int] compare as integers, and with
    [float] by exact value. *)
Definition num_of (v : pyval) : option (Z + spec_float) :=
  match v with
  | VBool b => Some (inl (if b then 1 else 0))
  | VInt z => Some (inl z)
  | VFloat f => Some (inr f)
  | _ => None
  end.

Definition num_eq (x y : Z + spec_float) : bool :=
  match x, y with
  | inl a, inl b => a =? b
  | inl a, inr g => float_eq_int g a
  | inr f, inl b => float_eq_int f b
  | inr f, inr g => float_eq f g
  end.

(** [a == b].  Containers are compared item by item. *)
Fixpoint py_eq (a b : pyval) {struct a} : bool :=
  match a, b with
  | VNone, VNone => true
  | VStr s, VStr t => bool_decide (s = t)
  | VList l, VList k =>
      (fix items (l k : list pyval) {struct l} : bool :=
         match l, k with
         | [], [] => true
         | x :: l', y :: k' => py_eq x y && items l' k'
         | _, _ => false
         end) l k
  | VDict d, VDict e =>
      (length d =? length e)%nat &&
      (fix items (d : list (pystr * pyval)) {struct d} : bool :=
         match d with
         | [] => true
         | (k, v) :: d' =>
             match dict_get k e with
             | Some w => py_eq v w
             | None => false
             end && items d'
         end) d
  | _, _ =>
      match num_of a, num_of b with
      | Some x, Some y => num_eq x y
      | _, _ => false
      end
  end.

(** [a != b]. *)
Definition py_ne (a b : pyval) : bool := negb (py_eq a b).

(** *** Membership and subscription *)

Fixpoint is_prefix (p s : pystr) : bool :=
  match p, s with
  | [], _ => true
  | c :: p', d :: s' => (c =? d)%N && is_prefix p' s'
  | _ :: _, [] => false
  end.

Fixpoint is_substring (p s : pystr) : bool :=
  is_prefix p s ||
  match s with
  | [] => false
  | _ :: s' => is_substring p s'
  end.

(** ['k' in c]. *)
Definition py_in (k : pystr) (c : pyval) : result bool :=
  match c with
  | VDict d => Ok (match dict_get k d with Some _ => true | None => false end)
  | VList l => Ok (existsb (py_eq (VStr k)) l)
  | VStr s => Ok (is_substring k s)
  | _ => Raise TypeError
  end.

(** [c['k']]. *)
Definition py_getitem (c : pyval) (k : pystr) : result pyval :=
  match c with
  | VDict d => match dict_get k d with Some v => Ok v | None => Raise KeyError end
  | _ => Raise TypeError
  end.

(** [c[0]].  The keys of a decoded JSON object are all strings. *)
Definition py_getitem0 (c : pyval) : result pyval :=
  match c with
  | VList (x :: _) => Ok x
  | VList [] => Raise IndexError
  | VStr (ch :: _) => Ok (VStr [ch])
  | VStr [] => Raise IndexError
  | VDict _ => Raise KeyError
  | _ => Raise TypeError
  end.

(** *** [int(...)] *)

(** The characters [int()] skips at both ends of a [str]: the ASCII
    white space of C (tab, line feed, vertical tab, form feed, carriage
    return and the space) and the white space beyond ASCII (U+0085,
    U+00A0, U+1680, U+2000 to U+200A, U+2028, U+2029, U+202F, U+205F,
    U+3000).  The separators U+001C to U+001F, which [str.strip]
    removes, are not among them: on a text that starts with U+001C
    [int()] raises [ValueError]. *)
Definition is_space (c : N) : bool :=
  ((9 <=? c) && (c <=? 13) || (c =? 32) ||
   (c =? 133) || (c =? 160) || (c =? 5760) ||
   (8192 <=? c) && (c <=? 8202) || (c =? 8232) || (c =? 8233) ||
   (c =? 8239) || (c =? 8287) || (c =? 12288))%N.

Fixpoint lstrip (s : pystr) : pystr :=
  match s with
  | c :: s' => if is_space c then lstrip s' else s
  | [] => []
  end.

Definition strip (s : pystr) : pystr := rev (lstrip (rev (lstrip s))).

(** The decimal digits of Unicode 14.0 (the database of CPython 3.11)
    come in 66 runs of ten, each from its zero to its nine: the ASCII
    digits, the Arabic-Indic ones from U+0660, the Devanagari ones from
    U+0966, the fullwidth ones from U+FF10, and so on.  These are the
    code points of the zeros. *)
Definition decimal_zeros : list N :=
  [ 48; 1632; 1776; 1984; 2406; 2534; 2662; 2790; 2918; 3046; 3174;
    3302; 3430; 3558; 3664; 3792; 3872; 4160; 4240; 6112; 6160; 6470;
    6608; 6784; 6800; 6992; 7088; 7232; 7248; 42528; 43216; 43264;
    43472; 43504; 43600; 44016; 65296; 66720; 68912; 69734; 69872;
    69942; 70096; 70384; 70736; 70864; 71248; 71360; 71472; 71904;
    72016; 72784; 73040; 73120; 92768; 92864; 93008; 120782; 120792;
    120802; 120812; 120822; 123200; 123632; 125264; 130032 ]%N.

(** The value of a decimal digit of any script, as [int()] reads it. *)
Definition digit_value (c : N) : option Z :=
  match List.find (fun zero => (zero <=? c) && (c <=? zero + 9))%N decimal_zeros with
  | Some zero => Some (Z.of_N (c - zero))
  | None => None
  end.

(** Decimal digits, with single underscores allowed between digits. *)
Fixpoint digits_value (acc : Z) (after_digit : bool) (s : pystr) : option Z :=
  match s with
  | [] => if after_digit then Some acc else None
  | c :: s' =>
      if (c =? 95)%N then
        if after_digit then digits_value acc false s' else None
      else
        match digit_value c with
        | Some d => digits_value (10 * acc + d) true s'
        | None => None
        end
  end.

(** The integer that [int(s)] reads from a [str]: surrounding white
    space, an optional sign, decimal digits with single underscores
    between them; anything else is a [ValueError].  The limit on the
    number of digits is applied by [py_int]. *)
Definition int_of_str (s : pystr) : result Z :=
  let t := strip s in
  let signed :=
    match t with
    | 43%N :: r => digits_value 0 false r
    | 45%N :: r => Z.opp <$> digits_value 0 false r
    | _ => digits_value 0 false t
    end in
  match signed with
  | Some z => Ok z
  | None => Raise ValueError
  end.

(** [sys.get_int_max_str_digits()]: from CPython 3.11 on, [int()]
    refuses a text with more decimal digits than this, 4300 unless the
    interpreter is told otherwise, with a [ValueError]. *)
Definition int_max_str_digits : Z := 4300.

Definition is_digit (c : N) : bool :=
  match digit_value c with Some _ => true | None => false end.

(** The number of digits in a text; signs, underscores and white space
    do not count. *)
Definition digit_count (s : pystr) : Z :=
  Z.of_nat (length (List.filter is_digit s)).

(** [int(v)]. *)
Definition py_int (v : pyval) : result Z :=
  match v with
  | VInt z => Ok z
  | VBool b => Ok (if b then 1 else 0)
  | VFloat f => int_of_float f
  | VStr s =>
      if int_max_str_digits <? digit_count s then Raise ValueError
      else int_of_str s
  | VNone | VList _ | VDict _ => Raise TypeError
  end.

(** *** Slicing and formatting *)

(** [s[:k]]: a negative [k] counts from the end. *)
Definition slice_to {A : Type} (k : Z) (s : list A) : list A :=
  if k <? 0 then take (Z.to_nat (Z.of_nat (length s) + k)) s
  else take (Z.to_nat k) s.

Fixpoint uint_digits (u : Decimal.uint) : pystr :=
  match u with
  | Decimal.Nil => []
  | Decimal.D0 u' => 48%N :: uint_digits u'
  | Decimal.D1 u' => 49%N :: uint_digits u'
  | Decimal.D2 u' => 50%N :: uint_digits u'
  | Decimal.D3 u' => 51%N :: uint_digits u'
  | Decimal.D4 u' => 52%N :: uint_digits u'
  | Decimal.D5 u' => 53%N :: uint_digits u'
  | Decimal.D6 u' => 54%N :: uint_digits u'
  | Decimal.D7 u' => 55%N :: uint_digits u'
  | Decimal.D8 u' => 56%N :: uint_digits u'
  | Decimal.D9 u' => 57%N :: uint_digits u'
  end.

(** Digits from the least significant one, a comma after every third. *)
Fixpoint commas (in_group : nat) (ds : pystr) : pystr :=
  match ds with
  | [] => []
  | d :: ds' =>
      if (in_group =? 3)%nat then 44%N :: d :: commas 1 ds'
      else d :: commas (S in_group) ds'
  end.

(** [f"{z:,}"] for an [int]. *)
Definition format_thousands (z : Z) : pystr :=
  let ds := uint_digits (N.to_uint (Z.abs_N z)) in
  let body := rev (commas 0 (rev ds)) in
  if z <? 0 then 45%N :: body else body.

(** ** The plugin and its collaborators *)

(** The dict built by [_get_channel_stats] (lines 161-165) always has
    the three keys ['title'], ['subscribers'] and ['views'], so it is a
    record here: the title is the response's value as it came, the two
    counts are what [int] returned.  Such a dict is never empty, hence
    always true in a condition, and [d.get(k)] always finds [k]. *)
Record stats : Type := {
  title : pyval;
  subscribers : Z;
  views : Z;
}.

(** [youtube_logo]: the two attributes of the PIL image that are read. *)
Record Logo : Type := {
  logo_width_px : Z;
  logo_height_px : Z;
}.

(** [font]: [text_width f s] is [bbox[2] - bbox[0]] for
    [bbox = draw.textbbox((0, 0), s, font=f)]. *)
Record Font : Type := {
  text_width : pystr -> Z;
}.

(** What [_create_display] draws: the canvas, the resized logo and
    where it is pasted, and the three [draw.text] calls in order. *)
Record image : Type := {
  img_size : Z * Z;
  img_logo_size : Z * Z;
  img_logo_at : Z * Z;
  img_texts : list (Z * Z * pystr);
}.

Inductive level : Type := LDebug | LInfo | LWarning | LError.

(** The calls the plugin makes to its collaborators.  A [Log] keeps the
    fixed text of the message, up to its first placeholder. *)
Inductive event : Type :=
| CacheGet (key : pystr) (max_age : Z)
| CacheSet (key : pystr) (value : stats) (ttl : Z)
| HttpGet (url : pystr)
| IncrementApiCounter (kind : pystr) (count : Z)
| Clear
| SetImage (img : image)
| UpdateDisplay
| Log (lvl : level) (msg : string).

(** What [requests.get(url, timeout=10)] and [response.json()] give:
    no response at all (connection error, timeout), or a status with
    what decoding the body does: [response.json()] returns a value or
    raises.  What it raises on a body that is not JSON is requests'
    [JSONDecodeError], a [RequestException] (a plain [ValueError] with
    older versions of requests); on a body nested too deeply it is the
    decoder's [RecursionError]. *)
Inductive http_reply : Type :=
| NoReply
| Reply (status : Z) (body : result pyval).

(** [increment_api_counter]: the stub defined when the import fails,
    the web interface's function, or one that raises. *)
Inductive counter : Type := CounterStub | CounterCounts | CounterRaises.

(** An entry of the cache: under the plugin's key the values are the
    dicts that [_get_channel_stats] stored there. *)
Record cache_entry : Type := {
  entry_value : stats;
  stored_at : Z;
}.

Record host : Type := {
  now : Z;
  cache : gmap pystr cache_entry;
  remote : nat -> http_reply;
  requests : nat;
  api_counter : counter;
  api_calls : Z;
  matrix_width : Z;
  matrix_height : Z;
  pillow_draws : image -> bool;
  calls : list event;
}.

Record plugin : Type := {
  plugin_id : pystr;
  enabled : bool;
  channel_id : pystr;
  api_key : pystr;
  update_interval_config : Z;
  channel_stats : option stats;
  font : option Font;
  youtube_logo : option Logo;
  last_displayed_stats : option stats;
}.

Definition record (e : event) (h : host) : host :=
  {| now := now h; cache := cache h; remote := remote h;
     requests := requests h; api_counter := api_counter h;
     api_calls := api_calls h; matrix_width := matrix_width h;
     matrix_height := matrix_height h; pillow_draws := pillow_draws h;
     calls := calls h ++ [e] |}.

Definition with_cache (c : gmap pystr cache_entry) (h : host) : host :=
  {| now := now h; cache := c; remote := remote h;
     requests := requests h; api_counter := api_counter h;
     api_calls := api_calls h; matrix_width := matrix_width h;
     matrix_height := matrix_height h; pillow_draws := pillow_draws h;
     calls := calls h |}.

Definition with_requests (n : nat) (h : host) : host :=
  {| now := now h; cache := cache h; remote := remote h;
     requests := n; api_counter := api_counter h;
     api_calls := api_calls h; matrix_width := matrix_width h;
     matrix_height := matrix_height h; pillow_draws := pillow_draws h;
     calls := calls h |}.

Definition with_api_calls (n : Z) (h : host) : host :=
  {| now := now h; cache := cache h; remote := remote h;
     requests := requests h; api_counter := api_counter h;
     api_calls := n; matrix_width := matrix_width h;
     matrix_height := matrix_height h; pillow_draws := pillow_draws h;
     calls := calls h |}.

Definition with_api_counter (c : counter) (h : host) : host :=
  {| now := now h; cache := cache h; remote := remote h;
     requests := requests h; api_counter := c;
     api_calls := api_calls h; matrix_width := matrix_width h;
     matrix_height := matrix_height h; pillow_draws := pillow_draws h;
     calls := calls h |}.

Definition with_channel_stats (s : option stats) (self : plugin) : plugin :=
  {| plugin_id := plugin_id self; enabled := enabled self;
     channel_id := channel_id self; api_key := api_key self;
     update_interval_config := update_interval_config self;
     channel_stats := s; font := font self;
     youtube_logo := youtube_logo self;
     last_displayed_stats := last_displayed_stats self |}.

Definition with_last_displayed_stats (s : option stats) (self : plugin) : plugin :=
  {| plugin_id := plugin_id self; enabled := enabled self;
     channel_id := channel_id self; api_key := api_key self;
     update_interval_config := update_interval_config self;
     channel_stats := channel_stats self; font := font self;
     youtube_logo := youtube_logo self;
     last_displayed_stats := s |}.

(** *** The logger and the display manager *)

Definition log (lvl : level) (msg : string) (h : host) : host :=
  record (Log lvl msg) h.

(** [display_manager.clear()]. *)
Definition clear (h : host) : host := record Clear h.

(** [display_manager.image = img]. *)
Definition set_image (img : image) (h : host) : host := record (SetImage img) h.

(** [display_manager.update_display()]. *)
Definition update_display (h : host) : host := record UpdateDisplay h.

(** *** The cache manager *)

(** Modelled from the spec: the host's cache manager is not part of
    this repository.  [get(key, maxAge)] returns the value stored under
    [key] when that entry is younger than [maxAge], and is absent
    otherwise; clock readings are integers. *)
Definition cache_get (key : pystr) (max_age : Z) (h : host) : option stats * host :=
  let found :=
    match cache h !! key with
    | Some e => if now h - stored_at e <? max_age then Some (entry_value e) else None
    | None => None
    end in
  (found, record (CacheGet key max_age) h).

(** Modelled from the spec: [set(key, value, ttl)] of the host's cache
    manager stores [value] under [key], stamped with the current time. *)
Definition cache_set (key : pystr) (value : stats) (ttl : Z) (h : host) : host :=
  record (CacheSet key value ttl)
    (with_cache (<[key := {| entry_value := value; stored_at := now h |}]> (cache h)) h).

(** *** The endpoint and the usage counter *)

(** [requests.get(url, timeout=10)]: the next reply of the endpoint. *)
Definition requests_get (url : pystr) (h : host) : http_reply * host :=
  (remote h (requests h), record (HttpGet url) (with_requests (S (requests h)) h)).

(** [response.raise_for_status()] raises for the 4xx and 5xx codes. *)
Definition raise_for_status (status : Z) : result unit :=
  if (400 <=? status) && (status <? 600) then Raise RequestException else Ok tt.

(** [increment_api_counter(kind, count)]. *)
Definition increment_api_counter (kind : pystr) (count : Z) (h : host) : result unit * host :=
  let h' := record (IncrementApiCounter kind count) h in
  match api_counter h with
  | CounterStub => (Ok tt, h')
  | CounterCounts => (Ok tt, with_api_calls (api_calls h + count) h')
  | CounterRaises => (Raise RuntimeError, h')
  end.

(** ** The plugin's methods *)

(** Lines 159-173: the record read out of the decoded body.  [Ok None]
    is the branch that logs "No channel data found". *)
Definition read_channel (data : pyval) : result (option stats) :=
  has_items ← py_in (py "items") data;
  if has_items : bool return result (option stats) then
    items ← py_getitem data (py "items");
    if truthy items return result (option stats) then
      channel ← py_getitem0 items;
      snippet ← py_getitem channel (py "snippet");
      t ← py_getitem snippet (py "title");
      statistics ← py_getitem channel (py "statistics");
      subscriber_count ← py_getitem statistics (py "subscriberCount");
      subs ← py_int subscriber_count;
      statistics' ← py_getitem channel (py "statistics");
      view_count ← py_getitem statistics' (py "viewCount");
      vws ← py_int view_count;
      Ok (Some {| title := t; subscribers := subs; views := vws |})
    else Ok None
  else Ok None.

(** The classes named by the two [except] clauses of
    [_get_channel_stats]. *)
Definition caught_by_fetch (e : exn) : bool :=
  match e with
  | RequestException | KeyError | ValueError | TypeError => true
  | _ => false
  end.

(** Lines 174-179: an exception raised in the [try] block is caught by
    the first clause that names its class, and leaves the method when
    none does. *)
Definition except_clauses (e : exn) (h : host) : result (option stats) * host :=
  match e with
  | RequestException => (Ok None, log LError "Error fetching YouTube stats: " h)
  | KeyError | ValueError | TypeError =>
      (Ok None, log LError "Error parsing YouTube API response: " h)
  | _ => (Raise e, h)
  end.

Definition cache_key_of (self : plugin) : pystr :=
  plugin_id self ++ py "_channel_stats".

Definition url_of (self : plugin) : pystr :=
  py "https://www.googleapis.com/youtube/v3/channels?part=statistics,snippet&id="
    ++ channel_id self ++ py "&key=" ++ api_key self.

Arguments cache_key_of : simpl never.
Arguments url_of : simpl never.

(** [_get_channel_stats(self)].  The result is what the call returns,
    or the exception that leaves it.  A connection error, a timeout
    and the [HTTPError] of [raise_for_status] are [RequestException]s;
    what [response.json()] and [read_channel] raise is whatever they
    raise.  All of them go through the [except] clauses. *)
Definition _get_channel_stats (self : plugin) (h : host) : result (option stats) * host :=
  if bool_decide (api_key self = []) then
    (Ok None, log LError "YouTube API key not configured" h)
  else if bool_decide (channel_id self = []) then
    (Ok None, log LError "YouTube channel ID not configured" h)
  else
    let cache_key := cache_key_of self in
    let '(cached, h) := cache_get cache_key (update_interval_config self) h in
    match cached with
    | Some c => (Ok (Some c), log LDebug "Using cached channel stats" h)
    | None =>
        let '(response, h) := requests_get (url_of self) h in
        match response with
        | NoReply => except_clauses RequestException h
        | Reply status body =>
            match raise_for_status status, body with
            | Raise e, _ => except_clauses e h
            | Ok _, Raise e => except_clauses e h
            | Ok _, Ok data =>
                let '(_, h) := increment_api_counter (py "youtube") 1 h in
                match read_channel data with
                | Ok (Some s) =>
                    let h := cache_set cache_key s (update_interval_config self) h in
                    (Ok (Some s), log LInfo "Fetched stats for channel: " h)
                | Ok None =>
                    (Ok None, log LWarning "No channel data found for channel ID: " h)
                | Raise e => except_clauses e h
                end
            end
        end
    end.

(** Lines 216-218: the name as drawn. *)
Definition truncate_name (max_chars : Z) (channel_name : pystr) : pystr :=
  if Z.of_nat (length channel_name) >? max_chars
  then slice_to (max_chars - 3) channel_name ++ py "..."
  else channel_name.

(** Lines 194-195: the size of the resized logo. *)
Definition logo_size (matrix_height : Z) (logo : Logo) : result (Z * Z) :=
  scaled ← py_mul_int_float matrix_height float_0_6;
  logo_height ← int_of_float scaled;
  ratio ← py_truediv logo_height (logo_height_px logo);
  widened ← py_mul_int_float (logo_width_px logo) ratio;
  logo_width ← int_of_float widened;
  Ok (logo_width, logo_height).

(** Line 206. *)
Definition right_section_x (logo_width : Z) : Z := 2 + logo_width + 4.

(** Line 216. *)
Definition max_chars (matrix_width right_section_x : Z) : Z :=
  (matrix_width - right_section_x - 4) `div` 8.

(** The [try] block of [_create_display].  A title that is not a [str]
    does not get through it: [len] raises [TypeError] on [None] and on
    numbers, and a list or a dict fails at the slice, at [+ "..."] or in
    Pillow's text functions.  [pillow_draws] stands for Pillow carrying
    out the calls (creating, resizing, pasting, measuring, drawing)
    without raising. *)
Definition compose_image (fnt : Font) (logo : Logo) (h : host) (channel_stats : stats) : result image :=
  let matrix_width := matrix_width h in
  let matrix_height := matrix_height h in
  '(logo_width, logo_height) ← logo_size matrix_height logo;
  let logo_x := 2 in
  let logo_y := (matrix_height - logo_height) `div` 2 in
  let right_section_x := right_section_x logo_width in
  let line_height := 10 in
  let total_text_height := line_height * 3 in
  let start_y := (matrix_height - total_text_height) `div` 2 in
  match title channel_stats with
  | VStr channel_name =>
      let max_chars := max_chars matrix_width right_section_x in
      let channel_name := truncate_name max_chars channel_name in
      let name_width := text_width fnt channel_name in
      let name_x := right_section_x + ((matrix_width - right_section_x - name_width) `div` 2) in
      let subs_text := format_thousands (subscribers channel_stats) ++ py " subs" in
      let subs_width := text_width fnt subs_text in
      let subs_x := right_section_x + ((matrix_width - right_section_x - subs_width) `div` 2) in
      let views_text := format_thousands (views channel_stats) ++ py " views" in
      let views_width := text_width fnt views_text in
      let views_x := right_section_x + ((matrix_width - right_section_x - views_width) `div` 2) in
      let img :=
        {| img_size := (matrix_width, matrix_height);
           img_logo_size := (logo_width, logo_height);
           img_logo_at := (logo_x, logo_y);
           img_texts := [ (name_x, start_y, channel_name);
                          (subs_x, start_y + line_height, subs_text);
                          (views_x, start_y + line_height * 2, views_text) ] |} in
      if pillow_draws h img then Ok img else Raise ValueError
  | _ => Raise TypeError
  end.

(** [_create_display(self, channel_stats)]. *)
Definition _create_display (self : plugin) (h : host) (channel_stats : option stats) : option image * host :=
  match channel_stats, youtube_logo self, font self with
  | Some cs, Some logo, Some fnt =>
      match compose_image fnt logo h cs with
      | Ok img => (Some img, h)
      | Raise _ => (None, log LError "Error creating display image: " h)
      end
  | _, _, _ => (None, h)
  end.

(** [update(self)]. *)
Definition update (self : plugin) (h : host) : result unit * (plugin * host) :=
  if negb (enabled self) then (Ok tt, (self, h))
  else
    let '(fetched, h) := _get_channel_stats self h in
    match fetched with
    | Ok s => (Ok tt, (with_channel_stats s self, h))
    | Raise e => (Raise e, (self, h))
    end.

(** Lines 262-267. *)
Definition stats_changed (last_displayed_stats : option stats) (channel_stats : stats) : bool :=
  match last_displayed_stats with
  | None => true
  | Some last =>
      negb (subscribers last =? subscribers channel_stats) ||
      negb (views last =? views channel_stats) ||
      py_ne (title last) (title channel_stats)
  end.

(** Lines 255-257: the fetch made when there are no stats yet. *)
Definition fetch_if_missing (self : plugin) (h : host) : result unit * (plugin * host) :=
  match channel_stats self with
  | None => update self h
  | Some _ => (Ok tt, (self, h))
  end.

(** [display(self, force_clear)]. *)
Definition display (force_clear : bool) (self : plugin) (h : host) : result unit * (plugin * host) :=
  if negb (enabled self) then (Ok tt, (self, h))
  else
    let '(fetched, (self, h)) := fetch_if_missing self h in
    match fetched with
    | Raise e => (Raise e, (self, h))
    | Ok _ =>
        match channel_stats self with
        | Some cs =>
            if negb force_clear && negb (stats_changed (last_displayed_stats self) cs)
            then (Ok tt, (self, h))
            else
              let h := if force_clear then clear h else h in
              let '(display_image, h) := _create_display self h (Some cs) in
              match display_image with
              | Some img =>
                  let h := update_display (set_image img h) in
                  (Ok tt, (with_last_displayed_stats (Some cs) self,
                           log LDebug "Displayed stats for channel: " h))
              | None => (Ok tt, (self, h))
              end
        | None => (Ok tt, (self, log LWarning "No channel stats available to display" h))
        end
    end.

(** ** What a run left in the list of calls *)

Definition is_surface_call (e : event) : bool :=
  match e with
  | Clear | SetImage _ | UpdateDisplay => true
  | _ => false
  end.

Definition is_update_display (e : event) : bool :=
  match e with UpdateDisplay => true | _ => false end.

Definition is_http_get (e : event) : bool :=
  match e with HttpGet _ => true | _ => false end.

Definition is_counter_call (e : event) : bool :=
  match e with IncrementApiCounter _ _ => true | _ => false end.

(** The calls made to the display surface, in order. *)
Definition surface_calls (l : list event) : list event := List.filter is_surface_call l.

Definition count_calls (p : event -> bool) (l : list event) : nat :=
  length (List.filter p l).

(** ** A concrete installation

    The scenario of the specification: channel [UC123], key [key], a
    refresh interval of 300 seconds, and an endpoint answering with the
    channel "Test Channel" (1234 subscribers, 56789 views); a 128x32
    panel, a 100x70 logo and a font 8 pixels wide per character. *)

Definition fixed_font : Font :=
  {| text_width := fun s => 8 * Z.of_nat (length s) |}.

Definition channel_body (name subs vws : pyval) : pyval :=
  VDict [ (py "items",
           VList [ VDict [ (py "snippet", VDict [ (py "title", name) ]);
                           (py "statistics",
                            VDict [ (py "subscriberCount", subs);
                                    (py "viewCount", vws) ]) ] ]) ].

Definition test_body : pyval :=
  channel_body (VStr (py "Test Channel")) (VStr (py "1234")) (VStr (py "56789")).

Definition test_stats : stats :=
  {| title := VStr (py "Test Channel"); subscribers := 1234; views := 56789 |}.

Definition test_plugin : plugin :=
  {| plugin_id := py "youtube-stats"; enabled := true;
     channel_id := py "UC123"; api_key := py "key";
     update_interval_config := 300; channel_stats := None;
     font := Some fixed_font;
     youtube_logo := Some {| logo_width_px := 100; logo_height_px := 70 |};
     last_displayed_stats := None |}.

(** A host whose endpoint always gives [reply]. *)
Definition host_replying (reply : http_reply) : host :=
  {| now := 1000; cache := ∅; remote := fun _ => reply; requests := 0%nat;
     api_counter := CounterCounts; api_calls := 0;
     matrix_width := 128; matrix_height := 32;
     pillow_draws := fun _ => true; calls := [] |}.

Definition test_host : host := host_replying (Reply 200 (Ok test_body)).

(** The plugin holding a snapshot, rendered or not. *)
Definition plugin_with_stats : plugin := with_channel_stats (Some test_stats) test_plugin.

Definition plugin_rendered : plugin :=
  with_last_displayed_stats (Some test_stats) plugin_with_stats.

(** The same plugin configured without its API key. *)
Definition plugin_without_key : plugin :=
  {| plugin_id := py "youtube-stats"; enabled := true;
     channel_id := py "UC123"; api_key := [];
     update_interval_config := 300; channel_stats := None;
     font := Some fixed_font;
     youtube_logo := Some {| logo_width_px := 100; logo_height_px := 70 |};
     last_displayed_stats := None |}.

(** A host whose cache holds [test_stats], stored [age] seconds ago. *)
Definition host_cached (age : Z) : host :=
  {| now := 1000;
     cache := {[ py "youtube-stats_channel_stats" :=
                   {| entry_value := test_stats; stored_at := 1000 - age |} ]};
     remote := fun _ => Reply 200 (Ok test_body); requests := 0%nat;
     api_counter := CounterCounts; api_calls := 0;
     matrix_width := 128; matrix_height := 32;
     pillow_draws := fun _ => true; calls := [] |}.

(** A 64x32 panel with a 128x70 logo: two characters fit beside it. *)
Definition narrow_plugin : plugin :=
  {| plugin_id := py "youtube-stats"; enabled := true;
     channel_id := py "UC123"; api_key := py "key";
     update_interval_config := 300; channel_stats := Some test_stats;
     font := Some fixed_font;
     youtube_logo := Some {| logo_width_px := 128; logo_height_px := 70 |};
     last_displayed_stats := None |}.

Definition narrow_host : host :=
  {| now := 1000; cache := ∅; remote := fun _ => NoReply; requests := 0%nat;
     api_counter := CounterCounts; api_calls := 0;
     matrix_width := 64; matrix_height := 32;
     pillow_draws := fun _ => true; calls := [] |}.

(** A plugin whose snapshot has a title that is not a string, as the
    endpoint may send it. *)
Definition untitled_stats : stats :=
  {| title := VNone; subscribers := 1234; views := 56789 |}.

Definition untitled_plugin : plugin := with_channel_stats (Some untitled_stats) test_plugin.

(** An endpoint that sends such a title: [null]. *)
Definition untitled_host : host :=
  host_replying
    (Reply 200 (Ok (channel_body VNone (VStr (py "1234")) (VStr (py "56789"))))).

(** The calls made since the host was in state [before]. *)
Definition calls_since (before after : host) : list event :=
  drop (length (calls before)) (calls after).

Definition first_display : result unit * (plugin * host) :=
  display false test_plugin test_host.

(** An endpoint that is down, one that answers [{}], and one that
    reports a negative subscriber count. *)
Definition silent_host : host := host_replying NoReply.

Definition empty_body_host : host := host_replying (Reply 200 (Ok (VDict []))).

(** An endpoint whose body is nested too deeply for the decoder:
    [response.json()] raises [RecursionError]. *)
Definition nested_host : host := host_replying (Reply 200 (Raise RecursionError)).

Definition negative_body : pyval :=
  channel_body (VStr (py "Test Channel")) (VStr (py "-5")) (VStr (py "56789")).

Definition negative_host : host := host_replying (Reply 200 (Ok negative_body)).

Definition negative_stats : stats :=
  {| title := VStr (py "Test Channel"); subscribers := -5; views := 56789 |}.

(** What [test_plugin] draws for [test_stats] on the 128x32 panel. *)
Definition test_image : image :=
  {| img_size := (128, 32); img_logo_size := (27, 19); img_logo_at := (2, 6);
     img_texts := [ (36, 1, py "Test Cha...");
                    (40, 11, py "1,234 subs");
                    (32, 21, py "56,789 views") ] |}.

(** ** Vocabulary of the statements *)

(** The display manager as [_create_display] reads it. *)
Definition same_surface (h h' : host) : Prop :=
  matrix_width h' = matrix_width h /\ matrix_height h' = matrix_height h /\
  pillow_draws h' = pillow_draws h.

(** The host handed to [_create_display] by [display]: cleared first
    when [force_clear] is set (lines 272-275). *)
Definition surface_for (force_clear : bool) (h : host) : host :=
  if force_clear then clear h else h.

(** The cache manager has nothing fresh under the plugin's key. *)
Definition cache_miss (self : plugin) (h : host) : Prop :=
  fst (cache_get (cache_key_of self) (update_interval_config self) h) = None.

(** The replies on which the fetch fails and says so by returning
    [None]: no response, an error status, a body whose decoding raises
    an exception that an [except] clause names, a body without channel,
    a body whose reading raises such an exception. *)
Inductive failed_reply : http_reply -> Prop :=
| failed_no_reply : failed_reply NoReply
| failed_status status body :
    400 <= status < 600 -> failed_reply (Reply status body)
| failed_not_json status e :
    caught_by_fetch e = true -> failed_reply (Reply status (Raise e))
| failed_no_channel status data :
    read_channel data = Ok None -> failed_reply (Reply status (Ok data))
| failed_malformed status data e :
    read_channel data = Raise e -> caught_by_fetch e = true ->
    failed_reply (Reply status (Ok data)).

(** The fetch went to the endpoint and got a body that decodes. *)
Definition body_decoded (self : plugin) (h : host) : Prop :=
  api_key self <> [] /\ channel_id self <> [] /\ cache_miss self h /\
  exists status data,
    remote h (requests h) = Reply status (Ok data) /\ raise_for_status status = Ok tt.

(** The value carries no minus sign. *)
Definition unsigned_count (v : pyval) : bool :=
  match v with
  | VInt z => 0 <=? z
  | VFloat (S754_finite true _ _) => false
  | VStr s => match strip s with 45%N :: _ => false | _ => true end
  | _ => true
  end.

(** ** Construction and configuration *)

(** What [os.stat(path)] does: it succeeds; it fails with an error
    that says there is no such file ([ENOENT], [ENOTDIR], [EBADF],
    [ELOOP], or a [ValueError] for a text that cannot be a path); or it
    fails with another [OSError], such as [EACCES] on a directory that
    may not be searched or [ENAMETOOLONG]. *)
Inductive stat_result : Type :=
| StatFound
| StatMissing
| StatFails.

(** The operating system and Pillow as the constructor meets them:
    [os.stat], [os.getcwd()] ([None] when it raises), the project root
    [str(Path(__file__).parent.parent.parent)],
    [ImageFont.truetype(path, 8)] and [Image.open(path)] ([None] when
    they raise), and the built-in font of [ImageFont.load_default()].
    The file system is read as it stands during the call: [stat] gives
    the same answer each time it is asked about a path. *)
Record os_env : Type := {
  stat : pystr -> stat_result;
  getcwd : option pystr;
  project_root : pystr;
  truetype : pystr -> option Font;
  load_default : Font;
  image_open : pystr -> option Logo;
}.

(** [os.path.exists(path)]: false on every failure of [os.stat]. *)
Definition path_exists (env : os_env) (path : pystr) : bool :=
  match stat env path with
  | StatFound => true
  | StatMissing | StatFails => false
  end.

(** [Path(path).exists()]: false when [os.stat] says there is no such
    file, and the [OSError] itself, here [None], on any other failure. *)
Definition pathlib_exists (env : os_env) (path : pystr) : option bool :=
  match stat env path with
  | StatFound => Some true
  | StatMissing => Some false
  | StatFails => None
  end.

(** The options read by [__init__], with their documented types; an
    absent key is [None]. *)
Record config : Type := {
  cfg_channel_id : option pystr;
  cfg_api_key : option pystr;
  cfg_update_interval : option Z;
}.

Definition ends_with_slash (a : pystr) : bool :=
  match last a with
  | Some 47%N => true
  | _ => false
  end.

(** [os.path.join(a, b)] on POSIX. *)
Definition os_path_join (a b : pystr) : pystr :=
  match b with
  | 47%N :: _ => b
  | _ => if bool_decide (a = []) || ends_with_slash a then a ++ b
         else a ++ 47%N :: b
  end.

(** [str(Path(root) / rel)] for a relative [rel] without [.] or empty
    components, [root] being the text of a [Path]. *)
Definition path_under (root rel : pystr) : pystr :=
  if bool_decide (root = py ".") then rel
  else if ends_with_slash root then root ++ rel
  else root ++ 47%N :: rel.

(** What the search of lines 71-88 (font) and 102-117 (logo) leaves in
    [resolved_..._path]: a path, [None], or an exception raised on the
    way, by [os.getcwd()] or by [project_path.exists()]. *)
Inductive resolved : Type :=
| Found (path : pystr)
| NotFound
| Failed.

Definition resolve_asset (env : os_env) (asset_path : pystr) : resolved :=
  if path_exists env asset_path then Found asset_path
  else
    match getcwd env with
    | None => Failed
    | Some cwd =>
        let cwd_path := os_path_join cwd asset_path in
        if path_exists env cwd_path then Found cwd_path
        else
          let project_path := path_under (project_root env) asset_path in
          match pathlib_exists env project_path with
          | Some true => Found project_path
          | Some false => NotFound
          | None => Failed
          end
    end.

(** The three places searched, in order. *)
Definition candidates (env : os_env) (asset_path : pystr) : list pystr :=
  match getcwd env with
  | Some cwd =>
      [asset_path; os_path_join cwd asset_path; path_under (project_root env) asset_path]
  | None => [asset_path]
  end.

Definition font_path : pystr := py "assets/fonts/PressStart2P-Regular.ttf".
Definition logo_path : pystr := py "assets/youtube_logo.png".

Arguments font_path : simpl never.
Arguments logo_path : simpl never.

Definition with_font (f : option Font) (self : plugin) : plugin :=
  {| plugin_id := plugin_id self; enabled := enabled self;
     channel_id := channel_id self; api_key := api_key self;
     update_interval_config := update_interval_config self;
     channel_stats := channel_stats self; font := f;
     youtube_logo := youtube_logo self;
     last_displayed_stats := last_displayed_stats self |}.

Definition with_youtube_logo (l : option Logo) (self : plugin) : plugin :=
  {| plugin_id := plugin_id self; enabled := enabled self;
     channel_id := channel_id self; api_key := api_key self;
     update_interval_config := update_interval_config self;
     channel_stats := channel_stats self; font := font self;
     youtube_logo := l;
     last_displayed_stats := last_displayed_stats self |}.

Definition with_enabled (b : bool) (self : plugin) : plugin :=
  {| plugin_id := plugin_id self; enabled := b;
     channel_id := channel_id self; api_key := api_key self;
     update_interval_config := update_interval_config self;
     channel_stats := channel_stats self; font := font self;
     youtube_logo := youtube_logo self;
     last_displayed_stats := last_displayed_stats self |}.

(** Lines 69-98: the font. *)
Definition load_font (env : os_env) (self : plugin) (h : host) : plugin * host :=
  match resolve_asset env font_path with
  | Found resolved_font_path =>
      if path_exists env resolved_font_path then
        match truetype env resolved_font_path with
        | Some f => (with_font (Some f) self, log LInfo "Loaded font: " h)
        | None =>
            (with_font (Some (load_default env)) self, log LError "Error loading font: " h)
        end
      else
        (with_font (Some (load_default env)) self, log LWarning "Font file not found: " h)
  | NotFound =>
      (with_font (Some (load_default env)) self, log LWarning "Font file not found: " h)
  | Failed =>
      (with_font (Some (load_default env)) self, log LError "Error loading font: " h)
  end.

(** Lines 100-127: the logo. *)
Definition load_logo (env : os_env) (self : plugin) (h : host) : plugin * host :=
  match resolve_asset env logo_path with
  | Found resolved_logo_path =>
      if path_exists env resolved_logo_path then
        match image_open env resolved_logo_path with
        | Some l => (with_youtube_logo (Some l) self, log LInfo "Loaded YouTube logo: " h)
        | None => (with_enabled false self, log LError "Error loading YouTube logo: " h)
        end
      else (with_enabled false self, log LError "YouTube logo not found: " h)
  | NotFound => (with_enabled false self, log LError "YouTube logo not found: " h)
  | Failed => (with_enabled false self, log LError "Error loading YouTube logo: " h)
  end.

(** [_initialize_display(self)]. *)
Definition _initialize_display (env : os_env) (self : plugin) (h : host) : plugin * host :=
  let '(self, h) := load_font env self h in
  load_logo env self h.

(** [__init__(self, plugin_id, config, ...)].  [base_enabled] is the
    [enabled] attribute as [BasePlugin.__init__] leaves it. *)
Definition __init__ (plugin_id : pystr) (base_enabled : bool) (cfg : config)
    (env : os_env) (h : host) : plugin * host :=
  let self :=
    {| plugin_id := plugin_id; enabled := base_enabled;
       channel_id := default [] (cfg_channel_id cfg);
       api_key := default [] (cfg_api_key cfg);
       update_interval_config := default 300 (cfg_update_interval cfg);
       channel_stats := None; font := None; youtube_logo := None;
       last_displayed_stats := None |} in
  if enabled self then
    let '(self, h) := _initialize_display env self h in
    (self, log LInfo "YouTube Stats plugin initialized" h)
  else (self, log LInfo "YouTube Stats plugin disabled" h).

(** [validate_config(self)].  [base_valid] is what
    [super().validate_config()] returns. *)
Definition validate_config (base_valid : bool) (self : plugin) (h : host) : bool * host :=
  if negb base_valid then (false, h)
  else if bool_decide (channel_id self = []) then
    (false, log LError "channel_id is required but not configured" h)
  else if bool_decide (api_key self = []) then
    (false, log LError "api_key is required but not configured in secrets" h)
  else (true, h).

(** ** The host's side *)

(** [dt] seconds pass on the host's clock. *)
Definition advance (dt : Z) (h : host) : host :=
  {| now := now h + dt; cache := cache h; remote := remote h;
     requests := requests h; api_counter := api_counter h;
     api_calls := api_calls h; matrix_width := matrix_width h;
     matrix_height := matrix_height h; pillow_draws := pillow_draws h;
     calls := calls h |}.

(** One call of the host on the plugin. *)
Inductive entry_call : Type :=
| CallUpdate
| CallDisplay (force_clear : bool).

Definition run_call (c : entry_call) (self : plugin) (h : host) : result unit * (plugin * host) :=
  match c with
  | CallUpdate => update self h
  | CallDisplay force_clear => display force_clear self h
  end.

(** The host's loop over a list of calls, stopping at the first
    exception. *)
Fixpoint run_calls (cs : list entry_call) (self : plugin) (h : host) : result unit * (plugin * host) :=
  match cs with
  | [] => (Ok tt, (self, h))
  | c :: cs' =>
      match run_call c self h with
      | (Ok _, (self', h')) => run_calls cs' self' h'
      | (Raise e, w) => (Raise e, w)
      end
  end.

(** The decimal numeral of an integer, as [str(z)] writes it. *)
Definition numeral (z : Z) : pystr :=
  let ds := uint_digits (N.to_uint (Z.abs_N z)) in
  if z <? 0 then 45%N :: ds else ds.

(** A font as the layout assumes it: 8 pixels per character. *)
Definition eight_pixel_font (fnt : Font) : Prop :=
  forall s, text_width fnt s = 8 * Z.of_nat (length s).

(** An installation where only the project root holds the assets. *)
Definition sample_env : os_env :=
  {| stat := fun p =>
       if bool_decide (p = py "/home/pi/LEDMatrix/assets/youtube_logo.png") ||
          bool_decide (p = py "/home/pi/LEDMatrix/assets/fonts/PressStart2P-Regular.ttf")
       then StatFound else StatMissing;
     getcwd := Some (py "/tmp");
     project_root := py "/home/pi/LEDMatrix";
     truetype := fun _ => Some fixed_font;
     load_default := fixed_font;
     image_open := fun _ => Some {| logo_width_px := 100; logo_height_px := 70 |} |}.

(** An installation without any asset. *)
Definition bare_env : os_env :=
  {| stat := fun _ => StatMissing;
     getcwd := Some (py "/tmp");
     project_root := py "/home/pi/LEDMatrix";
     truetype := fun _ => None;
     load_default := fixed_font;
     image_open := fun _ => None |}.

Definition test_config : config :=
  {| cfg_channel_id := Some (py "UC123"); cfg_api_key := Some (py "key");
     cfg_update_interval := None |}.

(** A configuration whose secrets hold no API key. *)
Definition config_without_key : config :=
  {| cfg_channel_id := Some (py "UC123"); cfg_api_key := None;
     cfg_update_interval := Some 60 |}.

(** The plugin with stats, switched off by the host. *)
Definition disabled_plugin : plugin := with_enabled false plugin_with_stats.

(** The rendered plugin after an update brought one more subscriber. *)
Definition newer_stats : stats :=
  {| title := VStr (py "Test Channel"); subscribers := 1235; views := 56789 |}.

Definition plugin_outdated : plugin := with_channel_stats (Some newer_stats) plugin_rendered.

(** A second instance of the plugin, under another identifier. *)
Definition second_plugin : plugin :=
  {| plugin_id := py "youtube-stats-2"; enabled := true;
     channel_id := py "UC456"; api_key := py "key";
     update_interval_config := 300; channel_stats := None;
     font := Some fixed_font;
     youtube_logo := Some {| logo_width_px := 100; logo_height_px := 70 |};
     last_displayed_stats := None |}.

(** An endpoint that reports an infinite subscriber count. *)
Definition infinite_host : host :=
  host_replying
    (Reply 200 (Ok (channel_body (VStr (py "Test Channel"))
                        (VFloat (S754_infinity false)) (VInt 1)))).

(** A response with two channels. *)
Definition two_items : list (pystr * pyval) :=
  [ (py "kind", VStr (py "youtube#channelListResponse"));
    (py "items",
     VList [ VDict [ (py "snippet", VDict [ (py "title", VStr (py "First")) ]);
                     (py "statistics",
                      VDict [ (py "subscriberCount", VStr (py "1"));
                              (py "viewCount", VStr (py "2")) ]) ];
             VDict [ (py "snippet", VDict [ (py "title", VStr (py "Second")) ]) ] ]) ].

(** ** Vocabulary of the further statements *)

Definition is_digit_char (c : N) : Prop := (48 <= c <= 57)%N.


(** [int(H * 0.6)] is the integer part of six tenths of [H]. *)
Definition logo_height_ok (H : Z) : bool :=
  match (scaled ← py_mul_int_float H float_0_6; int_of_float scaled) with
  | Ok z => z =? (6 * H) `div` 10
  | Raise _ => false
  end.

Definition is_clear (e : event) : bool :=
  match e with Clear => true | _ => false end.

(** The calls [display] may make once it holds stats: to the surface
    and to the logger. *)
Definition is_local_call (e : event) : bool :=
  match e with
  | Clear | SetImage _ | UpdateDisplay | Log _ _ => true
  | _ => false
  end.

(** Centred as [// 2] centres: the gap after is the gap before, or
    one pixel more. *)
Definition centred (gap_before gap_after : Z) : Prop :=
  0 <= gap_after - gap_before <= 1.

(** ** Lists of calls *)

Lemma calls_since_app (h h' : host) (evs : list event) :
  calls h' = calls h ++ evs -> calls_since h h' = evs.
Proof. intros E. unfold calls_since. rewrite E. apply drop_app_length. Qed.

Lemma surface_calls_app (l k : list event) :
  surface_calls (l ++ k) = surface_calls l ++ surface_calls k.
Proof. apply List.filter_app. Qed.

Lemma count_update_display_surface (l : list event) :
  count_calls is_update_display l = count_calls is_update_display (surface_calls l).
Proof.
  unfold count_calls, surface_calls. induction l as [|e l IH]; [reflexivity|].
  destruct e; cbn; auto.
Qed.

(** ** The fetch *)

(** Case analysis over the branches of [_get_channel_stats]. *)
Ltac fetch_cases :=
  unfold _get_channel_stats, cache_get, requests_get, increment_api_counter,
    cache_set, log;
  repeat case_bool_decide;
  repeat match goal with
    | |- context [match ?x with _ => _ end] =>
        match x with
        | context [match _ with _ => _ end] => fail 1
        | _ => destruct x eqn:?
        end
    | |- context [if ?x then _ else _] =>
        match x with
        | context [if _ then _ else _] => fail 1
        | _ => destruct x eqn:?
        end
    end;
  repeat match goal with
    | |- context [except_clauses ?e _] => is_var e; destruct e
    end;
  cbn [except_clauses].

(** The fetch only adds calls, none of them to the display surface. *)
Lemma fetch_calls (self : plugin) (h : host) :
  exists evs, calls (snd (_get_channel_stats self h)) = calls h ++ evs /\
    surface_calls evs = [] /\ same_surface h (snd (_get_channel_stats self h)).
Proof.
  fetch_cases; cbn; unfold same_surface; cbn.
  all: rewrite <- ?app_assoc; eexists; (split; [reflexivity|]); cbn; auto.
Qed.

(** With both credentials present the fetch starts at the cache. *)
Lemma fetch_with_credentials (self : plugin) (h : host) :
  api_key self <> [] -> channel_id self <> [] ->
  _get_channel_stats self h =
    let cache_key := cache_key_of self in
    let '(cached, h) := cache_get cache_key (update_interval_config self) h in
    match cached with
    | Some c => (Ok (Some c), log LDebug "Using cached channel stats" h)
    | None =>
        let '(response, h) := requests_get (url_of self) h in
        match response with
        | NoReply => except_clauses RequestException h
        | Reply status body =>
            match raise_for_status status, body with
            | Raise e, _ => except_clauses e h
            | Ok _, Raise e => except_clauses e h
            | Ok _, Ok data =>
                let '(_, h) := increment_api_counter (py "youtube") 1 h in
                match read_channel data with
                | Ok (Some s) =>
                    let h := cache_set cache_key s (update_interval_config self) h in
                    (Ok (Some s), log LInfo "Fetched stats for channel: " h)
                | Ok None =>
                    (Ok None, log LWarning "No channel data found for channel ID: " h)
                | Raise e => except_clauses e h
                end
            end
        end
    end.
Proof.
  intros Hkey Hid. unfold _get_channel_stats.
  now rewrite (bool_decide_eq_false_2 _ Hkey), (bool_decide_eq_false_2 _ Hid).
Qed.

(** C5.  When the API key or the channel identifier is empty,
    [_get_channel_stats] returns [None] at once: the only call it makes
    is one error line to the logger, so no request is sent (the request
    count of the endpoint is unchanged) and nothing is written to the
    cache. *)
Theorem fetch_without_credentials (self : plugin) (h : host) :
  api_key self = [] \/ channel_id self = [] ->
  exists msg,
    _get_channel_stats self h = (Ok None, log LError msg h) /\
    calls_since h (snd (_get_channel_stats self h)) = [Log LError msg] /\
    requests (snd (_get_channel_stats self h)) = requests h /\
    cache (snd (_get_channel_stats self h)) = cache h.
Proof.
  intros Hmissing. unfold _get_channel_stats.
  case_bool_decide as Hkey.
  - eexists. repeat split. now apply calls_since_app.
  - destruct Hmissing as [Hk | Hc]; [contradiction|].
    rewrite bool_decide_eq_true_2 by exact Hc.
    eexists. repeat split. now apply calls_since_app.
Qed.

Lemma fetch_without_credentials_witness :
  (api_key plugin_without_key = [] \/ channel_id plugin_without_key = []) /\
  exists msg,
    _get_channel_stats plugin_without_key test_host = (Ok None, log LError msg test_host) /\
    calls_since test_host (snd (_get_channel_stats plugin_without_key test_host)) =
      [Log LError msg] /\
    requests (snd (_get_channel_stats plugin_without_key test_host)) = requests test_host /\
    cache (snd (_get_channel_stats plugin_without_key test_host)) = cache test_host.
Proof.
  assert (Hmissing : api_key plugin_without_key = [] \/ channel_id plugin_without_key = [])
    by (left; reflexivity).
  split; [exact Hmissing|].
  exact (fetch_without_credentials plugin_without_key test_host Hmissing).
Defined.

(** C4, as the code has it.  Provided the API key and the channel
    identifier are not empty: when the cache holds, under the plugin's
    key, an entry younger than the refresh interval, the fetch returns
    that entry's value and sends no request; when it holds no entry, or
    one whose age has reached the interval, exactly one request is sent
    to the endpoint. *)
Theorem cached_fetch_policy (self : plugin) (h : host) :
  api_key self <> [] -> channel_id self <> [] ->
  let key := cache_key_of self in
  let interval := update_interval_config self in
  let after := _get_channel_stats self h in
  (forall e, cache h !! key = Some e -> now h - stored_at e < interval ->
     fst after = Ok (Some (entry_value e)) /\
     requests (snd after) = requests h /\
     calls_since h (snd after) =
       [CacheGet key interval; Log LDebug "Using cached channel stats"]) /\
  (cache h !! key = None \/
   (exists e, cache h !! key = Some e /\ interval <= now h - stored_at e) ->
     requests (snd after) = S (requests h) /\
     exists rest,
       calls_since h (snd after) = CacheGet key interval :: HttpGet (url_of self) :: rest /\
       List.filter is_http_get rest = []).
Proof.
  intros Hkey Hid. cbn zeta. rewrite (fetch_with_credentials self h Hkey Hid). cbn zeta.
  unfold cache_get. split.
  - intros e He Hfresh. rewrite He, (proj2 (Z.ltb_lt _ _) Hfresh). cbn [fst snd].
    repeat split. apply calls_since_app. cbn. now rewrite <- app_assoc.
  - intros Hmiss.
    assert (Hnone : match cache h !! cache_key_of self with
                    | Some e => if now h - stored_at e <? update_interval_config self
                                then Some (entry_value e) else None
                    | None => None
                    end = None).
    { destruct Hmiss as [-> | (e & -> & Hold)]; [reflexivity|].
      now rewrite (proj2 (Z.ltb_ge _ _) Hold). }
    rewrite Hnone. unfold requests_get, increment_api_counter, cache_set, log. cbn.
    destruct (remote h (requests h)) as [|status body]; cbn.
    { split; [reflexivity|]. eexists. split;
        [apply calls_since_app; cbn; rewrite <- ?app_assoc; reflexivity | reflexivity]. }
    destruct (raise_for_status status) as [[]|e]; cbn.
    2:{ destruct e; cbn; (split; [reflexivity|]); eexists; (split;
        [apply calls_since_app; cbn; rewrite <- ?app_assoc; reflexivity | reflexivity]). }
    destruct body as [data|e]; cbn.
    2:{ destruct e; cbn; (split; [reflexivity|]); eexists; (split;
        [apply calls_since_app; cbn; rewrite <- ?app_assoc; reflexivity | reflexivity]). }
    destruct (api_counter h); cbn;
      destruct (read_channel data) as [[s|]|e]; cbn; try destruct e; cbn;
      (split; [reflexivity|]); eexists; (split;
        [apply calls_since_app; cbn; rewrite <- ?app_assoc; reflexivity | reflexivity]).
Qed.

Lemma cached_fetch_policy_witness :
  (api_key test_plugin <> [] /\ channel_id test_plugin <> []) /\
  (fst (_get_channel_stats test_plugin (host_cached 299)) = Ok (Some test_stats) /\
   requests (snd (_get_channel_stats test_plugin (host_cached 299))) = 0%nat) /\
  requests (snd (_get_channel_stats test_plugin (host_cached 300))) = 1%nat.
Proof.
  assert (Hkey : api_key test_plugin <> []) by discriminate.
  assert (Hid : channel_id test_plugin <> []) by discriminate.
  split; [split; assumption|]. split.
  - destruct (proj1 (cached_fetch_policy test_plugin (host_cached 299) Hkey Hid)
                {| entry_value := test_stats; stored_at := 701 |})
      as (Hval & Hreq & _).
    + vm_compute; reflexivity.
    + vm_compute; reflexivity.
    + split; [exact Hval | exact Hreq].
  - refine (proj1 (proj2 (cached_fetch_policy test_plugin (host_cached 300) Hkey Hid) _)).
    right. exists {| entry_value := test_stats; stored_at := 700 |}.
    split; vm_compute; [reflexivity | discriminate].
Defined.

(** C4 as stated fails: the cache holds a fresh entry under the
    plugin's key, yet a plugin without API key returns [None] and not
    the cached value; and with nothing cached it sends no request. *)
Lemma cached_value_ignored_without_key :
  (exists e, cache (host_cached 100) !! cache_key_of plugin_without_key = Some e /\
             now (host_cached 100) - stored_at e < update_interval_config plugin_without_key /\
             entry_value e = test_stats) /\
  fst (_get_channel_stats plugin_without_key (host_cached 100)) = Ok None /\
  cache test_host !! cache_key_of plugin_without_key = None /\
  requests (snd (_get_channel_stats plugin_without_key test_host)) = requests test_host.
Proof.
  split; [|repeat split; vm_compute; reflexivity].
  exists {| entry_value := test_stats; stored_at := 900 |}.
  repeat split; vm_compute; reflexivity.
Qed.

Lemma raise_for_status_error (status : Z) :
  400 <= status < 600 -> raise_for_status status = Raise RequestException.
Proof.
  intros [Hlo Hhi]. unfold raise_for_status.
  now rewrite (proj2 (Z.leb_le _ _) Hlo), (proj2 (Z.ltb_lt _ _) Hhi).
Qed.

Lemma raise_for_status_cases (status : Z) :
  raise_for_status status = Ok tt \/ raise_for_status status = Raise RequestException.
Proof. unfold raise_for_status. destruct (_ && _); auto. Qed.

(** An exception that a clause names ends in [None]; any other leaves
    the fetch with the host as it was. *)
Lemma except_clauses_caught (e : exn) (h : host) :
  caught_by_fetch e = true ->
  exists msg, except_clauses e h = (Ok None, log LError msg h).
Proof. destruct e; try discriminate; intros _; cbn; eauto. Qed.

Lemma except_clauses_escape (e : exn) (h : host) :
  caught_by_fetch e = false -> except_clauses e h = (Raise e, h).
Proof. destruct e; try discriminate; reflexivity. Qed.

Ltac caught_exception H :=
  match goal with
  | |- context [except_clauses ?e ?h] =>
      let msg := fresh "msg" in
      destruct (except_clauses_caught e h H) as (msg & ->)
  end.

(** A status outside 400-599 is not an error for the fetch: a body that
    comes with it is read. *)
Lemma other_status_is_read :
  fst (_get_channel_stats test_plugin (host_replying (Reply 304 (Ok test_body)))) =
    Ok (Some test_stats).
Proof. vm_compute; reflexivity. Qed.

(** [int] of an infinite float raises [OverflowError], which neither
    [except] clause names: the exception leaves the fetch. *)
Lemma infinite_count_escapes :
  fst (_get_channel_stats test_plugin
         (host_replying
            (Reply 200 (Ok (channel_body (VStr (py "Test Channel"))
                                (VFloat (S754_infinity false)) (VInt 1)))))) =
    Raise OverflowError.
Proof. vm_compute; reflexivity. Qed.

Lemma fetch_after_failed_reply (self : plugin) (h : host) :
  api_key self <> [] -> channel_id self <> [] -> cache_miss self h ->
  failed_reply (remote h (requests h)) ->
  fst (_get_channel_stats self h) = Ok None.
Proof.
  intros Hkey Hid Hmiss Hfail. unfold cache_miss in Hmiss.
  rewrite (fetch_with_credentials self h Hkey Hid). cbn zeta.
  destruct (cache_get _ _ h) as [cached h1] eqn:Hget. cbn [fst] in Hmiss. subst cached.
  assert (Hh1 : remote h1 (requests h1) = remote h (requests h)).
  { unfold cache_get in Hget. now inversion Hget. }
  unfold requests_get. rewrite Hh1.
  destruct Hfail as [|status body Hst|status e Hcaught|status data Hnone
                    |status data e Hraise Hcaught].
  - reflexivity.
  - now rewrite (raise_for_status_error _ Hst).
  - destruct (raise_for_status_cases status) as [-> | ->]; [|reflexivity].
    now caught_exception Hcaught.
  - destruct (raise_for_status_cases status) as [-> | ->]; [|reflexivity].
    destruct (increment_api_counter _ _ _). now rewrite Hnone.
  - destruct (raise_for_status_cases status) as [-> | ->]; [|reflexivity].
    destruct (increment_api_counter _ _ _). rewrite Hraise.
    now caught_exception Hcaught.
Qed.

(** When decoding the body raises an exception that no clause names,
    the exception leaves the fetch. *)
Lemma fetch_after_uncaught_decoding (self : plugin) (h : host) (status : Z) (e : exn) :
  api_key self <> [] -> channel_id self <> [] -> cache_miss self h ->
  remote h (requests h) = Reply status (Raise e) ->
  raise_for_status status = Ok tt -> caught_by_fetch e = false ->
  fst (_get_channel_stats self h) = Raise e.
Proof.
  intros Hkey Hid Hmiss Hreply Hst Hnot. unfold cache_miss in Hmiss.
  rewrite (fetch_with_credentials self h Hkey Hid). cbn zeta.
  destruct (cache_get _ _ h) as [cached h1] eqn:Hget. cbn [fst] in Hmiss. subst cached.
  assert (Hh1 : remote h1 (requests h1) = remote h (requests h)).
  { unfold cache_get in Hget. now inversion Hget. }
  unfold requests_get. rewrite Hh1, Hreply, Hst.
  now rewrite (except_clauses_escape e _ Hnot).
Qed.

(** C3, as the code has it.  On an enabled plugin whose fetch reaches
    the endpoint and fails in a way the fetch catches (no response, a
    4xx or 5xx status, a body whose decoding raises an exception that
    an [except] clause names, a body that has no channel, or whose
    fields are missing or rejected with a [KeyError], [ValueError] or
    [TypeError]), [_get_channel_stats] returns [None] and [update]
    stores that [None] as the current stats, whatever was stored
    before; the last displayed stats are left as they were.  When
    decoding the body raises an exception that no clause names, as the
    [RecursionError] of a body nested too deeply, the exception leaves
    [update], and then the plugin, its current stats included, is as
    it was. *)
Theorem update_after_failed_fetch (self : plugin) (h : host) :
  enabled self = true ->
  api_key self <> [] -> channel_id self <> [] -> cache_miss self h ->
  (failed_reply (remote h (requests h)) ->
     fst (_get_channel_stats self h) = Ok None /\
     update self h =
       (Ok tt, (with_channel_stats None self, snd (_get_channel_stats self h))) /\
     channel_stats (fst (snd (update self h))) = None /\
     last_displayed_stats (fst (snd (update self h))) = last_displayed_stats self) /\
  (forall status e,
     remote h (requests h) = Reply status (Raise e) ->
     raise_for_status status = Ok tt -> caught_by_fetch e = false ->
     fst (_get_channel_stats self h) = Raise e /\
     update self h = (Raise e, (self, snd (_get_channel_stats self h)))).
Proof.
  intros Hen Hkey Hid Hmiss. split.
  - intros Hfail.
    assert (Hnone := fetch_after_failed_reply self h Hkey Hid Hmiss Hfail).
    assert (Hupd : update self h =
              (Ok tt, (with_channel_stats None self, snd (_get_channel_stats self h)))).
    { unfold update. rewrite Hen. cbn [negb].
      destruct (_get_channel_stats self h) as [fetched h1]. cbn [fst snd] in *.
      now subst fetched. }
    rewrite Hupd. auto.
  - intros status e Hreply Hst Hnot.
    assert (Hraise := fetch_after_uncaught_decoding self h status e
                        Hkey Hid Hmiss Hreply Hst Hnot).
    split; [exact Hraise|].
    unfold update. rewrite Hen. cbn [negb].
    destruct (_get_channel_stats self h) as [fetched h1]. cbn [fst snd] in *.
    now subst fetched.
Qed.

Lemma update_after_failed_fetch_witness :
  (enabled plugin_with_stats = true /\ cache_miss plugin_with_stats silent_host /\
   cache_miss plugin_with_stats nested_host /\
   failed_reply (remote silent_host (requests silent_host)) /\
   remote nested_host (requests nested_host) = Reply 200 (Raise RecursionError) /\
   caught_by_fetch RecursionError = false) /\
  (fst (_get_channel_stats plugin_with_stats silent_host) = Ok None /\
   channel_stats (fst (snd (update plugin_with_stats silent_host))) = None /\
   last_displayed_stats (fst (snd (update plugin_with_stats silent_host))) =
     last_displayed_stats plugin_with_stats) /\
  update plugin_with_stats nested_host =
    (Raise RecursionError,
     (plugin_with_stats, snd (_get_channel_stats plugin_with_stats nested_host))).
Proof.
  assert (Hen : enabled plugin_with_stats = true) by reflexivity.
  assert (Hkey : api_key plugin_with_stats <> []) by (vm_compute; discriminate).
  assert (Hid : channel_id plugin_with_stats <> []) by (vm_compute; discriminate).
  assert (Hmiss : cache_miss plugin_with_stats silent_host) by (vm_compute; reflexivity).
  assert (Hmiss' : cache_miss plugin_with_stats nested_host) by (vm_compute; reflexivity).
  assert (Hfail : failed_reply (remote silent_host (requests silent_host)))
    by exact failed_no_reply.
  assert (Hreply : remote nested_host (requests nested_host) =
                   Reply 200 (Raise RecursionError)) by reflexivity.
  assert (Hst : raise_for_status 200 = Ok tt) by reflexivity.
  assert (Hnot : caught_by_fetch RecursionError = false) by reflexivity.
  split; [exact (conj Hen (conj Hmiss (conj Hmiss' (conj Hfail (conj Hreply Hnot)))))|].
  destruct (proj1 (update_after_failed_fetch plugin_with_stats silent_host
                     Hen Hkey Hid Hmiss) Hfail) as (Hnone & _ & Hstats & Hlast).
  destruct (proj2 (update_after_failed_fetch plugin_with_stats nested_host
                     Hen Hkey Hid Hmiss') 200 RecursionError Hreply Hst Hnot)
    as (_ & Hupd).
  exact (conj (conj Hnone (conj Hstats Hlast)) Hupd).
Defined.

(** C3 as stated fails: the plugin holds a snapshot, the endpoint does
    not answer, and after [update] the snapshot is gone. *)
Lemma update_discards_snapshot :
  enabled plugin_with_stats = true /\
  channel_stats plugin_with_stats = Some test_stats /\
  fst (_get_channel_stats plugin_with_stats silent_host) = Ok None /\
  channel_stats (fst (snd (update plugin_with_stats silent_host))) = None.
Proof. repeat split; vm_compute; reflexivity. Qed.

(** The calls to the usage counter made by one fetch. *)
Lemma counter_calls_of_fetch (self : plugin) (h : host) :
  List.filter is_counter_call (calls_since h (snd (_get_channel_stats self h))) =
    [IncrementApiCounter (py "youtube") 1] /\ body_decoded self h \/
  List.filter is_counter_call (calls_since h (snd (_get_channel_stats self h))) = [] /\
    ~ body_decoded self h.
Proof.
  unfold body_decoded, cache_miss.
  destruct (decide (api_key self = [])) as [Hkey|Hkey].
  { right. split; [|tauto]. unfold _get_channel_stats.
    rewrite (bool_decide_eq_true_2 _ Hkey). erewrite calls_since_app; [|reflexivity].
    reflexivity. }
  destruct (decide (channel_id self = [])) as [Hid|Hid].
  { right. split; [|tauto]. unfold _get_channel_stats.
    rewrite (bool_decide_eq_false_2 _ Hkey), (bool_decide_eq_true_2 _ Hid).
    erewrite calls_since_app; [|reflexivity]. reflexivity. }
  rewrite (fetch_with_credentials self h Hkey Hid). cbn zeta.
  unfold cache_get. cbn [fst].
  destruct (match cache h !! cache_key_of self with
            | Some e => if now h - stored_at e <? update_interval_config self
                        then Some (entry_value e) else None
            | None => None
            end) as [c|].
  { right. split; [|intros (_ & _ & Hmiss & _); discriminate].
    erewrite calls_since_app; [|cbn; rewrite <- ?app_assoc; reflexivity]. reflexivity. }
  unfold requests_get, increment_api_counter, cache_set, log. cbn.
  destruct (remote h (requests h)) as [|status body]; cbn.
  { right. split; [|intros (_ & _ & _ & ? & ? & ? & _); discriminate].
    erewrite calls_since_app; [|cbn; rewrite <- ?app_assoc; reflexivity]. reflexivity. }
  destruct (raise_for_status status) as [[]|e] eqn:Hst; cbn.
  2:{ right. split;
        [|intros (_ & _ & _ & st & d & Heq & Hok); inversion Heq; subst; congruence].
      destruct e; cbn;
        (erewrite calls_since_app; [|cbn; rewrite <- ?app_assoc; reflexivity]); reflexivity. }
  destruct body as [data|e]; cbn.
  2:{ right. split; [|intros (_ & _ & _ & ? & ? & ? & _); discriminate].
      destruct e; cbn;
        (erewrite calls_since_app; [|cbn; rewrite <- ?app_assoc; reflexivity]); reflexivity. }
  left. split.
  - destruct (api_counter h); cbn;
      destruct (read_channel data) as [[s|]|e]; cbn; try destruct e; cbn;
      (erewrite calls_since_app; [|cbn; rewrite <- ?app_assoc; reflexivity]); reflexivity.
  - repeat split; auto. exists status, data. auto.
Qed.

(** The counter that is installed does not show in what a fetch
    returns, caches, calls or requests. *)
Lemma fetch_ignores_counter (self : plugin) (h : host) (c : counter) :
  let after := _get_channel_stats self h in
  let other := _get_channel_stats self (with_api_counter c h) in
  fst other = fst after /\ cache (snd other) = cache (snd after) /\
  calls (snd other) = calls (snd after) /\ requests (snd other) = requests (snd after).
Proof.
  cbn zeta. unfold _get_channel_stats, cache_get, requests_get, increment_api_counter,
    cache_set, log. cbn.
  repeat case_bool_decide; cbn; auto.
  destruct (match cache h !! cache_key_of self with
            | Some e => if now h - stored_at e <? update_interval_config self
                        then Some (entry_value e) else None
            | None => None
            end) as [cached|]; cbn; auto.
  destruct (remote h (requests h)) as [|status body]; cbn; auto.
  destruct (raise_for_status status) as [[]|e]; cbn; [|destruct e; cbn; auto].
  destruct body as [data|e]; cbn; [|destruct e; cbn; auto].
  destruct c, (api_counter h); cbn;
    destruct (read_channel data) as [[s|]|e]; cbn; try destruct e; cbn; auto.
Qed.

(** C8, as the code has it.  One fetch calls
    [increment_api_counter('youtube', 1)] exactly when it sent a
    request and received, without a 4xx or 5xx status, a body that
    decodes as JSON (whether or not a record is then read from that
    body); otherwise, and so on every cache hit, it does not call it.
    Whether the counter is the stub, the real one or one that raises,
    the fetch returns, caches, calls and requests the same. *)
Theorem usage_counter_metering (self : plugin) (h : host) :
  let after := _get_channel_stats self h in
  (body_decoded self h ->
     List.filter is_counter_call (calls_since h (snd after)) =
       [IncrementApiCounter (py "youtube") 1]) /\
  (~ body_decoded self h ->
     List.filter is_counter_call (calls_since h (snd after)) = []) /\
  (forall c,
     let other := _get_channel_stats self (with_api_counter c h) in
     fst other = fst after /\ cache (snd other) = cache (snd after) /\
     calls (snd other) = calls (snd after) /\ requests (snd other) = requests (snd after)).
Proof.
  cbn zeta. destruct (counter_calls_of_fetch self h) as [[Hcalls Hdec] | [Hcalls Hnot]].
  - split; [auto|]. split; [tauto|]. intros c. apply fetch_ignores_counter.
  - split; [tauto|]. split; [auto|]. intros c. apply fetch_ignores_counter.
Qed.

Lemma usage_counter_metering_witness :
  (body_decoded test_plugin empty_body_host /\ ~ body_decoded test_plugin (host_cached 100)) /\
  List.filter is_counter_call
    (calls_since empty_body_host (snd (_get_channel_stats test_plugin empty_body_host))) =
    [IncrementApiCounter (py "youtube") 1] /\
  List.filter is_counter_call
    (calls_since (host_cached 100) (snd (_get_channel_stats test_plugin (host_cached 100)))) = [].
Proof.
  assert (Hdec : body_decoded test_plugin empty_body_host).
  { repeat split; try discriminate. exists 200, (VDict []). split; reflexivity. }
  assert (Hhit : ~ body_decoded test_plugin (host_cached 100)).
  { intros (_ & _ & Hmiss & _). vm_compute in Hmiss. discriminate. }
  split; [split; assumption|]. split.
  - exact (proj1 (usage_counter_metering test_plugin empty_body_host) Hdec).
  - exact (proj1 (proj2 (usage_counter_metering test_plugin (host_cached 100))) Hhit).
Defined.

(** C8 as stated fails: the endpoint answers [{}], no record is read
    and the fetch returns [None], yet the counter has been called and
    has counted one more call. *)
Lemma counter_called_without_record :
  fst (_get_channel_stats test_plugin empty_body_host) = Ok None /\
  List.filter is_counter_call
    (calls_since empty_body_host (snd (_get_channel_stats test_plugin empty_body_host))) =
    [IncrementApiCounter (py "youtube") 1] /\
  api_calls (snd (_get_channel_stats test_plugin empty_body_host)) =
    api_calls empty_body_host + 1.
Proof. repeat split; vm_compute; reflexivity. Qed.

(** ** Reading the counts *)

Lemma bind_ok {A B : Type} (m : result A) (f : A -> result B) (b : B) :
  (m ≫= f) = Ok b -> exists a, m = Ok a /\ f a = Ok b.
Proof. destruct m as [a|e]; cbn; [eauto | discriminate]. Qed.

Lemma digit_value_nonneg (c : N) (d : Z) : digit_value c = Some d -> 0 <= d.
Proof.
  unfold digit_value. destruct (List.find _ _); [|discriminate].
  intros [= <-]. lia.
Qed.

Lemma digits_value_nonneg (s : pystr) : forall acc after_digit z,
  0 <= acc -> digits_value acc after_digit s = Some z -> 0 <= z.
Proof.
  induction s as [|c s IH]; intros acc after_digit z Hacc; cbn.
  - destruct after_digit; [intros [= <-]; exact Hacc | discriminate].
  - destruct (c =? 95)%N.
    + destruct after_digit; [apply IH; exact Hacc | discriminate].
    + destruct (digit_value c) as [d|] eqn:Hd; [|discriminate].
      apply IH. apply digit_value_nonneg in Hd. lia.
Qed.

(** [int] of a value without minus sign is not negative. *)
Lemma py_int_unsigned (v : pyval) (z : Z) :
  py_int v = Ok z -> unsigned_count v = true -> 0 <= z.
Proof.
  destruct v as [|b|n|f|s|l|d]; cbn -[Z.ltb digit_count int_max_str_digits];
    try discriminate.
  - intros [= <-] _. now destruct b.
  - intros [= <-] H. now apply Z.leb_le.
  - destruct f as [sg|sg| |sg m e]; cbn; try discriminate.
    + intros [= <-] _. lia.
    + destruct sg; [discriminate|]. intros [= <-] _. apply Z.shiftl_nonneg. lia.
  - destruct (int_max_str_digits <? digit_count s); [discriminate|].
    unfold int_of_str. destruct (strip s) as [|c t] eqn:Hs.
    + cbn. discriminate.
    + destruct (N.eq_dec c 45%N) as [->|Hne]; [discriminate|].
      intros Hint _.
      assert (Hcases : exists r b, digits_value 0 b r = Some z).
      { destruct (N.eq_dec c 43%N) as [->|Hplus].
        - destruct (digits_value 0 false t) eqn:E; inversion Hint; subst; eauto.
        - assert (E : match c :: t with
                      | 43%N :: r => digits_value 0 false r
                      | 45%N :: r => Z.opp <$> digits_value 0 false r
                      | _ => digits_value 0 false (c :: t)
                      end = digits_value 0 false (c :: t)).
          { destruct c as [|p]; [reflexivity|].
            do 6 (destruct p as [p|p|]; try reflexivity); congruence. }
          rewrite E in Hint.
          destruct (digits_value 0 false (c :: t)) eqn:E'; inversion Hint; subst; eauto. }
      destruct Hcases as (r & b & Hr). eapply digits_value_nonneg; [|exact Hr]. lia.
Qed.

(** Three readings of [int()] on texts: the digits of another script
    (Arabic-Indic one to four) are read, with white space beyond ASCII
    skipped around them; the separator U+001C is not skipped; and a
    text of 4301 nines is refused. *)
Lemma int_reads_other_scripts :
  py_int (VStr [160; 1633; 1634; 1635; 1636; 8195]%N) = Ok 1234.
Proof. vm_compute. reflexivity. Qed.

Lemma int_keeps_separators : py_int (VStr [28; 53]%N) = Raise ValueError.
Proof. vm_compute. reflexivity. Qed.

Lemma int_refuses_long_texts :
  py_int (VStr (repeat 57%N 4301)) = Raise ValueError.
Proof. vm_compute. reflexivity. Qed.

(** Where the two counts of a record come from in the body. *)
Lemma read_channel_fields (data : pyval) (s : stats) :
  read_channel data = Ok (Some s) ->
  exists items channel statistics subscriber_count view_count,
    py_getitem data (py "items") = Ok items /\
    py_getitem0 items = Ok channel /\
    py_getitem channel (py "statistics") = Ok statistics /\
    py_getitem statistics (py "subscriberCount") = Ok subscriber_count /\
    py_getitem statistics (py "viewCount") = Ok view_count /\
    py_int subscriber_count = Ok (subscribers s) /\
    py_int view_count = Ok (views s).
Proof.
  unfold read_channel. intros H.
  apply bind_ok in H as (has_items & _ & H). destruct has_items; [|discriminate].
  apply bind_ok in H as (items & Hitems & H). destruct (truthy items); [|discriminate].
  apply bind_ok in H as (channel & Hchannel & H).
  apply bind_ok in H as (snippet & _ & H).
  apply bind_ok in H as (t & _ & H).
  apply bind_ok in H as (statistics & Hstat & H).
  apply bind_ok in H as (sc & Hsc & H).
  apply bind_ok in H as (subs & Hsubs & H).
  apply bind_ok in H as (statistics' & Hstat' & H).
  apply bind_ok in H as (vc & Hvc & H).
  apply bind_ok in H as (vws & Hvws & H).
  inversion H; subst; cbn.
  rewrite Hstat in Hstat'. inversion Hstat'; subst.
  exists items, channel, statistics', sc, vc. auto 10.
Qed.

(** C9, as the code has it.  A record that the fetch builds from the
    endpoint's reply has for its two counts the integers that [int]
    gives for the [subscriberCount] and [viewCount] fields of the first
    item; a count is not negative whenever its field carries no minus
    sign; and the record is written to the cache, and kept by [update]
    as the current stats, as built. *)
Theorem counts_follow_response (self : plugin) (h : host) (s : stats) :
  cache_miss self h ->
  fst (_get_channel_stats self h) = Ok (Some s) ->
  exists status data items channel statistics subscriber_count view_count,
    remote h (requests h) = Reply status (Ok data) /\
    py_getitem data (py "items") = Ok items /\
    py_getitem0 items = Ok channel /\
    py_getitem channel (py "statistics") = Ok statistics /\
    py_getitem statistics (py "subscriberCount") = Ok subscriber_count /\
    py_getitem statistics (py "viewCount") = Ok view_count /\
    py_int subscriber_count = Ok (subscribers s) /\
    py_int view_count = Ok (views s) /\
    (unsigned_count subscriber_count = true -> 0 <= subscribers s) /\
    (unsigned_count view_count = true -> 0 <= views s) /\
    cache (snd (_get_channel_stats self h)) !! cache_key_of self =
      Some {| entry_value := s; stored_at := now h |} /\
    (enabled self = true -> channel_stats (fst (snd (update self h))) = Some s).
Proof.
  unfold cache_miss. intros Hmiss Hfetch.
  assert (Hupdate : enabled self = true ->
                    channel_stats (fst (snd (update self h))) = Some s).
  { intros Hen. unfold update. rewrite Hen. cbn [negb].
    destruct (_get_channel_stats self h) as [fetched h1]. cbn [fst] in Hfetch.
    now subst fetched. }
  destruct (decide (api_key self = [])) as [Hkey|Hkey].
  { unfold _get_channel_stats in Hfetch. rewrite (bool_decide_eq_true_2 _ Hkey) in Hfetch.
    discriminate. }
  destruct (decide (channel_id self = [])) as [Hid|Hid].
  { unfold _get_channel_stats in Hfetch.
    rewrite (bool_decide_eq_false_2 _ Hkey), (bool_decide_eq_true_2 _ Hid) in Hfetch.
    discriminate. }
  rewrite (fetch_with_credentials self h Hkey Hid) in *. cbn zeta in *.
  unfold cache_get in *. cbn [fst] in Hmiss. rewrite Hmiss in *.
  unfold requests_get, increment_api_counter, cache_set, log in *. cbn in Hfetch |- *.
  destruct (remote h (requests h)) as [|status body]; [discriminate|].
  destruct (raise_for_status status) as [[]|e]; [|destruct e; discriminate].
  destruct body as [data|e]; [|destruct e; discriminate].
  assert (Hread : read_channel data = Ok (Some s)).
  { destruct (api_counter h); cbn in Hfetch;
      destruct (read_channel data) as [[s'|]|e]; cbn in Hfetch;
      try destruct e; cbn in Hfetch; congruence. }
  destruct (read_channel_fields data s Hread)
    as (items & channel & statistics & sc & vc & H1 & H2 & H3 & H4 & H5 & H6 & H7).
  exists status, data, items, channel, statistics, sc, vc.
  repeat split; auto.
  - now apply py_int_unsigned.
  - now apply py_int_unsigned.
  - rewrite Hread. destruct (api_counter h); cbn; apply lookup_insert_eq.
Qed.

Lemma counts_follow_response_witness :
  (cache_miss test_plugin test_host /\
   fst (_get_channel_stats test_plugin test_host) = Ok (Some test_stats)) /\
  0 <= subscribers test_stats /\ 0 <= views test_stats /\
  cache (snd (_get_channel_stats test_plugin test_host)) !! cache_key_of test_plugin =
    Some {| entry_value := test_stats; stored_at := now test_host |}.
Proof.
  assert (Hmiss : cache_miss test_plugin test_host) by (vm_compute; reflexivity).
  assert (Hfetch : fst (_get_channel_stats test_plugin test_host) = Ok (Some test_stats))
    by (vm_compute; reflexivity).
  split; [split; assumption|].
  destruct (counts_follow_response test_plugin test_host test_stats Hmiss Hfetch)
    as (status & data & items & channel & statistics & sc & vc & Hreply & Hitems & Hchannel
        & Hstat & Hsc & Hvc & _ & _ & Hsubs & Hviews & Hcache & _).
  vm_compute in Hreply. inversion Hreply; subst data.
  vm_compute in Hitems. inversion Hitems; subst items.
  vm_compute in Hchannel. inversion Hchannel; subst channel.
  vm_compute in Hstat. inversion Hstat; subst statistics.
  vm_compute in Hsc. inversion Hsc; subst sc.
  vm_compute in Hvc. inversion Hvc; subst vc.
  split; [apply Hsubs; vm_compute; reflexivity|].
  split; [apply Hviews; vm_compute; reflexivity | exact Hcache].
Defined.

(** C9 as stated fails: the endpoint reports the subscriber count
    ["-5"]; the fetch accepts it, and [update] keeps a snapshot with
    -5 subscribers, which is also the value left in the cache. *)
Lemma negative_count_stored :
  fst (_get_channel_stats test_plugin negative_host) = Ok (Some negative_stats) /\
  channel_stats (fst (snd (update test_plugin negative_host))) = Some negative_stats /\
  entry_value <$> (cache (snd (snd (update test_plugin negative_host)))
                     !! cache_key_of test_plugin) = Some negative_stats /\
  subscribers negative_stats < 0.
Proof. repeat split; vm_compute; reflexivity. Qed.

(** ** The display *)

Lemma fetch_if_missing_present (self : plugin) (h : host) (cs : stats) :
  channel_stats self = Some cs -> fetch_if_missing self h = (Ok tt, (self, h)).
Proof. intros E. unfold fetch_if_missing. now rewrite E. Qed.

(** The plugin and the host after the fetch of lines 255-257. *)
Lemma fetch_if_missing_spec (self : plugin) (h : host) (r : result unit)
    (self1 : plugin) (h1 : host) :
  fetch_if_missing self h = (r, (self1, h1)) ->
  (exists evs, calls h1 = calls h ++ evs /\ surface_calls evs = []) /\
  same_surface h h1 /\
  last_displayed_stats self1 = last_displayed_stats self /\
  enabled self1 = enabled self /\ font self1 = font self /\
  youtube_logo self1 = youtube_logo self.
Proof.
  assert (Hnothing : forall h0 : host,
    (exists evs, calls h0 = calls h0 ++ evs /\ surface_calls evs = []) /\ same_surface h0 h0).
  { intros h0. split; [exists []; now rewrite app_nil_r|now unfold same_surface]. }
  unfold fetch_if_missing, update. intros E.
  destruct (channel_stats self).
  - inversion E; subst. destruct (Hnothing h1).
    do 2 (split; [assumption|]). repeat split; auto.
  - destruct (enabled self) eqn:Hen; cbn in E.
    + destruct (fetch_calls self h) as (evs & Hc & Hs & Hsame).
      destruct (_get_channel_stats self h) as [[s|e] h'];
        inversion E; subst; cbn in *; (split; [eauto|]); (split; [assumption|]);
        repeat split; auto.
    + inversion E; subst. destruct (Hnothing h1).
      do 2 (split; [assumption|]). repeat split; auto.
Qed.

(** [_create_display] returns the host as it got it when it returns an
    image, and never calls the display surface itself. *)
Lemma create_display_calls (self : plugin) (h : host) (cs : option stats) :
  (fst (_create_display self h cs) <> None -> snd (_create_display self h cs) = h) /\
  exists evs, calls (snd (_create_display self h cs)) = calls h ++ evs /\ surface_calls evs = [].
Proof.
  unfold _create_display.
  destruct cs; [|split; [easy|exists []; now rewrite app_nil_r]].
  destruct (youtube_logo self); [|split; [easy|exists []; now rewrite app_nil_r]].
  destruct (font self); [|split; [easy|exists []; now rewrite app_nil_r]].
  destruct (compose_image _ _ _ _); cbn.
  - split; [easy|exists []; now rewrite app_nil_r].
  - split; [easy|]. eexists; split; [reflexivity|reflexivity].
Qed.

Lemma create_display_image (self : plugin) (h : host) (cs : option stats) (img : image) :
  fst (_create_display self h cs) = Some img -> _create_display self h cs = (Some img, h).
Proof.
  intros E. destruct (create_display_calls self h cs) as [Hsame _].
  destruct (_create_display self h cs) as [o h2]; cbn in *. subst o.
  now rewrite Hsame.
Qed.

(** Every run of [display] either hands over a composed image and
    records its stats, or leaves the last displayed stats alone and
    makes no call to the surface but a possible [clear]. *)
Lemma display_outcome (force_clear : bool) (self : plugin) (h : host)
    (r : result unit) (self' : plugin) (h' : host) :
  display force_clear self h = (r, (self', h')) ->
  exists evs, calls h' = calls h ++ evs /\
  ((exists self1 h1 cs img before,
      fetch_if_missing self h = (Ok tt, (self1, h1)) /\
      channel_stats self1 = Some cs /\
      fst (_create_display self1 (surface_for force_clear h1) (Some cs)) = Some img /\
      self' = with_last_displayed_stats (Some cs) self1 /\
      evs = before ++ [SetImage img; UpdateDisplay; Log LDebug "Displayed stats for channel: "] /\
      surface_calls before = (if force_clear then [Clear] else [])) \/
   (last_displayed_stats self' = last_displayed_stats self /\
    surface_calls evs = [] \/
    last_displayed_stats self' = last_displayed_stats self /\
    force_clear = true /\ surface_calls evs = [Clear])).
Proof.
  unfold display. intros E.
  destruct (enabled self) eqn:Hen; cbn [negb] in E.
  2:{ inversion E; subst. exists []. rewrite app_nil_r. auto. }
  destruct (fetch_if_missing self h) as [fetched [self1 h1]] eqn:Hfetch.
  destruct (fetch_if_missing_spec _ _ _ _ _ Hfetch)
    as ((evs1 & Hcalls1 & Hsurf1) & _ & Hlast & _).
  destruct fetched as [[]|e].
  2:{ inversion E; subst. exists evs1. auto. }
  destruct (channel_stats self1) as [cs|] eqn:Hcs.
  2:{ inversion E; subst. eexists. split.
      - cbn. rewrite Hcalls1, <- app_assoc. reflexivity.
      - right. left. split; [assumption|]. now rewrite surface_calls_app, Hsurf1. }
  destruct (negb force_clear && negb (stats_changed (last_displayed_stats self1) cs)).
  { inversion E; subst. exists evs1. auto. }
  fold (surface_for force_clear h1) in E.
  destruct (create_display_calls self1 (surface_for force_clear h1) (Some cs))
    as (Hsame & evs2 & Hcalls2 & Hsurf2).
  assert (Hfor : calls (surface_for force_clear h1) =
                 calls h ++ evs1 ++ (if force_clear then [Clear] else [])).
  { destruct force_clear; cbn; rewrite Hcalls1, <- ?app_assoc, ?app_nil_r; reflexivity. }
  destruct (_create_display self1 (surface_for force_clear h1) (Some cs))
    as [[img|] h2] eqn:Hcomp; cbn [fst snd] in *.
  - rewrite Hsame in * by discriminate. inversion E; subst. eexists. split.
    + cbn. rewrite Hfor, <- !app_assoc. reflexivity.
    + left. exists self1, h1, cs, img, (evs1 ++ (if force_clear then [Clear] else [])).
      repeat split; auto.
      * now rewrite Hcomp.
      * now rewrite <- app_assoc.
      * rewrite surface_calls_app, Hsurf1. now destruct force_clear.
  - inversion E; subst. eexists. split.
    + rewrite Hcalls2, Hfor, <- !app_assoc. reflexivity.
    + right. rewrite !surface_calls_app, Hsurf1, Hsurf2.
      destruct force_clear; cbn; auto.
Qed.

Lemma stats_unchanged (last cur : stats) :
  py_eq (title last) (title cur) = true ->
  subscribers last = subscribers cur -> views last = views cur ->
  stats_changed (Some last) cur = false.
Proof.
  intros Ht Hs Hv. unfold stats_changed, py_ne.
  now rewrite Ht, Hs, Hv, !Z.eqb_refl.
Qed.

(** A string title equals itself. *)
Lemma py_eq_str (s : pystr) : py_eq (VStr s) (VStr s) = true.
Proof. cbn. now apply bool_decide_eq_true_2. Qed.

Lemma display_updates_once (force_clear : bool) (self : plugin) (h : host)
    (r : result unit) (self' : plugin) (h' : host) :
  display force_clear self h = (r, (self', h')) ->
  (count_calls is_update_display (calls_since h h') <= 1)%nat.
Proof.
  intros E. destruct (display_outcome _ _ _ _ _ _ E) as (evs & Hcalls & Hcases).
  rewrite (calls_since_app _ _ _ Hcalls), count_update_display_surface.
  destruct Hcases as [(self1 & h1 & cs & img & before & _ & _ & _ & _ & -> & Hb)
                     | [[_ ->] | (_ & _ & ->)]].
  - rewrite surface_calls_app, Hb. now destruct force_clear.
  - cbn; lia.
  - cbn; lia.
Qed.

(** C1.  Take two consecutive calls [display(force_clear=False)].  If,
    when the second call starts, the current stats and the last
    displayed stats have equal title, subscriber count and view count,
    then the second call returns with the plugin and the host exactly
    as it found them (nothing composed, no call made), and across the
    two calls [update_display()] has been called at most once. *)
Theorem unchanged_stats_not_redrawn
    (self : plugin) (h : host) (r1 : result unit) (self1 : plugin) (h1 : host)
    (cur last : stats) :
  display false self h = (r1, (self1, h1)) ->
  channel_stats self1 = Some cur ->
  last_displayed_stats self1 = Some last ->
  py_eq (title last) (title cur) = true ->
  subscribers last = subscribers cur ->
  views last = views cur ->
  display false self1 h1 = (Ok tt, (self1, h1)) /\
  (count_calls is_update_display
     (calls_since h (snd (snd (display false self1 h1)))) <= 1)%nat.
Proof.
  intros Hfirst Hcur Hlast Ht Hs Hv.
  assert (Hsecond : display false self1 h1 = (Ok tt, (self1, h1))).
  { unfold display. destruct (enabled self1); [|reflexivity]. cbn [negb].
    rewrite (fetch_if_missing_present _ _ _ Hcur), Hcur, Hlast.
    now rewrite (stats_unchanged _ _ Ht Hs Hv). }
  split; [exact Hsecond|]. rewrite Hsecond. cbn [snd].
  exact (display_updates_once _ _ _ _ _ _ Hfirst).
Qed.

Lemma unchanged_stats_not_redrawn_witness :
  let self1 := fst (snd first_display) in
  let h1 := snd (snd first_display) in
  (display false test_plugin test_host = (Ok tt, (self1, h1)) /\
   channel_stats self1 = Some test_stats /\
   last_displayed_stats self1 = Some test_stats) /\
  display false self1 h1 = (Ok tt, (self1, h1)) /\
  (count_calls is_update_display
     (calls_since test_host (snd (snd (display false self1 h1)))) <= 1)%nat.
Proof.
  intros self1 h1.
  assert (Hfirst : display false test_plugin test_host = (Ok tt, (self1, h1)))
    by (vm_compute; reflexivity).
  assert (Hcur : channel_stats self1 = Some test_stats) by (vm_compute; reflexivity).
  assert (Hlast : last_displayed_stats self1 = Some test_stats) by (vm_compute; reflexivity).
  assert (Ht : py_eq (title test_stats) (title test_stats) = true) by apply py_eq_str.
  split; [exact (conj Hfirst (conj Hcur Hlast))|].
  exact (unchanged_stats_not_redrawn test_plugin test_host (Ok tt)
           self1 h1 test_stats test_stats Hfirst Hcur Hlast Ht eq_refl eq_refl).
Defined.

(** C2, as the code has it.  On an enabled plugin that holds stats, or
    gets them from the fetch made at the start of the call, and whose
    composition gives an image, [display(force_clear=True)] clears the
    surface, composes on the cleared surface, hands the image over and
    calls [update_display()], in that order and whether or not the
    stats equal the last displayed ones; it then records the stats as
    the last displayed. *)
Theorem forced_display_redraws
    (self : plugin) (h : host) (self1 : plugin) (h1 : host) (cs : stats) (img : image) :
  enabled self = true ->
  fetch_if_missing self h = (Ok tt, (self1, h1)) ->
  channel_stats self1 = Some cs ->
  fst (_create_display self1 (clear h1) (Some cs)) = Some img ->
  display true self h =
    (Ok tt, (with_last_displayed_stats (Some cs) self1,
             log LDebug "Displayed stats for channel: "
               (update_display (set_image img (clear h1))))) /\
  surface_calls (calls_since h (snd (snd (display true self h)))) =
    [Clear; SetImage img; UpdateDisplay].
Proof.
  intros Hen Hfetch Hcs Hcomp.
  assert (Hrun : display true self h =
    (Ok tt, (with_last_displayed_stats (Some cs) self1,
             log LDebug "Displayed stats for channel: "
               (update_display (set_image img (clear h1)))))).
  { unfold display. rewrite Hen, Hfetch. cbn [negb andb]. rewrite Hcs.
    cbn [negb andb]. now rewrite (create_display_image _ _ _ _ Hcomp). }
  split; [exact Hrun|]. rewrite Hrun. cbn [snd].
  destruct (fetch_if_missing_spec _ _ _ _ _ Hfetch) as ((evs & Hcalls & Hsurf) & _).
  erewrite calls_since_app; [|cbn; rewrite Hcalls, <- !app_assoc; reflexivity].
  now rewrite surface_calls_app, Hsurf.
Qed.

Lemma forced_display_redraws_witness :
  (enabled plugin_rendered = true /\
   fetch_if_missing plugin_rendered test_host = (Ok tt, (plugin_rendered, test_host)) /\
   channel_stats plugin_rendered = Some test_stats /\
   last_displayed_stats plugin_rendered = Some test_stats /\
   fst (_create_display plugin_rendered (clear test_host) (Some test_stats)) = Some test_image) /\
  surface_calls (calls_since test_host (snd (snd (display true plugin_rendered test_host)))) =
    [Clear; SetImage test_image; UpdateDisplay].
Proof.
  assert (Hen : enabled plugin_rendered = true) by reflexivity.
  assert (Hfetch : fetch_if_missing plugin_rendered test_host =
                   (Ok tt, (plugin_rendered, test_host))) by reflexivity.
  assert (Hcs : channel_stats plugin_rendered = Some test_stats) by reflexivity.
  assert (Hlast : last_displayed_stats plugin_rendered = Some test_stats) by reflexivity.
  assert (Hcomp : fst (_create_display plugin_rendered (clear test_host) (Some test_stats)) =
                  Some test_image) by (vm_compute; reflexivity).
  split; [exact (conj Hen (conj Hfetch (conj Hcs (conj Hlast Hcomp))))|].
  exact (proj2 (forced_display_redraws plugin_rendered test_host plugin_rendered test_host
                  test_stats test_image Hen Hfetch Hcs Hcomp)).
Defined.

(** C2 as stated fails on an enabled plugin: when the endpoint does not
    answer there are no stats, and the forced call makes no call to the
    surface at all; when the stats have a title that is not a string the
    composition fails, and the forced call only clears. *)
Lemma forced_display_without_hand_off :
  enabled test_plugin = true /\
  surface_calls
    (calls_since silent_host (snd (snd (display true test_plugin silent_host)))) = [] /\
  enabled untitled_plugin = true /\
  surface_calls
    (calls_since test_host (snd (snd (display true untitled_plugin test_host)))) = [Clear].
Proof. repeat split; vm_compute; reflexivity. Qed.

(** C7.  In every call of [display], either an image was composed,
    handed to the surface and followed by [update_display()], and only
    then are the composed stats recorded as the last displayed ones; or
    the last displayed stats are unchanged and the call made neither a
    hand-over nor an [update_display()].  In particular, whenever the
    composition that the call would make returns [None], nothing is
    handed over and the last displayed stats stay as they were. *)
Theorem last_displayed_follows_hand_off
    (force_clear : bool) (self : plugin) (h : host)
    (r : result unit) (self' : plugin) (h' : host) :
  display force_clear self h = (r, (self', h')) ->
  ((exists self1 h1 cs img before,
      fetch_if_missing self h = (Ok tt, (self1, h1)) /\
      channel_stats self1 = Some cs /\
      fst (_create_display self1 (surface_for force_clear h1) (Some cs)) = Some img /\
      last_displayed_stats self' = Some cs /\
      calls_since h h' =
        before ++ [SetImage img; UpdateDisplay; Log LDebug "Displayed stats for channel: "]) \/
   (last_displayed_stats self' = last_displayed_stats self /\
    List.filter is_update_display (calls_since h h') = [] /\
    forall img, ~ In (SetImage img) (calls_since h h'))) /\
  (forall self1 h1 cs,
      fetch_if_missing self h = (Ok tt, (self1, h1)) ->
      channel_stats self1 = Some cs ->
      fst (_create_display self1 (surface_for force_clear h1) (Some cs)) = None ->
      last_displayed_stats self' = last_displayed_stats self /\
      List.filter is_update_display (calls_since h h') = [] /\
      forall img, ~ In (SetImage img) (calls_since h h')).
Proof.
  intros E. destruct (display_outcome _ _ _ _ _ _ E) as (evs & Hcalls & Hcases).
  rewrite (calls_since_app _ _ _ Hcalls).
  assert (Hquiet : forall l : list event,
             surface_calls l = [] \/ surface_calls l = [Clear] ->
             List.filter is_update_display l = [] /\ forall img, ~ In (SetImage img) l).
  { intros l Hl. split.
    - assert (Hc := count_update_display_surface l). unfold count_calls in Hc.
      apply length_zero_iff_nil. rewrite Hc. now destruct Hl as [-> | ->].
    - intros img Hin.
      assert (Hs : In (SetImage img) (surface_calls l)).
      { apply List.filter_In. now split. }
      destruct Hl as [Hl | Hl]; rewrite Hl in Hs; cbn in Hs; intuition discriminate. }
  destruct Hcases as [(self1 & h1 & cs & img & before & Hf & Hcs & Hcomp & -> & -> & Hb) | Hrest].
  - split.
    + left. exists self1, h1, cs, img, before. repeat split; auto.
    + intros self2 h2 cs2 Hf2 Hcs2 Hnone. rewrite Hf in Hf2. inversion Hf2; subst.
      rewrite Hcs in Hcs2. inversion Hcs2; subst. congruence.
  - assert (Hkept : last_displayed_stats self' = last_displayed_stats self /\
                    List.filter is_update_display evs = [] /\
                    forall img, ~ In (SetImage img) evs).
    { destruct Hrest as [[Hl Hs] | (Hl & _ & Hs)]; (split; [exact Hl|]); apply Hquiet; auto. }
    split; [right; exact Hkept | intros; exact Hkept].
Qed.

Lemma last_displayed_follows_hand_off_witness :
  (fetch_if_missing untitled_plugin test_host = (Ok tt, (untitled_plugin, test_host)) /\
   channel_stats untitled_plugin = Some untitled_stats /\
   fst (_create_display untitled_plugin (surface_for true test_host) (Some untitled_stats)) =
     None) /\
  last_displayed_stats (fst (snd (display true untitled_plugin test_host))) =
    last_displayed_stats untitled_plugin /\
  List.filter is_update_display
    (calls_since test_host (snd (snd (display true untitled_plugin test_host)))) = [] /\
  forall img, ~ In (SetImage img)
    (calls_since test_host (snd (snd (display true untitled_plugin test_host)))).
Proof.
  assert (Hrun : display true untitled_plugin test_host =
                 (Ok tt, (fst (snd (display true untitled_plugin test_host)),
                          snd (snd (display true untitled_plugin test_host)))))
    by (vm_compute; reflexivity).
  assert (Hfetch : fetch_if_missing untitled_plugin test_host =
                   (Ok tt, (untitled_plugin, test_host))) by reflexivity.
  assert (Hcs : channel_stats untitled_plugin = Some untitled_stats) by reflexivity.
  assert (Hnone : fst (_create_display untitled_plugin (surface_for true test_host)
                         (Some untitled_stats)) = None) by (vm_compute; reflexivity).
  split; [exact (conj Hfetch (conj Hcs Hnone))|].
  exact (proj2 (last_displayed_follows_hand_off true untitled_plugin test_host
                  (Ok tt) _ _ Hrun) untitled_plugin test_host untitled_stats
               Hfetch Hcs Hnone).
Defined.

(** C10.  A call [display(force_clear=True)] has a stats snapshot
    present when it reaches line 259 with one: the plugin is enabled,
    and it either held stats on entry or got them from the fetch of
    lines 256-257.  In every such call the surface is cleared first and
    the composition is made on the cleared surface: the calls to the
    surface are the [clear], followed by the hand-over and
    [update_display()] exactly when an image was composed.  If the
    composition returns [None], the call ends with the surface cleared,
    no image handed over, no [update_display()], and the plugin as the
    fetch left it.  In every other forced call the surface is not
    touched at all. *)
Theorem forced_clear_precedes_composition
    (self : plugin) (h : host) (r : result unit) (self1 : plugin) (h1 : host) :
  fetch_if_missing self h = (r, (self1, h1)) ->
  match enabled self, r, channel_stats self1 with
  | true, Ok _, Some cs =>
      surface_calls (calls_since h (snd (snd (display true self h)))) =
        Clear :: match fst (_create_display self1 (clear h1) (Some cs)) with
                 | Some img => [SetImage img; UpdateDisplay]
                 | None => []
                 end /\
      (fst (_create_display self1 (clear h1) (Some cs)) = None ->
       display true self h =
         (Ok tt, (self1, snd (_create_display self1 (clear h1) (Some cs)))))
  | _, _, _ =>
      surface_calls (calls_since h (snd (snd (display true self h)))) = []
  end.
Proof.
  intros Hfetch.
  destruct (fetch_if_missing_spec _ _ _ _ _ Hfetch) as ((evs1 & Hcalls1 & Hsurf1) & _).
  unfold display. destruct (enabled self) eqn:Hen; cbn [negb].
  2:{ cbn [snd]. unfold calls_since. now rewrite drop_all. }
  rewrite Hfetch. destruct r as [[]|e].
  2:{ cbn [snd]. now rewrite (calls_since_app _ _ _ Hcalls1). }
  destruct (channel_stats self1) as [cs|] eqn:Hcs.
  2:{ cbn [snd]. erewrite calls_since_app; [|cbn; rewrite Hcalls1, <- app_assoc; reflexivity].
      now rewrite surface_calls_app, Hsurf1. }
  cbn [negb andb].
  destruct (create_display_calls self1 (clear h1) (Some cs))
    as (Hsame & evs2 & Hcalls2 & Hsurf2).
  destruct (_create_display self1 (clear h1) (Some cs)) as [[img|] h2]; cbn [fst snd] in *.
  - rewrite Hsame by discriminate. split; [|discriminate].
    erewrite calls_since_app; [|cbn; rewrite Hcalls1, <- ?app_assoc; reflexivity].
    now rewrite surface_calls_app, Hsurf1.
  - split; [|reflexivity].
    erewrite calls_since_app;
      [|rewrite Hcalls2; cbn; rewrite Hcalls1, <- ?app_assoc; reflexivity].
    now rewrite !surface_calls_app, Hsurf1, Hsurf2.
Qed.

Lemma forced_clear_precedes_composition_witness :
  let self1 := fst (snd (fetch_if_missing test_plugin untitled_host)) in
  let h1 := snd (snd (fetch_if_missing test_plugin untitled_host)) in
  (fetch_if_missing test_plugin untitled_host = (Ok tt, (self1, h1)) /\
   enabled test_plugin = true /\ channel_stats test_plugin = None /\
   channel_stats self1 = Some untitled_stats /\
   fst (_create_display self1 (clear h1) (Some untitled_stats)) = None) /\
  surface_calls (calls_since untitled_host (snd (snd (display true test_plugin untitled_host)))) =
    [Clear] /\
  display true test_plugin untitled_host =
    (Ok tt, (self1, log LError "Error creating display image: " (clear h1))).
Proof.
  intros self1 h1.
  assert (Hfetch : fetch_if_missing test_plugin untitled_host = (Ok tt, (self1, h1)))
    by (vm_compute; reflexivity).
  assert (Hen : enabled test_plugin = true) by reflexivity.
  assert (Hno : channel_stats test_plugin = None) by reflexivity.
  assert (Hcs : channel_stats self1 = Some untitled_stats) by (vm_compute; reflexivity).
  assert (Hnone : fst (_create_display self1 (clear h1) (Some untitled_stats)) = None)
    by (vm_compute; reflexivity).
  assert (Hhost : snd (_create_display self1 (clear h1) (Some untitled_stats)) =
                  log LError "Error creating display image: " (clear h1))
    by (vm_compute; reflexivity).
  split; [exact (conj Hfetch (conj Hen (conj Hno (conj Hcs Hnone))))|].
  pose proof (forced_clear_precedes_composition test_plugin untitled_host (Ok tt)
                self1 h1 Hfetch) as H.
  rewrite Hen, Hcs in H. destruct H as [Hcalls Hstate].
  rewrite Hnone in Hcalls. rewrite <- Hhost.
  exact (conj Hcalls (Hstate Hnone)).
Defined.

(** ** The name line *)

Lemma truncate_name_short (N : Z) (name : pystr) :
  Z.of_nat (length name) <= N -> truncate_name N name = name.
Proof.
  intros Hfit. unfold truncate_name.
  destruct (Z.gtb_spec (Z.of_nat (length name)) N); [lia | reflexivity].
Qed.

Lemma truncate_name_long (N : Z) (name : pystr) :
  3 <= N -> N < Z.of_nat (length name) ->
  truncate_name N name = take (Z.to_nat (N - 3)) name ++ py "..." /\
  Z.of_nat (length (truncate_name N name)) = N.
Proof.
  intros Hroom Hlong. unfold truncate_name, slice_to.
  destruct (Z.gtb_spec (Z.of_nat (length name)) N); [|lia].
  destruct (Z.ltb_spec (N - 3) 0); [lia|].
  split; [reflexivity|].
  rewrite length_app, length_take. change (length (py "...")) with 3%nat. lia.
Qed.

(** The first text of a composed image is the truncated title. *)
Lemma create_display_name_line (self : plugin) (h : host) (cs : stats)
    (name : pystr) (img : image) :
  title cs = VStr name ->
  fst (_create_display self h (Some cs)) = Some img ->
  exists logo logo_width logo_height x y rest,
    youtube_logo self = Some logo /\
    logo_size (matrix_height h) logo = Ok (logo_width, logo_height) /\
    img_texts img =
      (x, y, truncate_name (max_chars (matrix_width h) (right_section_x logo_width)) name)
      :: rest.
Proof.
  intros Htitle. unfold _create_display.
  destruct (youtube_logo self) as [logo|]; [|discriminate].
  destruct (font self) as [fnt|]; [|discriminate].
  unfold compose_image. rewrite Htitle.
  destruct (logo_size (matrix_height h) logo) as [[logo_width logo_height]|e] eqn:Hsize;
    [|discriminate].
  cbn [mbind result_bind].
  match goal with |- context [pillow_draws h ?i] => destruct (pillow_draws h i) end;
    [|discriminate].
  cbn [fst]. intros [= <-]. cbn [img_texts].
  eexists logo, logo_width, logo_height, _, _, _.
  split; [reflexivity|]. split; [exact Hsize|]. reflexivity.
Qed.

(** C6, as the code has it.  Let N be the character budget of the text
    region, [(matrix_width - right_section_x - 4) // 8].  In a composed
    image, a name of at most N characters is drawn unmodified; and when
    N is at least 3, a name longer than N characters is drawn as its
    first N-3 characters followed by ["..."], N characters in all. *)
Theorem name_line_fits_budget
    (self : plugin) (h : host) (cs : stats) (name : pystr) (img : image) :
  title cs = VStr name ->
  fst (_create_display self h (Some cs)) = Some img ->
  exists logo logo_width logo_height x y line rest,
    youtube_logo self = Some logo /\
    logo_size (matrix_height h) logo = Ok (logo_width, logo_height) /\
    img_texts img = (x, y, line) :: rest /\
    let N := max_chars (matrix_width h) (right_section_x logo_width) in
    (Z.of_nat (length name) <= N -> line = name) /\
    (3 <= N -> N < Z.of_nat (length name) ->
       line = take (Z.to_nat (N - 3)) name ++ py "..." /\ Z.of_nat (length line) = N).
Proof.
  intros Htitle Himg.
  destruct (create_display_name_line self h cs name img Htitle Himg)
    as (logo & lw & lh & x & y & rest & Hlogo & Hsize & Htexts).
  exists logo, lw, lh, x, y,
    (truncate_name (max_chars (matrix_width h) (right_section_x lw)) name), rest.
  repeat split; auto.
  - now apply truncate_name_short.
  - now apply truncate_name_long.
  - now apply truncate_name_long.
Qed.

Lemma name_line_fits_budget_witness :
  (title test_stats = VStr (py "Test Channel") /\
   fst (_create_display plugin_with_stats test_host (Some test_stats)) = Some test_image) /\
  max_chars (matrix_width test_host) (right_section_x 27) = 11 /\
  exists x y rest, img_texts test_image = (x, y, py "Test Cha...") :: rest.
Proof.
  assert (Htitle : title test_stats = VStr (py "Test Channel")) by reflexivity.
  assert (Himg : fst (_create_display plugin_with_stats test_host (Some test_stats)) =
                 Some test_image) by (vm_compute; reflexivity).
  split; [exact (conj Htitle Himg)|]. split; [vm_compute; reflexivity|].
  destruct (name_line_fits_budget plugin_with_stats test_host test_stats
              (py "Test Channel") test_image Htitle Himg)
    as (logo & lw & lh & x & y & line & rest & Hlogo & Hsize & Htexts & _ & Hlong).
  vm_compute in Hlogo. inversion Hlogo; subst logo.
  vm_compute in Hsize. inversion Hsize; subst lw lh.
  destruct Hlong as [Hline _]; [vm_compute; discriminate | vm_compute; reflexivity |].
  exists x, y, rest. rewrite Htexts, Hline. vm_compute; reflexivity.
Defined.

(** C6 as stated fails for a budget under 3: on a 64x32 panel with a
    128x70 logo the budget is 2, and the 12-character name is drawn as
    14 characters, its first 11 followed by ["..."]. *)
Lemma narrow_region_overflows :
  logo_size (matrix_height narrow_host) {| logo_width_px := 128; logo_height_px := 70 |}
    = Ok (34, 19) /\
  max_chars (matrix_width narrow_host) (right_section_x 34) = 2 /\
  exists img x y rest,
    fst (_create_display narrow_plugin narrow_host (Some test_stats)) = Some img /\
    img_texts img = (x, y, py "Test Channe...") :: rest /\
    length (py "Test Channe...") = 14%nat.
Proof.
  split; [vm_compute; reflexivity|]. split; [vm_compute; reflexivity|].
  eexists _, _, _, _. repeat split; vm_compute; reflexivity.
Qed.

(** * Further properties of the plugin *)

(** ** Construction *)

Lemma pathlib_exists_true (env : os_env) (path : pystr) :
  pathlib_exists env path = Some true <-> path_exists env path = true.
Proof. unfold pathlib_exists, path_exists. destruct (stat env path); split; congruence. Qed.

(** The search returns the first place that exists among those it
    can test; it returns [None] only when it tested all three, and it
    ends in an exception only when no tested place exists and
    [os.getcwd()] or [project_path.exists()] raised. *)
Lemma resolve_asset_find (env : os_env) (asset_path : pystr) :
  match resolve_asset env asset_path with
  | Found q => List.find (path_exists env) (candidates env asset_path) = Some q
  | NotFound =>
      getcwd env <> None /\
      List.find (path_exists env) (candidates env asset_path) = None /\
      pathlib_exists env (path_under (project_root env) asset_path) = Some false
  | Failed =>
      List.find (path_exists env) (candidates env asset_path) = None /\
      (getcwd env = None \/
       pathlib_exists env (path_under (project_root env) asset_path) = None)
  end.
Proof.
  unfold resolve_asset, candidates.
  destruct (path_exists env asset_path) eqn:Hgiven.
  - destruct (getcwd env); cbn; now rewrite Hgiven.
  - destruct (getcwd env) as [cwd|]; [|cbn; rewrite Hgiven; auto].
    destruct (path_exists env (os_path_join cwd asset_path)) eqn:Hcwd.
    + cbn. now rewrite Hgiven, Hcwd.
    + destruct (pathlib_exists env (path_under (project_root env) asset_path))
        as [[|]|] eqn:Hroot.
      * apply pathlib_exists_true in Hroot. cbn. now rewrite Hgiven, Hcwd, Hroot.
      * assert (Hno : path_exists env (path_under (project_root env) asset_path) = false).
        { unfold pathlib_exists in Hroot. unfold path_exists.
          destruct (stat env (path_under (project_root env) asset_path)); congruence. }
        split; [discriminate|]. split; [|reflexivity]. cbn. now rewrite Hgiven, Hcwd, Hno.
      * assert (Hno : path_exists env (path_under (project_root env) asset_path) = false).
        { unfold pathlib_exists in Hroot. unfold path_exists.
          destruct (stat env (path_under (project_root env) asset_path)); congruence. }
        split; [|now right]. cbn. now rewrite Hgiven, Hcwd, Hno.
Qed.

Lemma resolve_asset_exists (env : os_env) (asset_path q : pystr) :
  resolve_asset env asset_path = Found q -> path_exists env q = true.
Proof.
  unfold resolve_asset.
  destruct (path_exists env asset_path) eqn:Hgiven; [now intros [= <-]|].
  destruct (getcwd env) as [cwd|]; [|discriminate].
  destruct (path_exists env (os_path_join cwd asset_path)) eqn:Hcwd; [now intros [= <-]|].
  destruct (pathlib_exists env (path_under (project_root env) asset_path))
    as [[|]|] eqn:Hroot; try discriminate.
  intros [= <-]. now apply pathlib_exists_true.
Qed.

(** The font block always leaves a font. *)
Lemma load_font_spec (env : os_env) (self : plugin) (h : host) :
  exists f msg lvl,
    load_font env self h = (with_font (Some f) self, log lvl msg h).
Proof.
  unfold load_font.
  destruct (resolve_asset env font_path) as [q| |]; eauto.
  destruct (path_exists env q); eauto.
  destruct (truetype env q); eauto.
Qed.

(** The logo block either sets the logo or disables the plugin. *)
Lemma load_logo_spec (env : os_env) (self : plugin) (h : host) :
  (exists q l lvl msg,
     resolve_asset env logo_path = Found q /\ image_open env q = Some l /\
     load_logo env self h = (with_youtube_logo (Some l) self, log lvl msg h)) \/
  ((forall q, resolve_asset env logo_path = Found q -> image_open env q = None) /\
   exists lvl msg, load_logo env self h = (with_enabled false self, log lvl msg h)).
Proof.
  unfold load_logo.
  destruct (resolve_asset env logo_path) as [q| |] eqn:Hres.
  - rewrite (resolve_asset_exists _ _ _ Hres).
    destruct (image_open env q) as [l|] eqn:Hopen.
    + left. exists q, l. eauto.
    + right. split; [|eauto]. intros q' [= <-]. exact Hopen.
  - right. split; [discriminate|eauto].
  - right. split; [discriminate|eauto].
Qed.

Lemma load_font_first_existing (env : os_env) (self : plugin) (h : host) :
  font (fst (load_font env self h)) =
    Some (match List.find (path_exists env) (candidates env font_path) with
          | Some q => default (load_default env) (truetype env q)
          | None => load_default env
          end) /\
  youtube_logo (fst (load_font env self h)) = youtube_logo self.
Proof.
  assert (Hfind := resolve_asset_find env font_path). unfold load_font.
  destruct (resolve_asset env font_path) as [q| |] eqn:Hres.
  - rewrite (resolve_asset_exists _ _ _ Hres), Hfind.
    destruct (truetype env q); cbn; auto.
  - destruct Hfind as (_ & -> & _). cbn. auto.
  - destruct Hfind as (-> & _). cbn. auto.
Qed.

Lemma load_logo_first_existing (env : os_env) (self : plugin) (h : host) :
  youtube_logo (fst (load_logo env self h)) =
    match List.find (path_exists env) (candidates env logo_path) with
    | Some q =>
        match image_open env q with
        | Some l => Some l
        | None => youtube_logo self
        end
    | None => youtube_logo self
    end /\
  font (fst (load_logo env self h)) = font self.
Proof.
  assert (Hfind := resolve_asset_find env logo_path). unfold load_logo.
  destruct (resolve_asset env logo_path) as [q| |] eqn:Hres.
  - rewrite (resolve_asset_exists _ _ _ Hres), Hfind.
    destruct (image_open env q); cbn; auto.
  - destruct Hfind as (_ & -> & _). cbn. auto.
  - destruct Hfind as (-> & _). cbn. auto.
Qed.

(** X1.  [_initialize_display] loads each asset from the first place
    that exists, in the order: the path as given, the path under the
    working directory, the path under the project root (only the first
    of them can be tested when [os.getcwd()] raises).  The font is the
    one [ImageFont.truetype] loads from that place; it is the default
    font when no place exists, when the search or [truetype] raises.
    The logo is the image opened from that place; the attribute is
    left as it was in every other case. *)
Theorem assets_from_first_existing_place (env : os_env) (self : plugin) (h : host) :
  font (fst (_initialize_display env self h)) =
    Some (match List.find (path_exists env) (candidates env font_path) with
          | Some q => default (load_default env) (truetype env q)
          | None => load_default env
          end) /\
  youtube_logo (fst (_initialize_display env self h)) =
    match List.find (path_exists env) (candidates env logo_path) with
    | Some q =>
        match image_open env q with
        | Some l => Some l
        | None => youtube_logo self
        end
    | None => youtube_logo self
    end.
Proof.
  unfold _initialize_display.
  destruct (load_font_first_existing env self h) as [Hfont Hkept].
  destruct (load_font env self h) as [self1 h1]. cbn [fst] in *.
  destruct (load_logo_first_existing env self1 h1) as [Hlogo Hfont'].
  now rewrite Hfont', Hfont, Hlogo, Hkept.
Qed.

(** The plugin as the constructor returns it, by cases on the logo. *)
Lemma init_spec (id : pystr) (base_enabled : bool) (cfg : config) (env : os_env) (h : host) :
  let self := fst (__init__ id base_enabled cfg env h) in
  (base_enabled = true /\
   (exists q l, resolve_asset env logo_path = Found q /\ image_open env q = Some l /\
                youtube_logo self = Some l) /\
   enabled self = true /\ exists f, font self = Some f) \/
  (enabled self = false /\
   (base_enabled = false \/
    forall q, resolve_asset env logo_path = Found q -> image_open env q = None)).
Proof.
  cbn zeta. unfold __init__. cbn [enabled]. destruct base_enabled; cbn [fst enabled].
  2:{ right. auto. }
  unfold _initialize_display.
  match goal with |- context [load_font env ?s h] =>
    destruct (load_font_spec env s h) as (f & msg & lvl & ->) end.
  match goal with |- context [load_logo env ?s ?h'] =>
    destruct (load_logo_spec env s h') as [(q & l & lvl' & msg' & Hres & Hopen & ->)
                                          | (Hnone & lvl' & msg' & ->)] end;
    cbn [fst enabled font youtube_logo with_youtube_logo with_enabled with_font].
  - left. split; [reflexivity|]. split; [exists q, l; auto|]. split; [reflexivity|eauto].
  - right. auto.
Qed.

(** X2.  The constructed plugin is enabled exactly when the host
    enabled it and the logo was found and could be opened; the font
    plays no part in it. *)
Theorem enabled_iff_logo_loaded
    (id : pystr) (base_enabled : bool) (cfg : config) (env : os_env) (h : host) :
  enabled (fst (__init__ id base_enabled cfg env h)) = true <->
  base_enabled = true /\
  exists q l, resolve_asset env logo_path = Found q /\ image_open env q = Some l.
Proof.
  destruct (init_spec id base_enabled cfg env h)
    as [(Hb & (q & l & Hres & Hopen & _) & Hen & _) | (Hdis & Hwhy)].
  - split; [eauto|intros _; exact Hen].
  - rewrite Hdis. split; [discriminate|]. intros (Hb & q & l & Hres & Hopen).
    destruct Hwhy as [Hoff | Hnone]; [congruence|].
    rewrite (Hnone q Hres) in Hopen. discriminate.
Qed.

Lemma enabled_iff_logo_loaded_witness :
  (true = true /\
   exists q l, resolve_asset sample_env logo_path = Found q /\
               image_open sample_env q = Some l) /\
  enabled (fst (__init__ (py "youtube-stats") true test_config sample_env test_host)) = true.
Proof.
  assert (H : true = true /\
              exists q l, resolve_asset sample_env logo_path = Found q /\
                          image_open sample_env q = Some l).
  { split; [reflexivity|].
    exists (py "/home/pi/LEDMatrix/assets/youtube_logo.png"),
           {| logo_width_px := 100; logo_height_px := 70 |}.
    split; vm_compute; reflexivity. }
  split; [exact H|].
  exact (proj2 (enabled_iff_logo_loaded (py "youtube-stats") true test_config
                  sample_env test_host) H).
Defined.

(** X3.  A plugin that leaves the constructor enabled has a font and
    its logo.  So the first test of [_create_display] never stops it:
    whenever a composition for given stats returns [None], an error
    was logged for it. *)
Theorem constructed_enabled_has_assets
    (id : pystr) (base_enabled : bool) (cfg : config) (env : os_env) (h : host) :
  let self := fst (__init__ id base_enabled cfg env h) in
  enabled self = true ->
  (exists f l, font self = Some f /\ youtube_logo self = Some l) /\
  forall h' cs,
    fst (_create_display self h' (Some cs)) = None ->
    calls_since h' (snd (_create_display self h' (Some cs))) =
      [Log LError "Error creating display image: "].
Proof.
  cbn zeta. intros Hen.
  assert (Hassets : exists f l,
            font (fst (__init__ id base_enabled cfg env h)) = Some f /\
            youtube_logo (fst (__init__ id base_enabled cfg env h)) = Some l).
  { destruct (init_spec id base_enabled cfg env h)
      as [(_ & (q & l & _ & _ & Hl) & _ & f & Hf) | (Hdis & _)]; [eauto|congruence]. }
  split; [exact Hassets|].
  destruct Hassets as (f & l & Hf & Hl).
  intros h' cs. unfold _create_display. rewrite Hf, Hl.
  destruct (compose_image f l h' cs); cbn [fst snd]; [discriminate|].
  intros _. now apply calls_since_app.
Qed.

Lemma constructed_enabled_has_assets_witness :
  let self := fst (__init__ (py "youtube-stats") true test_config sample_env test_host) in
  enabled self = true /\ exists f l, font self = Some f /\ youtube_logo self = Some l.
Proof.
  intros self.
  assert (Hen : enabled self = true) by (vm_compute; reflexivity).
  split; [exact Hen|].
  exact (proj1 (constructed_enabled_has_assets (py "youtube-stats") true test_config
                  sample_env test_host Hen)).
Defined.

(** ** Disabled plugins *)

Lemma disabled_run_call (c : entry_call) (self : plugin) (h : host) :
  enabled self = false -> run_call c self h = (Ok tt, (self, h)).
Proof.
  intros Hdis. destruct c; cbn; unfold update, display; now rewrite Hdis.
Qed.

(** X4.  On a disabled plugin no sequence of [update] and [display]
    calls does anything: the plugin and the host, with its cache, its
    endpoint and its display, are left exactly as they were. *)
Theorem disabled_plugin_is_inert (cs : list entry_call) (self : plugin) (h : host) :
  enabled self = false -> run_calls cs self h = (Ok tt, (self, h)).
Proof.
  intros Hdis. induction cs as [|c cs IH]; [reflexivity|].
  cbn [run_calls]. now rewrite (disabled_run_call c self h Hdis).
Qed.

Lemma disabled_plugin_is_inert_witness :
  enabled disabled_plugin = false /\
  run_calls [CallUpdate; CallDisplay false; CallDisplay true] disabled_plugin test_host =
    (Ok tt, (disabled_plugin, test_host)).
Proof.
  assert (Hdis : enabled disabled_plugin = false) by reflexivity.
  split; [exact Hdis|].
  exact (disabled_plugin_is_inert [CallUpdate; CallDisplay false; CallDisplay true]
           disabled_plugin test_host Hdis).
Defined.

(** X5.  When the logo cannot be found, or is found and cannot be
    opened, the constructor returns a disabled plugin, whatever the
    host asked for, and neither [update] nor [display] then does
    anything. *)
Theorem without_logo_nothing_runs
    (id : pystr) (base_enabled : bool) (cfg : config) (env : os_env) (h : host)
    (c : entry_call) (h' : host) :
  (forall q, resolve_asset env logo_path = Found q -> image_open env q = None) ->
  let self := fst (__init__ id base_enabled cfg env h) in
  enabled self = false /\ run_call c self h' = (Ok tt, (self, h')).
Proof.
  intros Hnone. cbn zeta.
  assert (Hdis : enabled (fst (__init__ id base_enabled cfg env h)) = false).
  { destruct (init_spec id base_enabled cfg env h)
      as [(_ & (q & l & Hres & Hopen & _) & _) | (Hdis & _)]; [|exact Hdis].
    rewrite (Hnone q Hres) in Hopen. discriminate. }
  split; [exact Hdis|]. now apply disabled_run_call.
Qed.

Lemma without_logo_nothing_runs_witness :
  (forall q, resolve_asset bare_env logo_path = Found q -> image_open bare_env q = None) /\
  let self := fst (__init__ (py "youtube-stats") true test_config bare_env test_host) in
  enabled self = false /\ run_call (CallDisplay true) self test_host = (Ok tt, (self, test_host)).
Proof.
  assert (Hnone : forall q, resolve_asset bare_env logo_path = Found q ->
                            image_open bare_env q = None) by (intros q _; reflexivity).
  split; [exact Hnone|].
  exact (without_logo_nothing_runs (py "youtube-stats") true test_config bare_env test_host
           (CallDisplay true) test_host Hnone).
Defined.

(** ** Configuration *)

Lemma fetch_missing_credentials (self : plugin) (h : host) :
  api_key self = [] \/ channel_id self = [] ->
  exists msg, _get_channel_stats self h = (Ok None, log LError msg h).
Proof.
  intros Hmissing. unfold _get_channel_stats.
  case_bool_decide as Hkey; [eauto|].
  destruct Hmissing as [Hk | Hc]; [contradiction|].
  rewrite bool_decide_eq_true_2 by exact Hc. eauto.
Qed.

(** The first call of a fetch that has its credentials. *)
Lemma fetch_starts_at_cache (self : plugin) (h : host) :
  api_key self <> [] -> channel_id self <> [] ->
  exists rest,
    calls_since h (snd (_get_channel_stats self h)) =
      CacheGet (cache_key_of self) (update_interval_config self) :: rest.
Proof.
  intros Hkey Hid. rewrite (fetch_with_credentials self h Hkey Hid). cbn zeta.
  unfold cache_get, requests_get, increment_api_counter, cache_set, log.
  destruct (match cache h !! cache_key_of self with
            | Some e => if now h - stored_at e <? update_interval_config self
                        then Some (entry_value e) else None
            | None => None
            end) as [c|]; cbn.
  { eexists. apply calls_since_app. cbn. rewrite <- ?app_assoc. reflexivity. }
  destruct (remote h (requests h)) as [|status body]; cbn.
  { eexists. apply calls_since_app. cbn. rewrite <- ?app_assoc. reflexivity. }
  destruct (raise_for_status status) as [[]|e]; cbn.
  2:{ destruct e; cbn; eexists; apply calls_since_app; cbn; rewrite <- ?app_assoc;
        reflexivity. }
  destruct body as [data|e]; cbn.
  2:{ destruct e; cbn; eexists; apply calls_since_app; cbn; rewrite <- ?app_assoc;
        reflexivity. }
  destruct (api_counter h); cbn;
    destruct (read_channel data) as [[s|]|e]; cbn; try destruct e; cbn;
    eexists; apply calls_since_app; cbn; rewrite <- ?app_assoc; reflexivity.
Qed.

(** X6.  [validate_config] and the fetch agree on the credentials.  If
    the validation succeeds, a fetch goes on to consult the cache; if
    it fails after the base class accepted the configuration, it has
    logged one error, and a fetch returns [None] without a request and
    without a cache write. *)
Theorem validate_config_guards_fetch (self : plugin) (h h0 : host) :
  (fst (validate_config true self h) = true ->
     exists rest,
       calls_since h0 (snd (_get_channel_stats self h0)) =
         CacheGet (cache_key_of self) (update_interval_config self) :: rest) /\
  (fst (validate_config true self h) = false ->
     fst (_get_channel_stats self h0) = Ok None /\
     requests (snd (_get_channel_stats self h0)) = requests h0 /\
     cache (snd (_get_channel_stats self h0)) = cache h0 /\
     exists msg, calls_since h (snd (validate_config true self h)) = [Log LError msg]).
Proof.
  unfold validate_config. cbn [negb].
  destruct (decide (channel_id self = [])) as [Hid|Hid].
  { rewrite (bool_decide_eq_true_2 _ Hid). cbn [fst snd]. split; [discriminate|]. intros _.
    destruct (fetch_missing_credentials self h0 (or_intror Hid)) as (msg & ->).
    cbn [fst snd]. repeat split. eexists. now apply calls_since_app. }
  rewrite (bool_decide_eq_false_2 _ Hid).
  destruct (decide (api_key self = [])) as [Hkey|Hkey].
  { rewrite (bool_decide_eq_true_2 _ Hkey). cbn [fst snd]. split; [discriminate|]. intros _.
    destruct (fetch_missing_credentials self h0 (or_introl Hkey)) as (msg & ->).
    cbn [fst snd]. repeat split. eexists. now apply calls_since_app. }
  rewrite (bool_decide_eq_false_2 _ Hkey). cbn [fst snd]. split; [|discriminate]. intros _.
  now apply fetch_starts_at_cache.
Qed.

Lemma validate_config_guards_fetch_witness :
  (fst (validate_config true test_plugin test_host) = true /\
   fst (validate_config true plugin_without_key test_host) = false) /\
  (exists rest,
     calls_since test_host (snd (_get_channel_stats test_plugin test_host)) =
       CacheGet (cache_key_of test_plugin) (update_interval_config test_plugin) :: rest) /\
  fst (_get_channel_stats plugin_without_key test_host) = Ok None /\
  requests (snd (_get_channel_stats plugin_without_key test_host)) = requests test_host.
Proof.
  assert (Hvalid : fst (validate_config true test_plugin test_host) = true)
    by (vm_compute; reflexivity).
  assert (Hinvalid : fst (validate_config true plugin_without_key test_host) = false)
    by (vm_compute; reflexivity).
  split; [exact (conj Hvalid Hinvalid)|]. split.
  - exact (proj1 (validate_config_guards_fetch test_plugin test_host test_host) Hvalid).
  - destruct (proj2 (validate_config_guards_fetch plugin_without_key test_host test_host)
                Hinvalid) as (Hnone & Hreq & _).
    exact (conj Hnone Hreq).
Defined.

(** ** More on [display] *)

Lemma in_surface_calls (e : event) (l : list event) :
  In e l -> is_surface_call e = true -> In e (surface_calls l).
Proof. intros Hin Hs. apply List.filter_In. now split. Qed.

Lemma count_calls_none (p : event -> bool) (l : list event) :
  (forall e, In e l -> p e = false) -> count_calls p l = 0%nat.
Proof.
  intros Hnone. unfold count_calls. induction l as [|e l IH]; [reflexivity|].
  cbn. rewrite (Hnone e) by now left. apply IH. intros e' Hin. apply Hnone. now right.
Qed.

(** X7.  [display()] without [force_clear] never clears the surface,
    whatever the plugin holds and whatever the endpoint answers. *)
Theorem unforced_display_never_clears (self : plugin) (h : host) :
  count_calls is_clear (calls_since h (snd (snd (display false self h)))) = 0%nat.
Proof.
  apply count_calls_none. intros e Hin.
  destruct e; try reflexivity. exfalso.
  destruct (display false self h) as [r [self' h']] eqn:E. cbn [snd] in Hin.
  destruct (display_outcome _ _ _ _ _ _ E) as (evs & Hcalls & Hcases).
  rewrite (calls_since_app _ _ _ Hcalls) in Hin.
  apply in_surface_calls in Hin; [|reflexivity].
  destruct Hcases as [(self1 & h1 & cs & img & before & _ & _ & _ & _ & -> & Hb)
                     | [[_ Hs] | (_ & Hf & _)]].
  - rewrite surface_calls_app, Hb in Hin. cbn in Hin. intuition discriminate.
  - now rewrite Hs in Hin.
  - discriminate.
Qed.

(** A composed image has a string for title. *)
Lemma composed_title_is_str (self : plugin) (h : host) (cs : stats) (img : image) :
  fst (_create_display self h (Some cs)) = Some img -> exists name, title cs = VStr name.
Proof.
  unfold _create_display.
  destruct (youtube_logo self) as [logo|]; [|discriminate].
  destruct (font self) as [fnt|]; [|discriminate].
  unfold compose_image.
  destruct (logo_size (matrix_height h) logo) as [[lw lh]|e]; [|discriminate].
  cbn [mbind result_bind].
  destruct (title cs); try discriminate. eauto.
Qed.

(** X8.  Once a call of [display] has handed an image to the surface,
    the next call without [force_clear] returns at once: it changes
    neither the plugin nor the host, and so makes no request and no
    call to the surface. *)
Theorem display_after_hand_off_is_idle
    (force_clear : bool) (self : plugin) (h : host)
    (r : result unit) (self' : plugin) (h' : host) (img : image) :
  display force_clear self h = (r, (self', h')) ->
  In (SetImage img) (calls_since h h') ->
  display false self' h' = (Ok tt, (self', h')).
Proof.
  intros E Hin.
  destruct (display_outcome _ _ _ _ _ _ E) as (evs & Hcalls & Hcases).
  rewrite (calls_since_app _ _ _ Hcalls) in Hin.
  apply in_surface_calls in Hin; [|reflexivity].
  destruct Hcases as [(self1 & h1 & cs & img' & before & _ & Hcs & Hcomp & -> & _ & _)
                     | [[_ Hs] | (_ & _ & Hs)]].
  - destruct (composed_title_is_str _ _ _ _ Hcomp) as [name Hname].
    unfold display. cbn [enabled with_last_displayed_stats].
    destruct (enabled self1); [|reflexivity]. cbn [negb].
    unfold fetch_if_missing. cbn [channel_stats with_last_displayed_stats].
    rewrite Hcs. cbn [channel_stats last_displayed_stats with_last_displayed_stats].
    rewrite Hcs.
    assert (Hsame : stats_changed (Some cs) cs = false).
    { apply stats_unchanged; try reflexivity. rewrite Hname. apply py_eq_str. }
    now rewrite Hsame.
  - now rewrite Hs in Hin.
  - rewrite Hs in Hin. cbn in Hin. intuition discriminate.
Qed.

Lemma display_after_hand_off_is_idle_witness :
  let self' := fst (snd (display true test_plugin test_host)) in
  let h' := snd (snd (display true test_plugin test_host)) in
  (display true test_plugin test_host = (Ok tt, (self', h')) /\
   In (SetImage test_image) (calls_since test_host h')) /\
  display false self' h' = (Ok tt, (self', h')).
Proof.
  intros self' h'.
  assert (Hrun : display true test_plugin test_host = (Ok tt, (self', h')))
    by (vm_compute; reflexivity).
  assert (Hin : In (SetImage test_image) (calls_since test_host h'))
    by (vm_compute; repeat (first [left; reflexivity | right])).
  split; [exact (conj Hrun Hin)|].
  exact (display_after_hand_off_is_idle true test_plugin test_host (Ok tt) self' h'
           test_image Hrun Hin).
Defined.

(** X9.  Without [force_clear], an enabled plugin whose stats were
    never displayed, or differ from the last displayed ones in the
    subscribers, the views or the title, redraws: when the composition
    gives an image it is handed over, followed by [update_display()],
    with no [clear] before, and the stats become the last displayed. *)
Theorem changed_stats_are_redrawn
    (self : plugin) (h : host) (cs : stats) (img : image) :
  enabled self = true ->
  channel_stats self = Some cs ->
  (last_displayed_stats self = None \/
   exists last, last_displayed_stats self = Some last /\
     (subscribers last <> subscribers cs \/ views last <> views cs \/
      py_eq (title last) (title cs) = false)) ->
  fst (_create_display self h (Some cs)) = Some img ->
  display false self h =
    (Ok tt, (with_last_displayed_stats (Some cs) self,
             log LDebug "Displayed stats for channel: "
               (update_display (set_image img h)))).
Proof.
  intros Hen Hcs Hchanged Hcomp.
  assert (Hch : stats_changed (last_displayed_stats self) cs = true).
  { destruct Hchanged as [-> | (last & -> & Hdiff)]; [reflexivity|].
    unfold stats_changed, py_ne.
    destruct Hdiff as [Hd | [Hd | Hd]].
    - apply Z.eqb_neq in Hd. now rewrite Hd.
    - apply Z.eqb_neq in Hd. rewrite Hd. now rewrite orb_true_r.
    - rewrite Hd. now rewrite !orb_true_r. }
  unfold display. rewrite Hen, (fetch_if_missing_present self h cs Hcs). cbn [negb].
  rewrite Hcs, Hch. cbn [negb andb].
  now rewrite (create_display_image _ _ _ _ Hcomp).
Qed.

Lemma changed_stats_are_redrawn_witness :
  (enabled plugin_outdated = true /\
   channel_stats plugin_outdated = Some newer_stats /\
   last_displayed_stats plugin_outdated = Some test_stats /\
   subscribers test_stats <> subscribers newer_stats) /\
  exists img,
    fst (_create_display plugin_outdated test_host (Some newer_stats)) = Some img /\
    display false plugin_outdated test_host =
      (Ok tt, (with_last_displayed_stats (Some newer_stats) plugin_outdated,
               log LDebug "Displayed stats for channel: "
                 (update_display (set_image img test_host)))).
Proof.
  assert (Hen : enabled plugin_outdated = true) by reflexivity.
  assert (Hcs : channel_stats plugin_outdated = Some newer_stats) by reflexivity.
  assert (Hlast : last_displayed_stats plugin_outdated = Some test_stats) by reflexivity.
  assert (Hdiff : subscribers test_stats <> subscribers newer_stats)
    by (vm_compute; discriminate).
  split; [exact (conj Hen (conj Hcs (conj Hlast Hdiff)))|].
  destruct (fst (_create_display plugin_outdated test_host (Some newer_stats)))
    as [img|] eqn:Hcomp; [|vm_compute in Hcomp; discriminate Hcomp].
  exists img. split; [reflexivity|].
  exact (changed_stats_are_redrawn plugin_outdated test_host newer_stats img Hen Hcs
           (or_intror (ex_intro _ test_stats (conj Hlast (or_introl Hdiff)))) Hcomp).
Defined.

Lemma local_calls_only (l : list event) (e : event) :
  forallb is_local_call l = true -> In e l -> is_local_call e = true.
Proof. intros Hall Hin. rewrite forallb_forall in Hall. now apply Hall. Qed.

(** X10.  A call of [display] on a plugin that already holds stats
    stays local: it sends no request, leaves the cache and the usage
    count alone, keeps the stats, and calls only the surface and the
    logger. *)
Theorem display_with_stats_stays_local
    (force_clear : bool) (self : plugin) (h : host) (cs : stats) :
  channel_stats self = Some cs ->
  requests (snd (snd (display force_clear self h))) = requests h /\
  cache (snd (snd (display force_clear self h))) = cache h /\
  api_calls (snd (snd (display force_clear self h))) = api_calls h /\
  channel_stats (fst (snd (display force_clear self h))) = Some cs /\
  forallb is_local_call (calls_since h (snd (snd (display force_clear self h)))) = true.
Proof.
  intros Hcs. unfold display.
  destruct (enabled self).
  2:{ cbn. repeat split; auto. unfold calls_since. now rewrite drop_all. }
  cbn [negb]. rewrite (fetch_if_missing_present self h cs Hcs), Hcs.
  destruct (negb force_clear && negb (stats_changed (last_displayed_stats self) cs)).
  { cbn. repeat split; auto. unfold calls_since. now rewrite drop_all. }
  unfold _create_display.
  destruct (youtube_logo self) as [logo|], (font self) as [fnt|];
    try destruct (compose_image fnt logo _ cs) as [img|ex];
    destruct force_clear; cbn; repeat split; auto;
    unfold calls_since; cbn; rewrite <- ?app_assoc;
    first [rewrite drop_app_length | rewrite drop_all]; reflexivity.
Qed.

Lemma display_with_stats_stays_local_witness :
  channel_stats plugin_outdated = Some newer_stats /\
  requests (snd (snd (display true plugin_outdated test_host))) = requests test_host /\
  cache (snd (snd (display true plugin_outdated test_host))) = cache test_host.
Proof.
  assert (Hcs : channel_stats plugin_outdated = Some newer_stats) by reflexivity.
  split; [exact Hcs|].
  destruct (display_with_stats_stays_local true plugin_outdated test_host newer_stats Hcs)
    as (Hreq & Hcache & _).
  exact (conj Hreq Hcache).
Defined.

(** ** More on the fetch *)

(** What a fetch leaves of the host: the clock, the endpoint and the
    counter are those it found, and the cache has at most one more
    entry, under the plugin's key. *)
Lemma fetch_frame (self : plugin) (h : host) :
  let h' := snd (_get_channel_stats self h) in
  now h' = now h /\ remote h' = remote h /\ api_counter h' = api_counter h /\
  (requests h' = requests h \/ requests h' = S (requests h)) /\
  (cache h' = cache h \/
   exists s, fst (_get_channel_stats self h) = Ok (Some s) /\
             cache h' = <[cache_key_of self := {| entry_value := s; stored_at := now h |}]>
                          (cache h)).
Proof.
  cbn zeta. fetch_cases; cbn; auto 10.
  all: repeat split; auto; right; eauto.
Qed.

Lemma fetch_hit (self : plugin) (h : host) (e : cache_entry) :
  api_key self <> [] -> channel_id self <> [] ->
  cache h !! cache_key_of self = Some e ->
  now h - stored_at e < update_interval_config self ->
  _get_channel_stats self h =
    (Ok (Some (entry_value e)),
     log LDebug "Using cached channel stats"
       (record (CacheGet (cache_key_of self) (update_interval_config self)) h)).
Proof.
  intros Hkey Hid He Hfresh. rewrite (fetch_with_credentials self h Hkey Hid). cbn zeta.
  unfold cache_get. now rewrite He, (proj2 (Z.ltb_lt _ _) Hfresh).
Qed.

Lemma fetch_miss_requests (self : plugin) (h : host) :
  api_key self <> [] -> channel_id self <> [] -> cache_miss self h ->
  requests (snd (_get_channel_stats self h)) = S (requests h).
Proof.
  intros Hkey Hid Hmiss. unfold cache_miss in Hmiss.
  rewrite (fetch_with_credentials self h Hkey Hid). cbn zeta.
  unfold cache_get in *. cbn [fst] in Hmiss. rewrite Hmiss.
  unfold requests_get, increment_api_counter, cache_set, log. cbn.
  destruct (remote h (requests h)) as [|status body]; cbn; [reflexivity|].
  destruct (raise_for_status status) as [[]|e]; cbn; [|destruct e; reflexivity].
  destruct body as [data|e]; cbn; [|destruct e; reflexivity].
  destruct (api_counter h); cbn;
    destruct (read_channel data) as [[s|]|e]; cbn; try destruct e;
    reflexivity.
Qed.

Lemma fetch_some_has_credentials (self : plugin) (h : host) (s : stats) :
  fst (_get_channel_stats self h) = Ok (Some s) ->
  api_key self <> [] /\ channel_id self <> [].
Proof.
  unfold _get_channel_stats. intros E.
  destruct (decide (api_key self = [])) as [Hkey|Hkey].
  { rewrite (bool_decide_eq_true_2 _ Hkey) in E. discriminate. }
  destruct (decide (channel_id self = [])) as [Hid|Hid].
  { rewrite (bool_decide_eq_false_2 _ Hkey), (bool_decide_eq_true_2 _ Hid) in E.
    discriminate. }
  now split.
Qed.

Lemma fetch_success_caches (self : plugin) (h : host) (s : stats) :
  cache_miss self h -> fst (_get_channel_stats self h) = Ok (Some s) ->
  cache (snd (_get_channel_stats self h)) !! cache_key_of self =
    Some {| entry_value := s; stored_at := now h |}.
Proof.
  intros Hmiss Hfetch.
  destruct (fetch_some_has_credentials self h s Hfetch) as [Hkey Hid].
  unfold cache_miss in Hmiss.
  rewrite (fetch_with_credentials self h Hkey Hid) in *. cbn zeta in *.
  unfold cache_get in *. cbn [fst] in Hmiss. rewrite Hmiss in *.
  unfold requests_get, increment_api_counter, cache_set, log in *. cbn in Hfetch |- *.
  destruct (remote h (requests h)) as [|status body]; [discriminate|].
  destruct (raise_for_status status) as [[]|e]; [|destruct e; discriminate].
  destruct body as [data|e]; [|destruct e; discriminate].
  destruct (api_counter h); cbn in Hfetch |- *;
    destruct (read_channel data) as [[s'|]|e]; cbn in Hfetch |- *;
    try destruct e; cbn in Hfetch |- *; try discriminate;
    inversion Hfetch; subst; apply lookup_insert_eq.
Qed.

(** X11.  Round trip through the cache.  After a fetch that went to
    the endpoint and returned a record, a fetch made [dt] seconds later
    returns that same record without a request as long as [dt] is less
    than the update interval, and sends a new request once [dt] has
    reached the interval. *)
Theorem fetched_record_is_served_again
    (self : plugin) (h h1 : host) (s : stats) (dt : Z) :
  cache_miss self h ->
  fst (_get_channel_stats self h) = Ok (Some s) ->
  h1 = advance dt (snd (_get_channel_stats self h)) ->
  (dt < update_interval_config self ->
     fst (_get_channel_stats self h1) = Ok (Some s) /\
     requests (snd (_get_channel_stats self h1)) = requests h1) /\
  (update_interval_config self <= dt ->
     requests (snd (_get_channel_stats self h1)) = S (requests h1)).
Proof.
  intros Hmiss Hfetch ->.
  destruct (fetch_some_has_credentials self h s Hfetch) as [Hkey Hid].
  assert (Hcache := fetch_success_caches self h s Hmiss Hfetch).
  destruct (fetch_frame self h) as (Hnow & _).
  set (h0 := snd (_get_channel_stats self h)) in *.
  assert (Hc1 : cache (advance dt h0) !! cache_key_of self =
                Some {| entry_value := s; stored_at := now h |}) by exact Hcache.
  assert (Hn1 : now (advance dt h0) = now h + dt) by (cbn; now rewrite Hnow).
  split.
  - intros Hfresh.
    rewrite (fetch_hit self (advance dt h0) _ Hkey Hid Hc1); [split; reflexivity|].
    rewrite Hn1. cbn. lia.
  - intros Hold. apply (fetch_miss_requests self (advance dt h0) Hkey Hid).
    unfold cache_miss, cache_get. cbn [fst]. rewrite Hc1, Hn1. cbn [stored_at].
    destruct (Z.ltb_spec (now h + dt - now h) (update_interval_config self)); [lia|reflexivity].
Qed.

Lemma fetched_record_is_served_again_witness :
  let h1 := advance 299 (snd (_get_channel_stats test_plugin test_host)) in
  let h2 := advance 300 (snd (_get_channel_stats test_plugin test_host)) in
  (cache_miss test_plugin test_host /\
   fst (_get_channel_stats test_plugin test_host) = Ok (Some test_stats) /\
   299 < update_interval_config test_plugin /\
   update_interval_config test_plugin <= 300) /\
  (fst (_get_channel_stats test_plugin h1) = Ok (Some test_stats) /\
   requests (snd (_get_channel_stats test_plugin h1)) = requests h1) /\
  requests (snd (_get_channel_stats test_plugin h2)) = S (requests h2).
Proof.
  intros h1 h2.
  assert (Hmiss : cache_miss test_plugin test_host) by (vm_compute; reflexivity).
  assert (Hfetch : fst (_get_channel_stats test_plugin test_host) = Ok (Some test_stats))
    by (vm_compute; reflexivity).
  assert (Hfresh : 299 < update_interval_config test_plugin) by (vm_compute; reflexivity).
  assert (Hold : update_interval_config test_plugin <= 300) by (vm_compute; discriminate).
  split; [exact (conj Hmiss (conj Hfetch (conj Hfresh Hold)))|].
  exact (conj
           (proj1 (fetched_record_is_served_again test_plugin test_host h1 test_stats 299
                     Hmiss Hfetch eq_refl) Hfresh)
           (proj2 (fetched_record_is_served_again test_plugin test_host h2 test_stats 300
                     Hmiss Hfetch eq_refl) Hold)).
Defined.

Lemma cache_key_of_inj (self other : plugin) :
  cache_key_of self = cache_key_of other -> plugin_id self = plugin_id other.
Proof. unfold cache_key_of. apply app_inv_tail. Qed.

(** X12.  A fetch writes the cache under the plugin's own key only:
    the entry of a plugin with another identifier is after the fetch
    what it was before. *)
Theorem fetch_keeps_other_entries (self other : plugin) (h : host) :
  plugin_id self <> plugin_id other ->
  cache (snd (_get_channel_stats self h)) !! cache_key_of other =
    cache h !! cache_key_of other.
Proof.
  intros Hne.
  destruct (fetch_frame self h) as (_ & _ & _ & _ & [-> | (s & _ & ->)]); [reflexivity|].
  apply lookup_insert_ne. intros E. apply Hne. now apply cache_key_of_inj.
Qed.

Lemma fetch_keeps_other_entries_witness :
  plugin_id test_plugin <> plugin_id second_plugin /\
  cache (snd (_get_channel_stats test_plugin test_host)) !! cache_key_of second_plugin =
    cache test_host !! cache_key_of second_plugin.
Proof.
  assert (Hne : plugin_id test_plugin <> plugin_id second_plugin)
    by (vm_compute; discriminate).
  split; [exact Hne|].
  exact (fetch_keeps_other_entries test_plugin second_plugin test_host Hne).
Defined.

(** X13.  Of a response only the first element of [items] is read:
    the other elements and the other keys of the body change neither
    the record nor the exception that comes out. *)
Theorem only_first_item_is_read
    (d : list (pystr * pyval)) (first : pyval) (rest : list pyval) :
  dict_get (py "items") d = Some (VList (first :: rest)) ->
  read_channel (VDict d) = read_channel (VDict [(py "items", VList [first])]).
Proof.
  intros Hitems. unfold read_channel, py_in, py_getitem.
  rewrite Hitems. cbn [dict_get]. rewrite bool_decide_eq_true_2 by reflexivity.
  reflexivity.
Qed.

Lemma only_first_item_is_read_witness :
  (exists first rest, dict_get (py "items") two_items = Some (VList (first :: rest)) /\
                      rest <> []) /\
  read_channel (VDict two_items) =
    Ok (Some {| title := VStr (py "First"); subscribers := 1; views := 2 |}).
Proof.
  assert (Hitems : dict_get (py "items") two_items =
                   Some (VList [ VDict [ (py "snippet", VDict [ (py "title", VStr (py "First")) ]);
                                         (py "statistics",
                                          VDict [ (py "subscriberCount", VStr (py "1"));
                                                  (py "viewCount", VStr (py "2")) ]) ];
                                 VDict [ (py "snippet",
                                          VDict [ (py "title", VStr (py "Second")) ]) ] ]))
    by (vm_compute; reflexivity).
  split.
  - eexists _, _. split; [exact Hitems|discriminate].
  - rewrite (only_first_item_is_read two_items _ _ Hitems). vm_compute. reflexivity.
Defined.

Lemma with_channel_stats_same (self : plugin) :
  with_channel_stats (channel_stats self) self = self.
Proof. now destruct self. Qed.

(** A failed fetch costs one request and leaves the cache and the
    clock as they were. *)
Lemma failed_fetch_host (self : plugin) (h : host) :
  api_key self <> [] -> channel_id self <> [] -> cache_miss self h ->
  failed_reply (remote h (requests h)) ->
  let h' := snd (_get_channel_stats self h) in
  fst (_get_channel_stats self h) = Ok None /\
  requests h' = S (requests h) /\ cache h' = cache h /\ now h' = now h /\
  remote h' = remote h.
Proof.
  intros Hkey Hid Hmiss Hfail. cbn zeta.
  assert (Hnone := fetch_after_failed_reply self h Hkey Hid Hmiss Hfail).
  destruct (fetch_frame self h) as (Hnow & Hremote & _ & _ & Hcache).
  repeat split; auto.
  - now apply fetch_miss_requests.
  - destruct Hcache as [Hc | (s & Hs & _)]; [exact Hc|]. congruence.
Qed.

(** One display on a plugin without stats whose fetch fails. *)
Lemma failed_display (force_clear : bool) (self : plugin) (h : host) :
  enabled self = true -> api_key self <> [] -> channel_id self <> [] ->
  channel_stats self = None -> cache_miss self h ->
  failed_reply (remote h (requests h)) ->
  exists h' evs,
    display force_clear self h = (Ok tt, (self, h')) /\
    calls h' = calls h ++ evs /\ surface_calls evs = [] /\
    requests h' = S (requests h) /\ cache h' = cache h /\ now h' = now h /\
    remote h' = remote h.
Proof.
  intros Hen Hkey Hid Hnostats Hmiss Hfail.
  destruct (failed_fetch_host self h Hkey Hid Hmiss Hfail)
    as (Hnone & Hreq & Hcache & Hnow & Hremote).
  destruct (fetch_calls self h) as (evs & Hcalls & Hsurf & _).
  assert (Hsame : with_channel_stats None self = self).
  { rewrite <- Hnostats. apply with_channel_stats_same. }
  unfold display, fetch_if_missing, update. rewrite Hen, Hnostats. cbn [negb].
  destruct (_get_channel_stats self h) as [fetched h1]. cbn [fst snd] in *. subst fetched.
  rewrite Hsame, Hnostats.
  eexists _, (evs ++ [_]). split; [reflexivity|]. cbn.
  rewrite Hcalls, <- app_assoc, surface_calls_app, Hsurf. auto 10.
Qed.

(** X14.  Nothing remembers a failure.  On an enabled plugin without
    stats, with nothing fresh in the cache, [n] calls of [display] in
    a row against an endpoint that fails each time send [n] requests,
    one per call; they raise nothing, leave the plugin and the cache
    as they were and make no call to the surface. *)
Theorem failing_endpoint_is_asked_every_time
    (n : nat) (force_clear : bool) (self : plugin) (h : host) :
  enabled self = true -> api_key self <> [] -> channel_id self <> [] ->
  channel_stats self = None -> cache_miss self h ->
  (forall k, (k < n)%nat -> failed_reply (remote h (requests h + k)%nat)) ->
  exists h',
    run_calls (repeat (CallDisplay force_clear) n) self h = (Ok tt, (self, h')) /\
    requests h' = (requests h + n)%nat /\
    surface_calls (calls_since h h') = [] /\
    cache h' = cache h.
Proof.
  intros Hen Hkey Hid Hnostats.
  assert (Hgen : forall (n : nat) (h : host), cache_miss self h ->
    (forall k, (k < n)%nat -> failed_reply (remote h (requests h + k)%nat)) ->
    exists h' evs,
      run_calls (repeat (CallDisplay force_clear) n) self h = (Ok tt, (self, h')) /\
      requests h' = (requests h + n)%nat /\
      calls h' = calls h ++ evs /\ surface_calls evs = [] /\ cache h' = cache h).
  { clear n h. induction n as [|n IH]; intros h Hmiss Hfail.
    - exists h, []. cbn. rewrite app_nil_r. repeat split; auto.
    - assert (Hfirst : failed_reply (remote h (requests h))).
      { specialize (Hfail 0%nat). rewrite Nat.add_0_r in Hfail. apply Hfail. lia. }
      destruct (failed_display force_clear self h Hen Hkey Hid Hnostats Hmiss Hfirst)
        as (h1 & evs1 & Hrun & Hcalls1 & Hsurf1 & Hreq1 & Hcache1 & Hnow1 & Hremote1).
      destruct (IH h1) as (h' & evs & Hrest & Hreq & Hcalls & Hsurf & Hcache).
      + unfold cache_miss, cache_get in *. cbn [fst] in *. now rewrite Hcache1, Hnow1.
      + intros k Hk. rewrite Hremote1, Hreq1.
        replace (S (requests h) + k)%nat with (requests h + S k)%nat by lia.
        apply Hfail. lia.
      + exists h', (evs1 ++ evs). cbn [repeat run_calls run_call]. rewrite Hrun.
        split; [exact Hrest|]. split; [lia|]. split.
        * now rewrite Hcalls, Hcalls1, <- app_assoc.
        * split; [|congruence]. now rewrite surface_calls_app, Hsurf1, Hsurf. }
  intros Hmiss Hfail.
  destruct (Hgen n h Hmiss Hfail) as (h' & evs & Hrun & Hreq & Hcalls & Hsurf & Hcache).
  exists h'. repeat split; auto. now rewrite (calls_since_app _ _ _ Hcalls).
Qed.

Lemma failing_endpoint_is_asked_every_time_witness :
  (enabled test_plugin = true /\ channel_stats test_plugin = None /\
   cache_miss test_plugin silent_host /\
   forall k, (k < 3)%nat ->
     failed_reply (remote silent_host (requests silent_host + k)%nat)) /\
  exists h',
    run_calls (repeat (CallDisplay false) 3) test_plugin silent_host =
      (Ok tt, (test_plugin, h')) /\
    requests h' = (requests silent_host + 3)%nat.
Proof.
  assert (Hen : enabled test_plugin = true) by reflexivity.
  assert (Hkey : api_key test_plugin <> []) by (vm_compute; discriminate).
  assert (Hid : channel_id test_plugin <> []) by (vm_compute; discriminate).
  assert (Hnostats : channel_stats test_plugin = None) by reflexivity.
  assert (Hmiss : cache_miss test_plugin silent_host) by (vm_compute; reflexivity).
  assert (Hfail : forall k, (k < 3)%nat ->
            failed_reply (remote silent_host (requests silent_host + k)%nat))
    by (intros k _; exact failed_no_reply).
  split; [exact (conj Hen (conj Hnostats (conj Hmiss Hfail)))|].
  destruct (failing_endpoint_is_asked_every_time 3 false test_plugin silent_host
              Hen Hkey Hid Hnostats Hmiss Hfail) as (h' & Hrun & Hreq & _).
  exists h'. exact (conj Hrun Hreq).
Defined.

(** ** Exceptions *)

Lemma bind_raise {A B : Type} (m : result A) (f : A -> result B) (e : exn) :
  (m ≫= f) = Raise e -> m = Raise e \/ exists a, m = Ok a /\ f a = Raise e.
Proof. destruct m as [a|e']; cbn; [eauto | intros [= ->]; auto]. Qed.

Lemma py_in_raises (k : pystr) (c : pyval) (e : exn) :
  py_in k c = Raise e -> caught_by_fetch e = true.
Proof. destruct c; cbn; try discriminate; now intros [= <-]. Qed.

Lemma py_getitem_raises (c : pyval) (k : pystr) (e : exn) :
  py_getitem c k = Raise e -> caught_by_fetch e = true.
Proof.
  destruct c; cbn; try discriminate; try (now intros [= <-]).
  destruct (dict_get k d); [discriminate | now intros [= <-]].
Qed.

Lemma py_getitem0_raises (c : pyval) (e : exn) :
  truthy c = true -> py_getitem0 c = Raise e -> caught_by_fetch e = true.
Proof.
  destruct c as [|b|z|f|s|l|d]; cbn; try discriminate; try (now intros _ [= <-]).
  - destruct s; [|intros; discriminate].
    rewrite bool_decide_eq_true_2 by reflexivity. discriminate.
  - destruct l; intros; discriminate.
Qed.

Lemma py_int_raises (v : pyval) (e : exn) :
  py_int v = Raise e ->
  caught_by_fetch e = true \/
  e = OverflowError /\ exists sign, v = VFloat (S754_infinity sign).
Proof.
  destruct v as [|b|z|f|s|l|d]; cbn -[Z.ltb digit_count int_max_str_digits];
    try discriminate; try (intros [= <-]; now left).
  - destruct f as [sg|sg| |sg m ex]; cbn; try discriminate.
    + intros [= <-]. right. eauto.
    + intros [= <-]. now left.
  - destruct (int_max_str_digits <? digit_count s); [intros [= <-]; now left|].
    unfold int_of_str. cbn zeta.
    match goal with
    | |- match ?x with Some _ => _ | None => _ end = _ -> _ => destruct x
    end; [discriminate|].
    intros [= <-]. now left.
Qed.

(** What [read_channel] can raise. *)
Lemma read_channel_raises (data : pyval) (e : exn) :
  read_channel data = Raise e ->
  caught_by_fetch e = true \/
  e = OverflowError /\
  exists items channel statistics key sign,
    py_getitem data (py "items") = Ok items /\
    py_getitem0 items = Ok channel /\
    py_getitem channel (py "statistics") = Ok statistics /\
    (key = py "subscriberCount" \/ key = py "viewCount") /\
    py_getitem statistics key = Ok (VFloat (S754_infinity sign)).
Proof.
  unfold read_channel. intros H.
  apply bind_raise in H as [H | (has_items & _ & H)];
    [left; eapply py_in_raises; eauto|].
  destruct has_items; [|discriminate].
  apply bind_raise in H as [H | (items & Hitems & H)];
    [left; eapply py_getitem_raises; eauto|].
  destruct (truthy items) eqn:Htruthy; [|discriminate].
  apply bind_raise in H as [H | (channel & Hchannel & H)];
    [left; eapply py_getitem0_raises; eauto|].
  apply bind_raise in H as [H | (snippet & _ & H)];
    [left; eapply py_getitem_raises; eauto|].
  apply bind_raise in H as [H | (t & _ & H)];
    [left; eapply py_getitem_raises; eauto|].
  apply bind_raise in H as [H | (statistics & Hstat & H)];
    [left; eapply py_getitem_raises; eauto|].
  apply bind_raise in H as [H | (sc & Hsc & H)];
    [left; eapply py_getitem_raises; eauto|].
  apply bind_raise in H as [H | (subs & _ & H)].
  { apply py_int_raises in H as [H | (-> & sign & ->)]; [now left|].
    right. split; [reflexivity|]. exists items, channel, statistics, (py "subscriberCount"), sign.
    auto 10. }
  apply bind_raise in H as [H | (statistics' & Hstat' & H)];
    [left; eapply py_getitem_raises; eauto|].
  apply bind_raise in H as [H | (vc & Hvc & H)];
    [left; eapply py_getitem_raises; eauto|].
  apply bind_raise in H as [H | (vws & _ & H)]; [|discriminate].
  apply py_int_raises in H as [H | (-> & sign & ->)]; [now left|].
  right. split; [reflexivity|]. exists items, channel, statistics', (py "viewCount"), sign.
  auto 10.
Qed.

(** An exception that leaves a fetch was raised by [response.json()]
    or by [int()] on an infinite count, and no clause names it. *)
Lemma fetch_raise_cause (self : plugin) (h : host) (e : exn) :
  fst (_get_channel_stats self h) = Raise e ->
  caught_by_fetch e = false /\
  exists status,
    raise_for_status status = Ok tt /\
    (remote h (requests h) = Reply status (Raise e) \/
     e = OverflowError /\
     exists data items channel statistics key sign,
       remote h (requests h) = Reply status (Ok data) /\
       py_getitem data (py "items") = Ok items /\
       py_getitem0 items = Ok channel /\
       py_getitem channel (py "statistics") = Ok statistics /\
       (key = py "subscriberCount" \/ key = py "viewCount") /\
       py_getitem statistics key = Ok (VFloat (S754_infinity sign))).
Proof.
  assert (Hclauses : forall (e0 : exn) (h0 : host),
            fst (except_clauses e0 h0) = Raise e -> e0 = e /\ caught_by_fetch e = false).
  { intros e0 h0. destruct e0; cbn; try discriminate; intros [= <-]; now split. }
  unfold _get_channel_stats, cache_get, requests_get, increment_api_counter, cache_set, log.
  repeat case_bool_decide; try discriminate.
  destruct (match cache h !! cache_key_of self with
            | Some e => if now h - stored_at e <? update_interval_config self
                        then Some (entry_value e) else None
            | None => None
            end) as [c|]; [discriminate|]. cbn.
  destruct (remote h (requests h)) as [|status body]; [discriminate|].
  destruct (raise_for_status_cases status) as [Hst | Hst]; rewrite Hst; [|discriminate].
  destruct body as [data|e0].
  2:{ intros E. apply Hclauses in E as [-> Hnot]. split; [exact Hnot|]. eauto. }
  intros E.
  assert (Hr : read_channel data = Raise e /\ caught_by_fetch e = false).
  { destruct (api_counter h); cbn in E;
      destruct (read_channel data) as [[s|]|e0]; try discriminate;
      apply Hclauses in E as [-> Hnot]; now split. }
  destruct Hr as [Hr Hnot]. split; [exact Hnot|]. exists status. split; [exact Hst|].
  apply read_channel_raises in Hr
    as [Hr | (-> & items & channel & statistics & key & sign & ?)]; [congruence|].
  right. split; [reflexivity|]. exists data, items, channel, statistics, key, sign. auto.
Qed.

(** The requests of one fetch. *)
Lemma fetch_http_calls (self : plugin) (h : host) :
  exists evs, calls (snd (_get_channel_stats self h)) = calls h ++ evs /\
    (count_calls is_http_get evs <= 1)%nat.
Proof.
  fetch_cases; cbn.
  all: rewrite <- ?app_assoc; eexists; (split; [reflexivity|]); cbn; lia.
Qed.

Lemma count_calls_app (p : event -> bool) (l k : list event) :
  count_calls p (l ++ k) = (count_calls p l + count_calls p k)%nat.
Proof. unfold count_calls. rewrite List.filter_app. apply length_app. Qed.

(** What [display] does after the fetch of lines 255-257 touches
    neither the cache nor the endpoint. *)
Lemma display_after_fetch (force_clear : bool) (self : plugin) (h : host)
    (r : result unit) (self1 : plugin) (h1 : host) :
  enabled self = true ->
  fetch_if_missing self h = (r, (self1, h1)) ->
  let h' := snd (snd (display force_clear self h)) in
  requests h' = requests h1 /\ cache h' = cache h1 /\
  exists evs, calls h' = calls h1 ++ evs /\ count_calls is_http_get evs = 0%nat.
Proof.
  intros Hen Hfetch. cbn zeta. unfold display. rewrite Hen, Hfetch. cbn [negb].
  assert (Hnil : exists evs : list event,
            calls h1 = calls h1 ++ evs /\ count_calls is_http_get evs = 0%nat).
  { exists []. now rewrite app_nil_r. }
  destruct r as [[]|e]; [|cbn; auto].
  destruct (channel_stats self1) as [cs|].
  2:{ cbn. repeat split. eexists. split; reflexivity. }
  destruct (negb force_clear && negb (stats_changed (last_displayed_stats self1) cs));
    [cbn; auto|].
  unfold _create_display.
  destruct (youtube_logo self1) as [logo|], (font self1) as [fnt|];
    try destruct (compose_image fnt logo _ cs) as [img|ex];
    destruct force_clear; cbn; repeat split; auto;
    rewrite <- ?app_assoc; eexists; split; reflexivity.
Qed.

(** X15.  One call of [update] or [display] sends at most one
    request to the endpoint, whatever the plugin holds and whatever
    comes back. *)
Theorem one_request_per_call (c : entry_call) (self : plugin) (h : host) :
  (requests h <= requests (snd (snd (run_call c self h))) <= S (requests h))%nat /\
  (count_calls is_http_get (calls_since h (snd (snd (run_call c self h)))) <= 1)%nat.
Proof.
  assert (Hupdate : forall r self1 h1, update self h = (r, (self1, h1)) ->
            (requests h <= requests h1 <= S (requests h))%nat /\
            exists evs, calls h1 = calls h ++ evs /\
                        (count_calls is_http_get evs <= 1)%nat).
  { unfold update. intros r self1 h1 E.
    destruct (enabled self).
    - cbn [negb] in E. destruct (fetch_frame self h) as (_ & _ & _ & Hreq & _).
      destruct (fetch_http_calls self h) as (evs & Hcalls & Hcount).
      destruct (_get_channel_stats self h) as [[s|e] h2]; inversion E; subst;
        cbn [snd] in *; (split; [lia|eauto]).
    - inversion E; subst. split; [lia|]. exists []. rewrite app_nil_r. split; [reflexivity|].
      cbn. lia. }
  destruct c as [|force_clear]; cbn [run_call].
  - destruct (update self h) as [r [self1 h1]] eqn:E. cbn [snd].
    destruct (Hupdate r self1 h1 eq_refl) as (Hreq & evs & Hcalls & Hcount).
    split; [exact Hreq|]. now rewrite (calls_since_app _ _ _ Hcalls).
  - destruct (enabled self) eqn:Hen.
    2:{ unfold display. rewrite Hen. cbn. split; [lia|].
        unfold calls_since. rewrite drop_all. cbn. lia. }
    destruct (fetch_if_missing self h) as [r [self1 h1]] eqn:Hfetch.
    destruct (display_after_fetch force_clear self h r self1 h1 Hen Hfetch)
      as (Hreq & _ & evs2 & Hcalls2 & Hcount2).
    assert (Hfirst : (requests h <= requests h1 <= S (requests h))%nat /\
              exists evs, calls h1 = calls h ++ evs /\
                          (count_calls is_http_get evs <= 1)%nat).
    { unfold fetch_if_missing in Hfetch. destruct (channel_stats self).
      - inversion Hfetch; subst. split; [lia|]. exists []. rewrite app_nil_r.
        split; [reflexivity|]. cbn. lia.
      - eapply Hupdate; eauto. }
    destruct Hfirst as (Hreq1 & evs1 & Hcalls1 & Hcount1).
    rewrite Hreq. split; [exact Hreq1|].
    erewrite calls_since_app; [|rewrite Hcalls2, Hcalls1, <- app_assoc; reflexivity].
    rewrite count_calls_app. lia.
Qed.

(** X16.  What leaves [update] and [display].  When a call raises,
    the exception comes from the fetch and is of a class that neither
    [except] clause of lines 174-179 names: either [response.json()]
    raised it (the [RecursionError] of a body nested too deeply, for
    one), or it is the [OverflowError] of [int()] on an infinite
    [subscriberCount] or [viewCount] in the first item.  The plugin is
    then unchanged, and the surface was not touched. *)
Theorem what_leaves_a_call
    (c : entry_call) (self : plugin) (h : host)
    (e : exn) (self' : plugin) (h' : host) :
  run_call c self h = (Raise e, (self', h')) ->
  caught_by_fetch e = false /\ self' = self /\ surface_calls (calls_since h h') = [] /\
  exists status,
    raise_for_status status = Ok tt /\
    (remote h (requests h) = Reply status (Raise e) \/
     e = OverflowError /\
     exists data items channel statistics key sign,
       remote h (requests h) = Reply status (Ok data) /\
       py_getitem data (py "items") = Ok items /\
       py_getitem0 items = Ok channel /\
       py_getitem channel (py "statistics") = Ok statistics /\
       (key = py "subscriberCount" \/ key = py "viewCount") /\
       py_getitem statistics key = Ok (VFloat (S754_infinity sign))).
Proof.
  assert (Hupdate : update self h = (Raise e, (self', h')) ->
            caught_by_fetch e = false /\ self' = self /\
            surface_calls (calls_since h h') = [] /\
            exists status,
              raise_for_status status = Ok tt /\
              (remote h (requests h) = Reply status (Raise e) \/
               e = OverflowError /\
               exists data items channel statistics key sign,
                 remote h (requests h) = Reply status (Ok data) /\
                 py_getitem data (py "items") = Ok items /\
                 py_getitem0 items = Ok channel /\
                 py_getitem channel (py "statistics") = Ok statistics /\
                 (key = py "subscriberCount" \/ key = py "viewCount") /\
                 py_getitem statistics key = Ok (VFloat (S754_infinity sign)))).
  { unfold update. destruct (enabled self); [|discriminate]. cbn [negb].
    destruct (fetch_calls self h) as (evs & Hcalls & Hsurf & _).
    assert (Hcause := fetch_raise_cause self h).
    destruct (_get_channel_stats self h) as [[s|e0] h1]; [discriminate|].
    cbn [fst snd] in *. intros [= -> -> ->].
    destruct (Hcause e eq_refl) as [Hnot Hwhy].
    repeat split; auto. now rewrite (calls_since_app _ _ _ Hcalls). }
  destruct c as [|force_clear]; cbn [run_call]; [exact Hupdate|].
  unfold display. destruct (enabled self); [|discriminate]. cbn [negb].
  unfold fetch_if_missing. destruct (channel_stats self) as [cs|] eqn:Hcs.
  - rewrite Hcs.
    destruct (negb force_clear && negb (stats_changed (last_displayed_stats self) cs));
      [discriminate|].
    destruct (_create_display self _ (Some cs)) as [[img|] h2]; discriminate.
  - destruct (update self h) as [[[]|e0] [self1 h1]] eqn:Hu.
    + destruct (channel_stats self1) as [cs|]; [|discriminate].
      destruct (negb force_clear && negb (stats_changed (last_displayed_stats self1) cs));
        [discriminate|].
      destruct (_create_display self1 _ (Some cs)) as [[img|] h2]; discriminate.
    + intros [= -> -> ->]. now apply Hupdate.
Qed.

Lemma what_leaves_a_call_witness :
  let h1 := snd (snd (run_call (CallDisplay true) test_plugin infinite_host)) in
  let h2 := snd (snd (run_call CallUpdate plugin_with_stats nested_host)) in
  (run_call (CallDisplay true) test_plugin infinite_host =
     (Raise OverflowError, (test_plugin, h1)) /\
   run_call CallUpdate plugin_with_stats nested_host =
     (Raise RecursionError, (plugin_with_stats, h2))) /\
  surface_calls (calls_since infinite_host h1) = [] /\
  caught_by_fetch RecursionError = false /\
  surface_calls (calls_since nested_host h2) = [].
Proof.
  intros h1 h2.
  assert (Hrun1 : run_call (CallDisplay true) test_plugin infinite_host =
                  (Raise OverflowError, (test_plugin, h1))) by (vm_compute; reflexivity).
  assert (Hrun2 : run_call CallUpdate plugin_with_stats nested_host =
                  (Raise RecursionError, (plugin_with_stats, h2)))
    by (vm_compute; reflexivity).
  split; [exact (conj Hrun1 Hrun2)|].
  destruct (what_leaves_a_call (CallDisplay true) test_plugin infinite_host
              OverflowError test_plugin h1 Hrun1) as (_ & _ & Hsurf1 & _).
  destruct (what_leaves_a_call CallUpdate plugin_with_stats nested_host
              RecursionError plugin_with_stats h2 Hrun2) as (Hnot & _ & Hsurf2 & _).
  exact (conj Hsurf1 (conj Hnot Hsurf2)).
Defined.

(** ** The first display *)

(** X17.  From no data to data in one call.  On an enabled plugin
    without stats, when the fetch returns a record and the composition
    an image, [display] stores the record, draws it (after a [clear]
    when forced) and records it as the last displayed, provided the
    call is forced or nothing was displayed before. *)
Theorem first_display_fetches_and_draws
    (force_clear : bool) (self : plugin) (h : host) (s : stats) (img : image) :
  enabled self = true ->
  channel_stats self = None ->
  force_clear = true \/ last_displayed_stats self = None ->
  fst (_get_channel_stats self h) = Ok (Some s) ->
  fst (_create_display (with_channel_stats (Some s) self)
         (surface_for force_clear (snd (_get_channel_stats self h))) (Some s)) = Some img ->
  display force_clear self h =
    (Ok tt, (with_last_displayed_stats (Some s) (with_channel_stats (Some s) self),
             log LDebug "Displayed stats for channel: "
               (update_display
                  (set_image img
                     (surface_for force_clear (snd (_get_channel_stats self h))))))).
Proof.
  intros Hen Hnone Hwhy Hfetch Hcomp.
  unfold display, fetch_if_missing, update. rewrite Hen, Hnone. cbn [negb].
  destruct (_get_channel_stats self h) as [fetched h1]. cbn [fst snd] in *. subst fetched.
  cbn [channel_stats with_channel_stats last_displayed_stats].
  assert (Hredraw : negb force_clear && negb (stats_changed (last_displayed_stats self) s) =
                    false).
  { destruct Hwhy as [-> | ->]; [reflexivity|]. cbn. apply andb_false_r. }
  rewrite Hredraw. unfold surface_for in Hcomp.
  now rewrite (create_display_image _ _ _ _ Hcomp).
Qed.

Lemma first_display_fetches_and_draws_witness :
  (enabled test_plugin = true /\ channel_stats test_plugin = None /\
   last_displayed_stats test_plugin = None /\
   fst (_get_channel_stats test_plugin test_host) = Ok (Some test_stats) /\
   fst (_create_display (with_channel_stats (Some test_stats) test_plugin)
          (surface_for false (snd (_get_channel_stats test_plugin test_host)))
          (Some test_stats)) = Some test_image) /\
  display false test_plugin test_host =
    (Ok tt, (with_last_displayed_stats (Some test_stats)
               (with_channel_stats (Some test_stats) test_plugin),
             log LDebug "Displayed stats for channel: "
               (update_display
                  (set_image test_image
                     (surface_for false (snd (_get_channel_stats test_plugin test_host))))))).
Proof.
  assert (Hen : enabled test_plugin = true) by reflexivity.
  assert (Hnone : channel_stats test_plugin = None) by reflexivity.
  assert (Hlast : last_displayed_stats test_plugin = None) by reflexivity.
  assert (Hfetch : fst (_get_channel_stats test_plugin test_host) = Ok (Some test_stats))
    by (vm_compute; reflexivity).
  assert (Hcomp : fst (_create_display (with_channel_stats (Some test_stats) test_plugin)
                         (surface_for false (snd (_get_channel_stats test_plugin test_host)))
                         (Some test_stats)) = Some test_image) by (vm_compute; reflexivity).
  split; [exact (conj Hen (conj Hnone (conj Hlast (conj Hfetch Hcomp))))|].
  exact (first_display_fetches_and_draws false test_plugin test_host test_stats test_image
           Hen Hnone (or_intror Hlast) Hfetch Hcomp).
Defined.

(** ** Numerals *)

Lemma uint_digits_are_digits (u : Decimal.uint) : Forall is_digit_char (uint_digits u).
Proof. induction u; cbn; constructor; auto; unfold is_digit_char; lia. Qed.

Lemma digit_is_not_space (c : N) : is_digit_char c -> is_space c = false.
Proof.
  unfold is_digit_char, is_space. intros [Hlo Hhi].
  rewrite (proj2 (N.leb_gt c 13)), (proj2 (N.leb_gt 8192 c)) by lia.
  rewrite !(proj2 (N.eqb_neq c _)) by lia.
  now rewrite !andb_false_r.
Qed.

Lemma lstrip_no_space (s : pystr) :
  Forall (fun c => is_space c = false) s -> lstrip s = s.
Proof. destruct 1 as [|c s Hc _]; cbn; [reflexivity | now rewrite Hc]. Qed.

Lemma strip_no_space (s : pystr) :
  Forall (fun c => is_space c = false) s -> strip s = s.
Proof.
  intros H. unfold strip. rewrite (lstrip_no_space s H).
  rewrite lstrip_no_space; [apply rev_involutive|].
  now apply Forall_rev.
Qed.

Lemma digits_value_acc (l : Decimal.uint) : forall acc,
  digits_value (Z.pos acc) true (uint_digits l) = Some (Z.pos (Pos.of_uint_acc l acc)).
Proof.
  induction l; intros acc; cbn [uint_digits Pos.of_uint_acc]; [reflexivity|..];
    cbn [digits_value]; cbn -[Z.mul Z.add Pos.mul Pos.add digits_value Pos.of_uint_acc];
    rewrite <- IHl; f_equal; lia.
Qed.

Lemma digits_value_uint (d : Decimal.uint) :
  digits_value 0 true (uint_digits d) = Some (Z.of_N (Pos.of_uint d)).
Proof.
  induction d; cbn [uint_digits Pos.of_uint]; [reflexivity|..];
    cbn [digits_value]; cbn -[digits_value Pos.of_uint_acc Pos.of_uint];
    first [exact IHd | apply digits_value_acc].
Qed.

Lemma digits_value_start (d : Decimal.uint) :
  d <> Decimal.Nil ->
  digits_value 0 false (uint_digits d) = digits_value 0 true (uint_digits d).
Proof. destruct d; [congruence|..]; reflexivity. Qed.

Lemma to_uint_nonnil (n : N) : N.to_uint n <> Decimal.Nil.
Proof. destruct n; [discriminate|]. apply DecimalPos.Unsigned.to_uint_nonnil. Qed.

Lemma digits_value_of_N (n : N) :
  digits_value 0 false (uint_digits (N.to_uint n)) = Some (Z.of_N n).
Proof.
  rewrite digits_value_start by apply to_uint_nonnil.
  rewrite digits_value_uint. f_equal. f_equal. apply DecimalN.Unsigned.of_to.
Qed.

(** [int(str(z)) == z]. *)
Lemma int_of_numeral (z : Z) : int_of_str (numeral z) = Ok z.
Proof.
  unfold int_of_str, numeral.
  assert (Hds : Forall (fun c => is_space c = false) (uint_digits (N.to_uint (Z.abs_N z)))).
  { eapply Forall_impl; [apply uint_digits_are_digits | apply digit_is_not_space]. }
  destruct (Z.ltb_spec z 0) as [Hneg|Hpos].
  - rewrite strip_no_space by (constructor; [reflexivity | exact Hds]).
    rewrite digits_value_of_N. cbn. f_equal. lia.
  - rewrite strip_no_space by exact Hds.
    assert (Hplain : match uint_digits (N.to_uint (Z.abs_N z)) with
                     | 43%N :: r => digits_value 0 false r
                     | 45%N :: r => Z.opp <$> digits_value 0 false r
                     | _ => digits_value 0 false (uint_digits (N.to_uint (Z.abs_N z)))
                     end = digits_value 0 false (uint_digits (N.to_uint (Z.abs_N z)))).
    { destruct (N.to_uint (Z.abs_N z)); reflexivity. }
    rewrite Hplain, digits_value_of_N. f_equal. lia.
Qed.






(** Comparison of two literal keys. *)
Ltac decide_keys :=
  match goal with
  | |- context [bool_decide (?a = ?b)] =>
      first [ rewrite (bool_decide_eq_true_2 (a = b)) by reflexivity
            | rewrite (bool_decide_eq_false_2 (a = b)) by (vm_compute; discriminate) ]
  end.

Lemma is_digit_ascii (c : N) : is_digit_char c -> is_digit c = true.
Proof.
  unfold is_digit_char, is_digit, digit_value, decimal_zeros. intros [Hlo Hhi].
  cbn [List.find].
  now rewrite (proj2 (N.leb_le 48 c) Hlo), (proj2 (N.leb_le c (48 + 9)) Hhi).
Qed.

Lemma filter_all {A : Type} (f : A -> bool) (l : list A) :
  Forall (fun x => f x = true) l -> List.filter f l = l.
Proof. induction 1 as [|x l Hx _ IH]; cbn; [reflexivity|]. now rewrite Hx, IH. Qed.

(** The digits counted in a numeral are its digits; the sign is not
    one of them. *)
Lemma digit_count_numeral (z : Z) :
  digit_count (numeral z) = Z.of_nat (length (uint_digits (N.to_uint (Z.abs_N z)))).
Proof.
  unfold digit_count, numeral.
  assert (Hds : List.filter is_digit (uint_digits (N.to_uint (Z.abs_N z))) =
                uint_digits (N.to_uint (Z.abs_N z))).
  { apply filter_all. eapply Forall_impl; [apply uint_digits_are_digits|].
    apply is_digit_ascii. }
  destruct (z <? 0); [|now rewrite Hds].
  change (List.filter is_digit (45%N :: ?l)) with (List.filter is_digit l).
  now rewrite Hds.
Qed.

Lemma py_int_numeral (z : Z) :
  digit_count (numeral z) <= int_max_str_digits -> py_int (VStr (numeral z)) = Ok z.
Proof.
  intros Hfew. unfold py_int.
  rewrite (proj2 (Z.ltb_ge _ _) Hfew). apply int_of_numeral.
Qed.

Lemma py_int_too_long (s : pystr) :
  int_max_str_digits < digit_count s -> py_int (VStr s) = Raise ValueError.
Proof. intros Hmany. unfold py_int. now rewrite (proj2 (Z.ltb_lt _ _) Hmany). Qed.

(** X19.  A response of the documented shape, with the two counts
    written as decimal numerals of at most 4300 digits each, is read
    exactly: the record has the title as sent and the two integers the
    numerals denote, negative ones included. *)
Theorem documented_body_is_read (t : pyval) (a b : Z) :
  digit_count (numeral a) <= int_max_str_digits ->
  digit_count (numeral b) <= int_max_str_digits ->
  read_channel (channel_body t (VStr (numeral a)) (VStr (numeral b))) =
    Ok (Some {| title := t; subscribers := a; views := b |}).
Proof.
  intros Ha Hb.
  assert (Hshape : read_channel (channel_body t (VStr (numeral a)) (VStr (numeral b))) =
            (subs ← py_int (VStr (numeral a));
             vws ← py_int (VStr (numeral b));
             Ok (Some {| title := t; subscribers := subs; views := vws |}))).
  { unfold read_channel, channel_body.
    repeat (progress cbn -[numeral py_int] || decide_keys). reflexivity. }
  now rewrite Hshape, (py_int_numeral a Ha), (py_int_numeral b Hb).
Qed.

Lemma documented_body_is_read_witness :
  (digit_count (numeral 1234) <= int_max_str_digits /\
   digit_count (numeral (-56789)) <= int_max_str_digits) /\
  read_channel (channel_body VNone (VStr (numeral 1234)) (VStr (numeral (-56789)))) =
    Ok (Some {| title := VNone; subscribers := 1234; views := -56789 |}).
Proof.
  assert (Ha : digit_count (numeral 1234) <= int_max_str_digits)
    by (vm_compute; discriminate).
  assert (Hb : digit_count (numeral (-56789)) <= int_max_str_digits)
    by (vm_compute; discriminate).
  split; [exact (conj Ha Hb)|].
  exact (documented_body_is_read VNone 1234 (-56789) Ha Hb).
Defined.

(** ** The layout *)

(** What a composed image is made of. *)
Lemma composed_image_shape (self : plugin) (h : host) (cs : stats) (img : image) :
  fst (_create_display self h (Some cs)) = Some img ->
  exists fnt logo logo_width logo_height name,
    font self = Some fnt /\ youtube_logo self = Some logo /\
    logo_size (matrix_height h) logo = Ok (logo_width, logo_height) /\
    title cs = VStr name /\
    let W := matrix_width h in
    let H := matrix_height h in
    let rsx := right_section_x logo_width in
    let line := truncate_name (max_chars W rsx) name in
    let subs := format_thousands (subscribers cs) ++ py " subs" in
    let vws := format_thousands (views cs) ++ py " views" in
    img =
      {| img_size := (W, H);
         img_logo_size := (logo_width, logo_height);
         img_logo_at := (2, (H - logo_height) `div` 2);
         img_texts :=
           [ (rsx + (W - rsx - text_width fnt line) `div` 2, (H - 10 * 3) `div` 2, line);
             (rsx + (W - rsx - text_width fnt subs) `div` 2, (H - 10 * 3) `div` 2 + 10, subs);
             (rsx + (W - rsx - text_width fnt vws) `div` 2,
              (H - 10 * 3) `div` 2 + 10 * 2, vws) ] |}.
Proof.
  unfold _create_display.
  destruct (youtube_logo self) as [logo|]; [|discriminate].
  destruct (font self) as [fnt|]; [|discriminate].
  unfold compose_image.
  destruct (logo_size (matrix_height h) logo) as [[lw lh]|e] eqn:Hsize; [|discriminate].
  cbn [mbind result_bind].
  destruct (title cs) as [| | | |name| |]; try discriminate.
  match goal with |- context [pillow_draws h ?i] => destruct (pillow_draws h i) end;
    [|discriminate].
  cbn [fst]. intros [= <-]. exists fnt, logo, lw, lh, name. repeat split; auto.
Qed.

(** X20.  Every composed image has the layout of lines 199-236: three
    lines 10 pixels apart, the second and third being the two counts
    with thousands separators and their labels; each line centred
    between the start of the text region and the right edge, the block
    of 30 pixels centred in the height, the logo centred in the height
    at 2 pixels from the left, and the text region starting 4 pixels
    after the logo.  This holds whatever the widths of the texts, also
    when a line is wider than its region. *)
Theorem text_lines_are_centred
    (self : plugin) (h : host) (cs : stats) (img : image) :
  fst (_create_display self h (Some cs)) = Some img ->
  exists fnt logo_width logo_height x1 x2 x3 y t1 t2 t3,
    font self = Some fnt /\
    img_logo_size img = (logo_width, logo_height) /\
    img_texts img = [ (x1, y, t1); (x2, y + 10, t2); (x3, y + 20, t3) ] /\
    t2 = format_thousands (subscribers cs) ++ py " subs" /\
    t3 = format_thousands (views cs) ++ py " views" /\
    centred (x1 - right_section_x logo_width) (matrix_width h - (x1 + text_width fnt t1)) /\
    centred (x2 - right_section_x logo_width) (matrix_width h - (x2 + text_width fnt t2)) /\
    centred (x3 - right_section_x logo_width) (matrix_width h - (x3 + text_width fnt t3)) /\
    centred y (matrix_height h - (y + 30)) /\
    centred (snd (img_logo_at img))
            (matrix_height h - (snd (img_logo_at img) + logo_height)) /\
    fst (img_logo_at img) = 2 /\
    right_section_x logo_width = fst (img_logo_at img) + logo_width + 4.
Proof.
  intros Himg.
  destruct (composed_image_shape self h cs img Himg)
    as (fnt & logo & lw & lh & name & Hfont & _ & _ & _ & ->).
  cbn zeta. eexists fnt, lw, lh, _, _, _, _, _, _, _.
  cbn [img_logo_size img_texts img_logo_at fst snd].
  split; [exact Hfont|]. split; [reflexivity|].
  split; [repeat f_equal; lia|]. split; [reflexivity|]. split; [reflexivity|].
  unfold centred, right_section_x. repeat split; Z.div_mod_to_equations; lia.
Qed.

Lemma text_lines_are_centred_witness :
  fst (_create_display plugin_with_stats test_host (Some test_stats)) = Some test_image /\
  exists x1 x2 x3 y t1 t2 t3,
    img_texts test_image = [ (x1, y, t1); (x2, y + 10, t2); (x3, y + 20, t3) ] /\
    centred y (matrix_height test_host - (y + 30)).
Proof.
  assert (Himg : fst (_create_display plugin_with_stats test_host (Some test_stats)) =
                 Some test_image) by (vm_compute; reflexivity).
  split; [exact Himg|].
  destruct (text_lines_are_centred plugin_with_stats test_host test_stats test_image Himg)
    as (fnt & lw & lh & x1 & x2 & x3 & y & t1 & t2 & t3 &
        _ & _ & Htexts & _ & _ & _ & _ & _ & Hy & _).
  exists x1, x2, x3, y, t1, t2, t3. exact (conj Htexts Hy).
Defined.

(** X21.  With a font that is 8 pixels wide per character, as line
    216 assumes, and a text region with room for at least 3
    characters, the name line is drawn inside the region: it starts at
    least 2 pixels after the region's left end and ends at least 2
    pixels before the right edge of the panel. *)
Theorem name_line_inside_region
    (self : plugin) (h : host) (cs : stats) (img : image) (fnt : Font) :
  fst (_create_display self h (Some cs)) = Some img ->
  font self = Some fnt -> eight_pixel_font fnt ->
  3 <= max_chars (matrix_width h) (right_section_x (fst (img_logo_size img))) ->
  exists x y line rest,
    img_texts img = (x, y, line) :: rest /\
    Z.of_nat (length line) <=
      max_chars (matrix_width h) (right_section_x (fst (img_logo_size img))) /\
    right_section_x (fst (img_logo_size img)) + 2 <= x /\
    x + text_width fnt line <= matrix_width h - 2.
Proof.
  intros Himg Hfont Height.
  destruct (composed_image_shape self h cs img Himg)
    as (fnt' & logo & lw & lh & name & Hfont' & _ & _ & _ & ->).
  rewrite Hfont in Hfont'. inversion Hfont'; subst fnt'. cbn zeta.
  cbn [img_logo_size img_texts fst]. intros Hroom.
  eexists _, _, _, _. split; [reflexivity|].
  set (N := max_chars (matrix_width h) (right_section_x lw)) in *.
  assert (Hlen : Z.of_nat (length (truncate_name N name)) <= N).
  { destruct (Z.le_gt_cases (Z.of_nat (length name)) N) as [Hfit|Hlong].
    - now rewrite truncate_name_short.
    - destruct (truncate_name_long N name Hroom) as [_ Hl]; lia. }
  split; [exact Hlen|].
  rewrite Height.
  assert (Hbudget : 8 * N <= matrix_width h - right_section_x lw - 4).
  { unfold N, max_chars. Z.div_mod_to_equations. lia. }
  Z.div_mod_to_equations. lia.
Qed.

Lemma name_line_inside_region_witness :
  (fst (_create_display plugin_with_stats test_host (Some test_stats)) = Some test_image /\
   font plugin_with_stats = Some fixed_font /\
   3 <= max_chars (matrix_width test_host)
          (right_section_x (fst (img_logo_size test_image)))) /\
  exists x y line rest,
    img_texts test_image = (x, y, line) :: rest /\
    x + text_width fixed_font line <= matrix_width test_host - 2.
Proof.
  assert (Himg : fst (_create_display plugin_with_stats test_host (Some test_stats)) =
                 Some test_image) by (vm_compute; reflexivity).
  assert (Hfont : font plugin_with_stats = Some fixed_font) by reflexivity.
  assert (Height : eight_pixel_font fixed_font) by (intros s; reflexivity).
  assert (Hroom : 3 <= max_chars (matrix_width test_host)
                         (right_section_x (fst (img_logo_size test_image))))
    by (vm_compute; discriminate).
  split; [exact (conj Himg (conj Hfont Hroom))|].
  destruct (name_line_inside_region plugin_with_stats test_host test_stats test_image
              fixed_font Himg Hfont Height Hroom)
    as (x & y & line & rest & Htexts & _ & _ & Hright).
  exists x, y, line, rest. exact (conj Htexts Hright).
Defined.

(** [int(matrix_height * 0.6)] in binary64, checked for every height up
    to 4096. *)
Lemma logo_heights_checked :
  forallb logo_height_ok (map Z.of_nat (seq 0 4097)) = true.
Proof. vm_compute. reflexivity. Qed.

(** X22.  For a panel of up to 4096 rows, the binary64 product
    [matrix_height * 0.6] truncates to the integer part of six tenths
    of the height: whenever the logo size is computed, the logo height
    is [6 * matrix_height // 10], and the logo, centred, lies within
    the height of the panel. *)
Theorem logo_height_is_six_tenths
    (H : Z) (logo : Logo) (logo_width logo_height : Z) :
  0 <= H <= 4096 ->
  logo_size H logo = Ok (logo_width, logo_height) ->
  logo_height = (6 * H) `div` 10 /\
  0 <= (H - logo_height) `div` 2 /\
  (H - logo_height) `div` 2 + logo_height <= H.
Proof.
  intros HH Hsize.
  assert (Hok : logo_height_ok H = true).
  { assert (Hall := logo_heights_checked). rewrite forallb_forall in Hall.
    apply Hall. apply in_map_iff. exists (Z.to_nat H). split; [lia|].
    apply in_seq. lia. }
  unfold logo_height_ok in Hok. unfold logo_size in Hsize.
  destruct (py_mul_int_float H float_0_6) as [scaled|]; [|discriminate].
  cbn [mbind result_bind] in *.
  destruct (int_of_float scaled) as [z|]; [|discriminate].
  cbn [mbind result_bind] in *. apply Z.eqb_eq in Hok.
  destruct (py_truediv z (logo_height_px logo)) as [ratio|]; [|discriminate].
  cbn [mbind result_bind] in *.
  destruct (py_mul_int_float (logo_width_px logo) ratio) as [w|]; [|discriminate].
  cbn [mbind result_bind] in *.
  destruct (int_of_float w) as [lw|]; [|discriminate].
  cbn [mbind result_bind] in *. inversion Hsize; subst. Z.div_mod_to_equations. lia.
Qed.

Lemma logo_height_is_six_tenths_witness :
  (0 <= 32 <= 4096 /\
   logo_size 32 {| logo_width_px := 100; logo_height_px := 70 |} = Ok (27, 19)) /\
  19 = (6 * 32) `div` 10.
Proof.
  assert (Hrange : 0 <= 32 <= 4096) by (split; vm_compute; discriminate).
  assert (Hsize : logo_size 32 {| logo_width_px := 100; logo_height_px := 70 |} =
                  Ok (27, 19)) by (vm_compute; reflexivity).
  split; [exact (conj Hrange Hsize)|].
  exact (proj1 (logo_height_is_six_tenths 32 _ 27 19 Hrange Hsize)).
Defined.

(** ** The configuration of a constructed plugin *)

(** The constructor's asset loading leaves the configuration and the
    two snapshots as the first lines of [__init__] set them. *)
Lemma init_config (id : pystr) (base_enabled : bool) (cfg : config) (env : os_env) (h : host) :
  plugin_id (fst (__init__ id base_enabled cfg env h)) = id /\
  channel_id (fst (__init__ id base_enabled cfg env h)) = default [] (cfg_channel_id cfg) /\
  api_key (fst (__init__ id base_enabled cfg env h)) = default [] (cfg_api_key cfg) /\
  update_interval_config (fst (__init__ id base_enabled cfg env h)) =
    default 300 (cfg_update_interval cfg) /\
  channel_stats (fst (__init__ id base_enabled cfg env h)) = None /\
  last_displayed_stats (fst (__init__ id base_enabled cfg env h)) = None.
Proof.
  unfold __init__. cbn [enabled]. destruct base_enabled; [|cbn; auto 10].
  unfold _initialize_display.
  match goal with |- context [load_font env ?s h] =>
    destruct (load_font_spec env s h) as (f & msg & lvl & ->) end.
  match goal with |- context [load_logo env ?s ?h'] =>
    destruct (load_logo_spec env s h') as [(q & l & lvl' & msg' & _ & _ & ->)
                                          | (_ & lvl' & msg' & ->)] end;
    cbn; auto 10.
Qed.

(** X23.  The constructed plugin follows its configuration.  It starts
    without stats and without displayed stats.  When [channel_id] or
    [api_key] is absent from the configuration, or empty, it fails
    [validate_config] and its fetch returns [None] without a request.
    When both are there, it passes, and its fetch asks the cache under
    the key [<plugin_id>_channel_stats] with the configured
    [update_interval], 300 when none is configured, as [max_age]. *)
Theorem constructed_plugin_follows_config
    (id : pystr) (base_enabled : bool) (cfg : config) (env : os_env) (h h' : host)
    (self : plugin) :
  self = fst (__init__ id base_enabled cfg env h) ->
  (channel_stats self = None /\ last_displayed_stats self = None) /\
  (default [] (cfg_channel_id cfg) = [] \/ default [] (cfg_api_key cfg) = [] ->
     fst (validate_config true self h') = false /\
     fst (_get_channel_stats self h') = Ok None /\
     requests (snd (_get_channel_stats self h')) = requests h') /\
  (default [] (cfg_channel_id cfg) <> [] -> default [] (cfg_api_key cfg) <> [] ->
     fst (validate_config true self h') = true /\
     exists rest,
       calls_since h' (snd (_get_channel_stats self h')) =
         CacheGet (id ++ py "_channel_stats") (default 300 (cfg_update_interval cfg))
           :: rest).
Proof.
  intros ->.
  destruct (init_config id base_enabled cfg env h)
    as (Hpid & Hid & Hkey & Hint & Hstats & Hlast).
  set (self := fst (__init__ id base_enabled cfg env h)) in *.
  split; [now split|]. split.
  - intros Hmissing.
    assert (Hm : api_key self = [] \/ channel_id self = []).
    { rewrite Hkey, Hid. tauto. }
    destruct (fetch_missing_credentials self h' Hm) as (msg & ->). cbn [fst snd].
    split; [|now split].
    unfold validate_config. cbn [negb].
    destruct (decide (channel_id self = [])) as [Hc|Hc].
    { now rewrite (bool_decide_eq_true_2 _ Hc). }
    rewrite (bool_decide_eq_false_2 _ Hc).
    destruct Hm as [Hk|Hc']; [|contradiction].
    now rewrite (bool_decide_eq_true_2 _ Hk).
  - intros Hc Hk. rewrite <- Hid in Hc. rewrite <- Hkey in Hk. split.
    + unfold validate_config. cbn [negb].
      now rewrite (bool_decide_eq_false_2 _ Hc), (bool_decide_eq_false_2 _ Hk).
    + destruct (fetch_starts_at_cache self h' Hk Hc) as (rest & Hcalls).
      exists rest. rewrite Hcalls. unfold cache_key_of. now rewrite Hpid, Hint.
Qed.

Lemma constructed_plugin_follows_config_witness :
  let configured := fst (__init__ (py "youtube-stats") true test_config sample_env test_host) in
  let keyless :=
    fst (__init__ (py "youtube-stats") true config_without_key sample_env test_host) in
  (default [] (cfg_channel_id test_config) <> [] /\
   default [] (cfg_api_key test_config) <> [] /\
   default [] (cfg_api_key config_without_key) = []) /\
  (fst (validate_config true configured test_host) = true /\
   exists rest,
     calls_since test_host (snd (_get_channel_stats configured test_host)) =
       CacheGet (py "youtube-stats" ++ py "_channel_stats") 300 :: rest) /\
  fst (validate_config true keyless test_host) = false /\
  fst (_get_channel_stats keyless test_host) = Ok None /\
  requests (snd (_get_channel_stats keyless test_host)) = requests test_host.
Proof.
  intros configured keyless.
  assert (Hc : default [] (cfg_channel_id test_config) <> []) by (vm_compute; discriminate).
  assert (Hk : default [] (cfg_api_key test_config) <> []) by (vm_compute; discriminate).
  assert (Hnokey : default [] (cfg_api_key config_without_key) = []) by reflexivity.
  split; [exact (conj Hc (conj Hk Hnokey))|].
  exact (conj
           (proj2 (proj2 (constructed_plugin_follows_config (py "youtube-stats") true
                            test_config sample_env test_host test_host configured eq_refl))
              Hc Hk)
           (proj1 (proj2 (constructed_plugin_follows_config (py "youtube-stats") true
                            config_without_key sample_env test_host test_host keyless
                            eq_refl))
              (or_intror Hnokey))).
Defined.
